(** * Sanctions consolidation pipeline: a shallow embedding

    The development follows the Python sources of the repository:
    - [main.py]: the consolidation engine ([update_watchlist_column],
      [extract_eu_watchlist_from_number], [standardize_watchlist],
      [standardize_dob_format], [step6_consolidate_data]);
    - [ofac_extractor.py]: the OFAC delta extractor;
    - [un_sanctions_parser.py]: the UN consolidated-list extractor;
    - [gemini_markdown_csv.py]: the document-derived extractor.

    Conventions of the embedding.
    - A Python [str] is a [string]; the character classes used by the code
      ([str.lower], [str.strip], [str.isdigit], the regex classes [\d], [\s],
      [\b], [[A-Za-z]]) are taken on the ASCII range, every other character
      being an ordinary non-space, non-digit, caseless character.
    - A pandas cell is an [option string]: [None] is the missing value NaN,
      whose [str()] is ["nan"].  A row is a finite map from column names to
      strings (an absent key is NaN), a table is a column list with its rows.
    - A function that can raise returns an [option] or a sum; a [try/except]
      is a [match] on that result. *)

From Stdlib Require Import Ascii NArith ZArith Lia Bool Sorted Permutation.
From stdpp Require Import gmap strings list sorting.

Local Open Scope nat_scope.

(** ** Python string primitives *)

Module Py.

Definition code (c : ascii) : N := N_of_ascii c.

Definition is_digit (c : ascii) : bool :=
  (48 <=? code c)%N && (code c <=? 57)%N.

Definition is_upper (c : ascii) : bool :=
  (65 <=? code c)%N && (code c <=? 90)%N.

Definition is_lower (c : ascii) : bool :=
  (97 <=? code c)%N && (code c <=? 122)%N.

Definition is_alpha (c : ascii) : bool := is_upper c || is_lower c.

(** [str.isspace] on the ASCII range: TAB..CR, FS..US and the blank. *)
Definition is_space (c : ascii) : bool :=
  ((9 <=? code c)%N && (code c <=? 13)%N)
  || ((28 <=? code c)%N && (code c <=? 32)%N).

(** The regex class [\w]. *)
Definition is_word (c : ascii) : bool :=
  is_digit c || is_alpha c || Ascii.eqb c "_".

Definition lower_char (c : ascii) : ascii :=
  if is_upper c then ascii_of_N (code c + 32) else c.

Fixpoint lower (s : string) : string :=
  match s with
  | EmptyString => EmptyString
  | String c s' => String (lower_char c) (lower s')
  end.

(** Truthiness of a [str]. *)
Definition truthy (s : string) : bool :=
  match s with EmptyString => false | String _ _ => true end.

Fixpoint lstrip (s : string) : string :=
  match s with
  | EmptyString => EmptyString
  | String c s' => if is_space c then lstrip s' else s
  end.

Fixpoint rstrip (s : string) : string :=
  match s with
  | EmptyString => EmptyString
  | String c s' =>
      let r := rstrip s' in
      if is_space c && negb (truthy r) then EmptyString else String c r
  end.

Definition strip (s : string) : string := rstrip (lstrip s).

(** [s.lstrip(c)] for a single character. *)
Fixpoint lstrip_char (c : ascii) (s : string) : string :=
  match s with
  | EmptyString => EmptyString
  | String d s' => if Ascii.eqb d c then lstrip_char c s' else s
  end.

(** Slices [s[:n]] and [s[n:]]. *)
Fixpoint take (n : nat) (s : string) : string :=
  match n, s with
  | S n', String c s' => String c (take n' s')
  | _, _ => EmptyString
  end.

Fixpoint drop (n : nat) (s : string) : string :=
  match n, s with
  | S n', String _ s' => drop n' s'
  | _, _ => s
  end.

Fixpoint all_chars (p : ascii → bool) (s : string) : bool :=
  match s with
  | EmptyString => true
  | String c s' => p c && all_chars p s'
  end.

(** [str.isdigit]: non-empty and made of digits. *)
Definition isdigit (s : string) : bool := truthy s && all_chars is_digit s.

(** [s.startswith(p)]. *)
Fixpoint startswith (p s : string) : bool :=
  match p, s with
  | EmptyString, _ => true
  | String a p', String b s' => Ascii.eqb a b && startswith p' s'
  | String _ _, EmptyString => false
  end.

(** [needle in hay]. *)
Fixpoint contains (needle hay : string) : bool :=
  startswith needle hay
  || match hay with
     | EmptyString => false
     | String _ hay' => contains needle hay'
     end.

(** [any(k in s for k in keywords)]. *)
Definition contains_any (keywords : list string) (s : string) : bool :=
  existsb (λ k, contains k s) keywords.

(** The maximal run of digits at the head of [s], and what follows it. *)
Fixpoint span_digits (s : string) : string * string :=
  match s with
  | String c s' =>
      if is_digit c
      then let '(d, r) := span_digits s' in (String c d, r)
      else (EmptyString, s)
  | EmptyString => (EmptyString, EmptyString)
  end.

(** [sep.join(parts)]. *)
Definition join (sep : string) (parts : list string) : string :=
  String.concat sep parts.

End Py.

(** ** pandas tables *)

Definition cell := option string.

(** [str(value)] of a cell. *)
Definition py_str (v : cell) : string :=
  match v with Some s => s | None => "nan" end.

Record DataFrame := mkDF {
  columns : list string;
  rows : list (gmap string string)
}.

Definition has_column (c : string) (df : DataFrame) : bool :=
  bool_decide (c ∈ columns df).

Definition len (df : DataFrame) : nat := length (rows df).

(** [df[c] = v] for a scalar [v]: the column is added when it is new. *)
Definition set_column (c v : string) (df : DataFrame) : DataFrame :=
  {| columns := if has_column c df then columns df else columns df ++ [c];
     rows := (λ r, <[c := v]> r) <$> rows df |}.

(** [df[c] = df[c].apply(f)] for an [f] that returns a [str]. *)
Definition apply_column (c : string) (f : cell → string) (df : DataFrame)
  : DataFrame :=
  {| columns := columns df;
     rows := (λ r : gmap string string, <[c := f (r !! c)]> r) <$> rows df |}.

(** [df[c].iloc[0]] of a table with at least one row. *)
Definition iloc0 (c : string) (df : DataFrame) : cell :=
  match rows df with
  | r :: _ => r !! c
  | [] => None
  end.

(** ** Consolidation engine: Watchlist resolution ([main.py]) *)

Module Main.

(** [extract_eu_watchlist_from_number]. *)
Definition extract_eu_watchlist_from_number (pdf_number : string) : string :=
  if negb (Py.truthy pdf_number) || (String.length pdf_number <? 8)
  then "EU"
  else
    if Py.isdigit pdf_number && (8 <=? String.length pdf_number)
    then
      let year := Py.take 4 pdf_number in
      let number := Py.lstrip_char "0" (Py.drop 4 pdf_number) in
      if Py.truthy number then year +:+ "/" +:+ number else "EU"
    else "EU".

(** [re.search(r'sanctions_from_(\d+)_', filename)], returning group 1.
    The greedy [\d+] can only be followed by ["_"] when it has taken the whole
    run of digits, so a match at a position is the maximal run there. *)
Definition match_pdf_number_at (s : string) : option string :=
  if Py.startswith "sanctions_from_" s
  then
    let '(d, r) := Py.span_digits (Py.drop 15 s) in
    if Py.truthy d && Py.startswith "_" r then Some d else None
  else None.

Fixpoint search_pdf_number (s : string) : option string :=
  match match_pdf_number_at s with
  | Some d => Some d
  | None =>
      match s with
      | EmptyString => None
      | String _ s' => search_pdf_number s'
      end
  end.

(** The value [update_watchlist_column] settles on for a table. *)
Definition resolve_watchlist (df : DataFrame) (filename : string) : string :=
  let watchlist_value := "" in
  let watchlist_value :=
    if has_column "Source" df then
      let first_source :=
        if 0 <? len df then Py.lower (py_str (iloc0 "Source" df)) else "" in
      if Py.contains "un" first_source
         || Py.contains "security council" first_source
      then "UN" else watchlist_value
    else watchlist_value in
  let watchlist_value :=
    if negb (Py.truthy watchlist_value) && has_column "Watchlist" df then
      let first_watchlist :=
        if 0 <? len df then Py.lower (py_str (iloc0 "Watchlist" df)) else "" in
      if Py.contains "ofac" first_watchlist
         || Py.contains "specially designated" first_watchlist
      then "OFAC"
      else if Py.truthy first_watchlist
              && negb (String.eqb first_watchlist "nan")
      then py_str (iloc0 "Watchlist" df)
      else watchlist_value
    else watchlist_value in
  let watchlist_value :=
    if negb (Py.truthy watchlist_value)
       && Py.contains "sanctions_from_" filename
    then
      match search_pdf_number filename with
      | Some pdf_number => extract_eu_watchlist_from_number pdf_number
      | None => "EU"
      end
    else watchlist_value in
  if negb (Py.truthy watchlist_value) then "Unknown" else watchlist_value.

(** [update_watchlist_column]. *)
Definition update_watchlist_column (df : DataFrame) (filename : string)
  : DataFrame :=
  let df :=
    if negb (has_column "Watchlist" df) then set_column "Watchlist" "" df
    else df in
  set_column "Watchlist" (resolve_watchlist df filename) df.

(** [re.search(r'\d{4}/\d+', s)] as a test. *)
Definition match_eu_code_at (s : string) : bool :=
  match s with
  | String a (String b (String c (String d (String sl (String e _))))) =>
      Py.is_digit a && Py.is_digit b && Py.is_digit c && Py.is_digit d
      && Ascii.eqb sl "/" && Py.is_digit e
  | _ => false
  end.

Fixpoint search_eu_code (s : string) : bool :=
  match_eu_code_at s
  || match s with
     | EmptyString => false
     | String _ s' => search_eu_code s'
     end.

(** [clean_watchlist_value], the function [standardize_watchlist] applies. *)
Definition clean_watchlist_value (value : cell) : string :=
  match value with
  | None => "Unknown"
  | Some v =>
      if negb (Py.truthy v) then "Unknown"
      else
        let value_str := Py.strip v in
        if Py.contains_any ["un"; "united nations"; "security council"]
             (Py.lower value_str)
        then "UN"
        else if Py.contains_any ["ofac"; "specially designated"; "treasury"]
                  (Py.lower value_str)
        then "OFAC"
        else if search_eu_code value_str then value_str
        else if Py.contains "eu" (Py.lower value_str) then "EU"
        else value_str
  end.

(** [standardize_watchlist]. *)
Definition standardize_watchlist (df : DataFrame) : DataFrame :=
  if negb (has_column "Watchlist" df) then df
  else apply_column "Watchlist" clean_watchlist_value df.

End Main.

(** ** Calendar dates and the [datetime] functions the code calls *)

Module Date.

Local Open Scope Z_scope.

Record date := mkDate { year : Z; month : Z; day : Z }.

Global Instance date_eq_dec : EqDecision date.
Proof. solve_decision. Defined.

Definition is_leap (y : Z) : bool :=
  (y mod 4 =? 0) && (negb (y mod 100 =? 0) || (y mod 400 =? 0)).

Definition days_in_month (y m : Z) : Z :=
  match m with
  | 1 | 3 | 5 | 7 | 8 | 10 | 12 => 31
  | 4 | 6 | 9 | 11 => 30
  | 2 => if is_leap y then 29 else 28
  | _ => 0
  end.

(** [datetime.date(y, m, d)]: [None] is the [ValueError] of a date that does
    not exist (years run from 1 to 9999). *)
Definition make (y m d : Z) : option date :=
  if (1 <=? y) && (y <=? 9999) && (1 <=? m) && (m <=? 12)
     && (1 <=? d) && (d <=? days_in_month y m)
  then Some (mkDate y m d) else None.

(** [d - timedelta(days=1)]: [None] is the [OverflowError] raised below
    [date.min], the first of January of year 1. *)
Definition minus_one_day (d : date) : option date :=
  if 1 <? day d then Some (mkDate (year d) (month d) (day d - 1))
  else if 1 <? month d
  then Some (mkDate (year d) (month d - 1)
               (days_in_month (year d) (month d - 1)))
  else if 1 <? year d then Some (mkDate (year d - 1) 12 31)
  else None.

(** [date.toordinal()]: day 1 is the first of January of year 1. *)
Definition days_before_year (y : Z) : Z :=
  let p := y - 1 in p * 365 + p / 4 - p / 100 + p / 400.

Definition days_before_month (y m : Z) : Z :=
  match m with
  | 1 => 0 | 2 => 31 | 3 => 59 | 4 => 90 | 5 => 120 | 6 => 151 | 7 => 181
  | 8 => 212 | 9 => 243 | 10 => 273 | 11 => 304 | 12 => 334 | _ => 0
  end + (if (2 <? m) && is_leap y then 1 else 0).

Definition toordinal (d : date) : Z :=
  days_before_year (year d) + days_before_month (year d) (month d) + day d.

Definition digit_value (c : ascii) : Z := Z.of_N (Py.code c) - 48.

Definition digit_char (n : Z) : ascii := ascii_of_N (Z.to_N (48 + n mod 10)).

Definition two_digits (n : Z) : string :=
  String (digit_char (n / 10)) (String (digit_char n) EmptyString).

Definition four_digits (n : Z) : string :=
  String (digit_char (n / 1000)) (String (digit_char (n / 100))
    (String (digit_char (n / 10)) (String (digit_char n) EmptyString))).

(** [str(n)] for a year: decimal digits without padding. *)
Definition str_year (n : Z) : string :=
  if n <? 10 then String (digit_char n) EmptyString
  else if n <? 100 then two_digits n
  else if n <? 1000 then String (digit_char (n / 100)) (two_digits n)
  else four_digits n.

Definition month_abbr (m : Z) : string :=
  match m with
  | 1 => "Jan" | 2 => "Feb" | 3 => "Mar" | 4 => "Apr" | 5 => "May"
  | 6 => "Jun" | 7 => "Jul" | 8 => "Aug" | 9 => "Sep" | 10 => "Oct"
  | 11 => "Nov" | 12 => "Dec" | _ => ""
  end.

(** *** [datetime.strptime]

    The library turns the format into a regular expression, matches it at the
    head of the text (case-insensitively, with backtracking), rejects text
    left over after the match, and builds the date.  Every failure is a
    [ValueError], here [None]. *)

Inductive directive :=
| Dd | Dm | DY | Db
| Ws
| Lit (c : ascii).

(** The directives of a format string; [None] for a directive the code never
    uses. *)
Fixpoint directives (fmt : string) : option (list directive) :=
  match fmt with
  | EmptyString => Some []
  | String "%" (String k fmt') =>
      match (if Ascii.eqb k "d" then Some Dd
             else if Ascii.eqb k "m" then Some Dm
             else if Ascii.eqb k "Y" then Some DY
             else if Ascii.eqb k "b" then Some Db
             else None), directives fmt' with
      | Some d, Some ds => Some (d :: ds)
      | _, _ => None
      end
  | String c fmt' =>
      match directives fmt' with
      | Some ds =>
          if Py.is_space c
          then Some (match ds with Ws :: _ => ds | _ => Ws :: ds end)
          else Some (Lit c :: ds)
      | None => None
      end
  end.

Record fields := mkFields {
  f_year : option Z; f_month : option Z; f_day : option Z
}.

Definition no_fields : fields := mkFields None None None.

(** The alternatives of one directive at the head of [s], in the order the
    regular expression tries them: what is captured and what text remains. *)
Definition two_of (p q : ascii → bool) (s : string)
  : list (option Z * string) :=
  match s with
  | String a (String b r) =>
      if p a && q b then [(Some (10 * digit_value a + digit_value b), r)]
      else []
  | _ => []
  end.

Definition one_of (p : ascii → bool) (s : string)
  : list (option Z * string) :=
  match s with
  | String a r => if p a then [(Some (digit_value a), r)] else []
  | _ => []
  end.

Definition between (lo hi : ascii) (c : ascii) : bool :=
  (Py.code lo <=? Py.code c)%N && (Py.code c <=? Py.code hi)%N.

(** [%d] is [3[0-1]|[1-2]\d|0[1-9]|[1-9]| [1-9]]. *)
Definition alts_d (s : string) : list (option Z * string) :=
  two_of (between "3" "3") (between "0" "1") s
  ++ two_of (between "1" "2") Py.is_digit s
  ++ two_of (between "0" "0") (between "1" "9") s
  ++ one_of (between "1" "9") s
  ++ match s with
     | String " " r => one_of (between "1" "9") r
     | _ => []
     end.

(** [%m] is [1[0-2]|0[1-9]|[1-9]]. *)
Definition alts_m (s : string) : list (option Z * string) :=
  two_of (between "1" "1") (between "0" "2") s
  ++ two_of (between "0" "0") (between "1" "9") s
  ++ one_of (between "1" "9") s.

(** [%Y] is [\d\d\d\d]. *)
Definition alts_Y (s : string) : list (option Z * string) :=
  match s with
  | String a (String b (String c (String d r))) =>
      if Py.is_digit a && Py.is_digit b && Py.is_digit c && Py.is_digit d
      then [(Some (1000 * digit_value a + 100 * digit_value b
                   + 10 * digit_value c + digit_value d), r)]
      else []
  | _ => []
  end.

(** [%b] is the alternation of the twelve abbreviated month names. *)
Definition alts_b (s : string) : list (option Z * string) :=
  let head := Py.lower (Py.take 3 s) in
  if (String.length head <? 3)%nat then []
  else
    match filter (λ m, String.eqb (Py.lower (month_abbr m)) head)
            [1; 2; 3; 4; 5; 6; 7; 8; 9; 10; 11; 12] with
    | m :: _ => [(Some m, Py.drop 3 s)]
    | [] => []
    end.

(** [\s+], greedy: the longest run first, then shorter ones. *)
Fixpoint alts_ws (s : string) : list string :=
  match s with
  | String c r => if Py.is_space c then alts_ws r ++ [r] else []
  | EmptyString => []
  end.

Definition first_some {A B} (f : A → option B) (l : list A) : option B :=
  list_find (λ o, is_Some o) (f <$> l) ≫= snd.

Fixpoint match_directives (ds : list directive) (s : string) (acc : fields)
  : option (fields * string) :=
  match ds with
  | [] => Some (acc, s)
  | Dd :: ds' =>
      first_some (λ '(v, r),
        match_directives ds' r (mkFields (f_year acc) (f_month acc) v))
        (alts_d s)
  | Dm :: ds' =>
      first_some (λ '(v, r),
        match_directives ds' r (mkFields (f_year acc) v (f_day acc)))
        (alts_m s)
  | Db :: ds' =>
      first_some (λ '(v, r),
        match_directives ds' r (mkFields (f_year acc) v (f_day acc)))
        (alts_b s)
  | DY :: ds' =>
      first_some (λ '(v, r),
        match_directives ds' r (mkFields v (f_month acc) (f_day acc)))
        (alts_Y s)
  | Ws :: ds' =>
      first_some (λ r, match_directives ds' r acc) (alts_ws s)
  | Lit c :: ds' =>
      match s with
      | String a r =>
          if Ascii.eqb (Py.lower_char a) (Py.lower_char c)
          then match_directives ds' r acc else None
      | EmptyString => None
      end
  end.

Definition strptime (data_string fmt : string) : option date :=
  match directives fmt with
  | None => None
  | Some ds =>
      match match_directives ds data_string no_fields with
      | Some (f, EmptyString) =>
          make (default 1900 (f_year f)) (default 1 (f_month f))
               (default 1 (f_day f))
      | _ => None
      end
  end.

(** [d.strftime('%d %b %Y')].  The year is written on four digits; below the
    year 1000 the padding is the C library's, and the zeros written here are
    one of its two behaviours. *)
Definition strftime_d_b_Y (d : date) : string :=
  two_digits (day d) +:+ " " +:+ month_abbr (month d) +:+ " "
  +:+ four_digits (year d).

(** [d.strftime('%d/%m/%Y')]. *)
Definition strftime_d_m_Y (d : date) : string :=
  two_digits (day d) +:+ "/" +:+ two_digits (month d) +:+ "/"
  +:+ four_digits (year d).

End Date.

(** ** Consolidation engine: date normalization and merge ([main.py]) *)

Module Dob.

(** One or more blanks at the head of [s]. *)
Definition skip_spaces1 (s : string) : option string :=
  match s with
  | String c _ => if Py.is_space c then Some (Py.lstrip s) else None
  | EmptyString => None
  end.

(** [\s+[A-Za-z]{3}\s+\d{4}] at the head of [s]. *)
Definition match_shape_tail (s : string) : bool :=
  match skip_spaces1 s with
  | Some (String a (String b (String c r))) =>
      Py.is_alpha a && Py.is_alpha b && Py.is_alpha c
      && match skip_spaces1 r with
         | Some y => (4 <=? String.length (Py.take 4 y))
                     && Py.all_chars Py.is_digit (Py.take 4 y)
         | None => false
         end
  | _ => false
  end.

(** [re.match(r'\d{1,2}\s+[A-Za-z]{3}\s+\d{4}', s)] as a test: two digits are
    tried before one. *)
Definition match_dob_shape (s : string) : bool :=
  match s with
  | String a r1 =>
      Py.is_digit a
      && ((match r1 with
           | String b r2 => Py.is_digit b && match_shape_tail r2
           | EmptyString => false
           end)
          || match_shape_tail r1)
  | EmptyString => false
  end.

Definition date_formats : list string :=
  [ "%d/%m/%Y"; "%d-%m-%Y"; "%d.%m.%Y"; "%Y-%m-%d"; "%Y/%m/%d";
    "%m/%d/%Y"; "%d %m %Y" ].

(** The [for fmt in date_formats] loop with its [try/except ValueError]. *)
Fixpoint try_formats (fmts : list string) (date_str : string) : string :=
  match fmts with
  | [] => date_str
  | fmt :: fmts' =>
      match Date.strptime date_str fmt with
      | Some date_obj => Date.strftime_d_b_Y date_obj
      | None => try_formats fmts' date_str
      end
  end.

(** [convert_date_format]. *)
Definition convert_date_format (date_str : cell) : string :=
  match date_str with
  | None => ""
  | Some v =>
      if negb (Py.truthy v) || String.eqb (Py.strip v) "" then ""
      else
        let date_str := Py.strip v in
        if match_dob_shape date_str then date_str
        else try_formats date_formats date_str
  end.

(** [standardize_dob_format]. *)
Definition standardize_dob_format (df : DataFrame) : DataFrame :=
  if negb (has_column "DOB_DJ" df) then df
  else apply_column "DOB_DJ" convert_date_format df.

End Dob.

Module Consolidate.

(** [pd.concat(dfs, ignore_index=True)]: the columns are the union of the
    tables' columns in order of first appearance, the rows follow each other
    table by table (a column a table lacks is NaN in its rows). *)
Definition concat (dfs : list DataFrame) : DataFrame :=
  {| columns :=
       foldl (λ acc df, acc ++ filter (λ c, c ∉ acc) (columns df)) [] dfs;
     rows := dfs ≫= rows |}.

(** [df.drop_duplicates(subset=['Name'], keep='first')]: a row is dropped when
    its Name cell was seen on an earlier row (NaN equals NaN here).  [None] is
    the [KeyError] of a table without a Name column. *)
Fixpoint drop_duplicates_go (seen : list cell) (rs : list (gmap string string))
  : list (gmap string string) :=
  match rs with
  | [] => []
  | r :: rs' =>
      if bool_decide (r !! "Name" ∈ seen) then drop_duplicates_go seen rs'
      else r :: drop_duplicates_go ((r !! "Name") :: seen) rs'
  end.

Definition drop_duplicates_name (df : DataFrame) : option DataFrame :=
  if has_column "Name" df
  then Some {| columns := columns df;
               rows := drop_duplicates_go [] (rows df) |}
  else None.

(** The order of [sort_values]: strings by code point, NaN last. *)
Definition cell_le (a b : cell) : Prop :=
  match a, b with
  | Some x, Some y => String.le x y
  | _, None => True
  | None, Some _ => False
  end.

Definition name_le (r1 r2 : gmap string string) : Prop :=
  cell_le (r1 !! "Name") (r2 !! "Name").

Global Instance cell_le_dec : RelDecision cell_le.
Proof. intros [x|] [y|]; simpl; apply _. Defined.

Global Instance name_le_dec : RelDecision name_le.
Proof. intros r1 r2. unfold name_le. apply _. Defined.

(** [df.sort_values('Name').reset_index(drop=True)].  The rows reaching it
    have pairwise different names, so the sorted table does not depend on the
    sorting algorithm (see [sort_values_unique]). *)
Definition sort_values_name (df : DataFrame) : DataFrame :=
  {| columns := columns df; rows := merge_sort name_le (rows df) |}.

(** The reading loop of [step6_consolidate_data]: [files] are the CSV files
    found, each with the table read from it; an empty table is skipped. *)
Definition read_all (files : list (string * DataFrame)) : list DataFrame :=
  foldl (λ all_dataframes '(file, df),
           if 0 <? len df
           then all_dataframes ++ [Main.update_watchlist_column df file]
           else all_dataframes) [] files.

(** The table on which duplicates are looked for. *)
Definition established (files : list (string * DataFrame)) : DataFrame :=
  Main.standardize_watchlist
    (Dob.standardize_dob_format (concat (read_all files))).

(** [step6_consolidate_data]: the final table and the number of duplicates
    removed, or [None] when the step returns [False]. *)
Definition step6_consolidate_data (files : list (string * DataFrame))
  : option (DataFrame * nat) :=
  match files with
  | [] => None
  | _ =>
      match read_all files with
      | [] => None
      | _ =>
          let final_df := established files in
          let original_count := len final_df in
          match drop_duplicates_name final_df with
          | None => None
          | Some final_df =>
              let duplicate_count := original_count - len final_df in
              Some (sort_values_name final_df, duplicate_count)
          end
      end
  end.

End Consolidate.

(** ** XML trees ([xml.etree.ElementTree]) *)

Module Xml.

#[warnings="-register-all"]
Inductive Element :=
  Elem (tag : string) (attrib : list (string * string))
       (text : option string) (children : list Element).

Definition tag (e : Element) : string := let 'Elem t _ _ _ := e in t.
Definition attrib (e : Element) : list (string * string) :=
  let 'Elem _ a _ _ := e in a.
Definition text (e : Element) : option string := let 'Elem _ _ x _ := e in x.
Definition children (e : Element) : list Element :=
  let 'Elem _ _ _ c := e in c.

(** [e.get(key)]. *)
Definition get (e : Element) (key : string) : option string :=
  (λ p, p.2.2) <$> list_find (λ kv, kv.1 = key) (attrib e).

(** [e.iter()]: the element and its descendants in document order. *)
Fixpoint iter (e : Element) : list Element :=
  let 'Elem _ _ _ cs := e in
  e :: (fix iter_all (l : list Element) : list Element :=
          match l with
          | [] => []
          | c :: l' => iter c ++ iter_all l'
          end) cs.

Definition descendants (e : Element) : list Element :=
  children e ≫= iter.

Definition with_tag (t : string) (l : list Element) : list Element :=
  filter (λ e, tag e = t) l.

(** [e.findall('t')]: the children with that tag. *)
Definition findall_child (t : string) (e : Element) : list Element :=
  with_tag t (children e).

(** [e.findall('.//t')]: the descendants with that tag. *)
Definition findall_desc (t : string) (e : Element) : list Element :=
  with_tag t (descendants e).

(** [e.findall('a/b')] and [e.findall('.//a/b')]: the library selects the
    [a] elements first and then, for each of them in turn, its [b] children. *)
Definition findall_child_child (a b : string) (e : Element) : list Element :=
  findall_child a e ≫= findall_child b.

Definition findall_desc_child (a b : string) (e : Element) : list Element :=
  findall_desc a e ≫= findall_child b.

(** [e.find(path)] is the first element of [e.findall(path)]. *)
Definition find_child (t : string) (e : Element) : option Element :=
  head (findall_child t e).
Definition find_desc (t : string) (e : Element) : option Element :=
  head (findall_desc t e).
Definition find_desc_child (a b : string) (e : Element) : option Element :=
  head (findall_desc_child a b e).

(** An element that is there and whose text is not empty. *)
Definition text_of (e : option Element) : option string :=
  match e with
  | Some el =>
      match text el with
      | Some t => if Py.truthy t then Some t else None
      | None => None
      end
  | None => None
  end.

End Xml.

(** How an f-string prints a value that may be [None]. *)
Definition fmt_opt (v : option string) : string := default "None" v.

(** [', '.join(l) if l else ''] and its likes: joining the empty list gives
    the empty string already. *)
Definition join_or_blank (sep : string) (l : list string) : string :=
  match l with [] => "" | _ => Py.join sep l end.

(** ** OFAC delta extractor ([ofac_extractor.py]) *)

Module Ofac.

Definition ns (name : string) : string :=
  "{https://www.treasury.gov/ofac/DeltaFile/1.0}" +:+ name.

(** [dict.get(ref_id, fallback)] on a literal table. *)
Definition table_get (table : list (string * string)) (ref_id : option string)
    (fallback : string) : string :=
  match ref_id with
  | Some k =>
      match list_find (λ kv, kv.1 = k) table with
      | Some (_, (_, v)) => v
      | None => fallback
      end
  | None => fallback
  end.

Definition doc_type_map : list (string * string) :=
  [ ("1571", "Passport"); ("1584", "National ID");
    ("1608", "Identification Number"); ("1626", "Vessel Registration");
    ("1632", "Residency Number"); ("91264", "MMSI");
    ("91761", "Registration Number"); ("1575", "Driver License");
    ("1576", "Tax ID"); ("1577", "Social Security Number");
    ("1578", "Business Registration"); ("1579", "Military ID") ].

Definition get_document_type_name (ref_id : option string) : string :=
  table_get doc_type_map ref_id ("Doc Type " +:+ fmt_opt ref_id).

Definition program_map : list (string * string) :=
  [ ("91901", "IRAN-EO13902"); ("91902", "IRAN-EO13902");
    ("1556", "UKRAINE-EO13660"); ("1557", "UKRAINE-EO13661");
    ("1558", "UKRAINE-EO13662"); ("1559", "UKRAINE-EO13685");
    ("1560", "RUSSIA-EO14024"); ("1550", "SDN"); ("1551", "CRIM");
    ("1552", "SYRIA"); ("1553", "CUBA"); ("1554", "NORTH KOREA");
    ("1555", "NICARAGUA") ].

Definition get_sanctions_program_name (ref_id : option string) : string :=
  table_get program_map ref_id ("Program " +:+ fmt_opt ref_id).

Definition canonical_columns : list string :=
  [ "Name"; "Aliases"; "Type"; "Date of Birth"; "Place of Birth"; "Gender";
    "Nationality"; "COUNTRY"; "ID_1"; "ID_Type1"; "ID_2"; "ID_Type2";
    "Date of listing"; "Watchlist"; "Other info"; "DOB_DJ"; "DOB_YEAR" ].

(** The dictionary [extract_entity_data] starts from. *)
Definition blank_data : gmap string string :=
  list_to_map ((λ c, (c, "")) <$> canonical_columns).

(** [data[key]] of a dictionary holding the seventeen keys. *)
Definition field (data : gmap string string) (key : string) : string :=
  default "" (data !! key).

(** [re.search(r'\b(\d{4})\b', value)], returning group 1: the first run of
    exactly four digits that word characters do not touch. *)
Fixpoint search_year (prev_is_word : bool) (s : string) : option string :=
  match s with
  | EmptyString => None
  | String c s' =>
      if negb prev_is_word
         && (4 <=? String.length (Py.take 4 s))
         && Py.all_chars Py.is_digit (Py.take 4 s)
         && match Py.drop 4 s with
            | String n _ => negb (Py.is_word n)
            | EmptyString => true
            end
      then Some (Py.take 4 s)
      else search_year (Py.is_word c) s'
  end.

(** The birth-date branch of the feature loop, with its nested [try]s. *)
Definition set_birthdate (value : string) (data : gmap string string)
  : gmap string string :=
  let data := <["Date of Birth" := value]> data in
  match Date.strptime value "%d %b %Y" with
  | Some date_obj =>
      <["DOB_YEAR" := Date.str_year (Date.year date_obj)]>
        (<["DOB_DJ" := Date.strftime_d_m_Y date_obj]> data)
  | None =>
      match Date.strptime value "%Y-%m-%d" with
      | Some date_obj =>
          <["DOB_YEAR" := Date.str_year (Date.year date_obj)]>
            (<["DOB_DJ" := Date.strftime_d_m_Y date_obj]> data)
      | None =>
          match search_year false value with
          | Some y => <["DOB_YEAR" := y]> data
          | None => data
          end
      end
  end.

(** The name loop: the state is the primary name found so far and the
    aliases. *)
Definition name_step (st : string * list string) (name : Xml.Element)
  : string * list string :=
  let is_primary := Xml.find_child (ns "isPrimary") name in
  let translations :=
    Xml.findall_child_child (ns "translations") (ns "translation") name in
  foldl (λ '(primary, aliases_list) translation,
           match Xml.text_of (Xml.find_child (ns "formattedFullName")
                                translation) with
           | Some formatted =>
               if bool_decide (is_primary ≫= Xml.text = Some "true")
               then (if negb (Py.truthy primary) then formatted else primary,
                     aliases_list)
               else (primary, aliases_list ++ [formatted])
           | None => (primary, aliases_list)
           end) st translations.

(** The feature loop: the state is the dictionary, the nationalities and the
    vessel flag. *)
Definition feature_step
    (st : gmap string string * list string * string) (feature : Xml.Element)
  : gmap string string * list string * string :=
  let '(data, nationalities, vessel_flag) := st in
  match Xml.find_child (ns "type") feature with
  | None => st
  | Some feature_type =>
      let feature_type_id := Xml.get feature_type "featureTypeId" in
      match Xml.text_of (Xml.find_child (ns "value") feature) with
      | None => st
      | Some value =>
          if bool_decide (feature_type_id = Some "8")
          then (set_birthdate value data, nationalities, vessel_flag)
          else if bool_decide (feature_type_id = Some "9")
          then (<["Place of Birth" := value]> data, nationalities, vessel_flag)
          else if bool_decide (feature_type_id = Some "224")
          then (<["Gender" :=
                    if bool_decide (Py.lower value ∈ ["male"; "female"])
                    then Py.lower value else value]> data,
                nationalities, vessel_flag)
          else if bool_decide (feature_type_id = Some "10")
          then (data, nationalities ++ [value], vessel_flag)
          else if bool_decide (feature_type_id = Some "3")
          then (data, nationalities, value)
          else st
      end
  end.

(** The identity-document loop: the state is [id_count] and the dictionary;
    the loop is left when two documents have been kept. *)
Fixpoint id_docs_loop (id_docs : list Xml.Element) (id_count : nat)
    (data : gmap string string) : gmap string string :=
  match id_docs with
  | [] => data
  | doc :: rest =>
      if 2 <=? id_count then data
      else
        match Xml.find_child (ns "type") doc,
              Xml.text_of (Xml.find_child (ns "documentNumber") doc) with
        | Some doc_type_elem, Some doc_number =>
            let doc_type_name :=
              get_document_type_name (Xml.get doc_type_elem "refId") in
            let data :=
              if id_count =? 0
              then <["ID_Type1" := doc_type_name]> (<["ID_1" := doc_number]> data)
              else if id_count =? 1
              then <["ID_Type2" := doc_type_name]> (<["ID_2" := doc_number]> data)
              else data in
            id_docs_loop rest (id_count + 1) data
        | _, _ => id_docs_loop rest id_count data
        end
  end.

(** [s.split(';')[0]]. *)
Fixpoint before_semicolon (s : string) : string :=
  match s with
  | EmptyString => EmptyString
  | String c s' => if Ascii.eqb c ";" then EmptyString
                   else String c (before_semicolon s')
  end.

(** [extract_entity_data]. *)
Definition extract_entity_data (entity : Xml.Element) : gmap string string :=
  let data := blank_data in
  let action := default "" (Xml.get entity "action") in
  if negb (String.eqb action "add") then data
  else
    let data :=
      match Xml.find_desc_child (ns "generalInfo") (ns "entityType") entity with
      | Some entity_type_elem =>
          let ref_id := Xml.get entity_type_elem "refId" in
          <["Type" :=
              if bool_decide (ref_id = Some "600") then "Individual"
              else if bool_decide (ref_id = Some "601") then "Entity"
              else if bool_decide (ref_id = Some "602") then "Vessel"
              else "Type " +:+ fmt_opt ref_id]> data
      | None => data
      end in
    let names := Xml.findall_desc_child (ns "names") (ns "name") entity in
    let '(primary, aliases_list) := foldl name_step (field data "Name", []) names in
    let data := <["Name" := primary]> data in
    let data := <["Aliases" := join_or_blank "; " aliases_list]> data in
    let features :=
      Xml.findall_desc_child (ns "features") (ns "feature") entity in
    let '(data, nationalities, vessel_flag) :=
      foldl feature_step (data, [], "") features in
    let data := <["Nationality" := join_or_blank "; " nationalities]> data in
    let addresses :=
      Xml.findall_desc_child (ns "addresses") (ns "address") entity in
    let countries :=
      omap (λ address, Xml.text_of (Xml.find_child (ns "country") address))
        addresses in
    let data :=
      if String.eqb (field data "Type") "Vessel" && Py.truthy vessel_flag
      then <["COUNTRY" := vessel_flag]> data
      else if Py.truthy (field data "Nationality")
      then <["COUNTRY" :=
               Py.strip (before_semicolon (field data "Nationality"))]> data
      else match countries with
           | country :: _ => <["COUNTRY" := country]> data
           | [] => data
           end in
    let id_docs :=
      Xml.findall_desc_child (ns "identityDocuments") (ns "identityDocument")
        entity in
    let data := id_docs_loop id_docs 0 data in
    let data :=
      match Xml.find_desc_child (ns "sanctionsLists") (ns "sanctionsList")
              entity with
      | Some sanctions_list =>
          let data :=
            <["Watchlist" := "OFAC - Specially Designated National List"]>
              data in
          match Xml.get sanctions_list "datePublished" with
          | Some date_published =>
              if Py.truthy date_published
              then
                <["Date of listing" :=
                    match Date.strptime date_published "%Y-%m-%d" with
                    | Some date_obj => Date.strftime_d_m_Y date_obj
                    | None => date_published
                    end]> data
              else data
          | None => data
          end
      | None => data
      end in
    let sanctions_programs :=
      Xml.findall_desc_child (ns "sanctionsPrograms") (ns "sanctionsProgram")
        entity in
    let program_names :=
      filter (λ n, Py.truthy n)
        ((λ program, get_sanctions_program_name (Xml.get program "refId"))
           <$> sanctions_programs) in
    <["Other info" := join_or_blank "; " program_names]> data.

(** The entities [process_sanctions_data] settles on, after its four ways
    of looking for them. *)
Definition find_entities (root : Xml.Element) : list Xml.Element :=
  let entities := Xml.findall_desc "entity" root in
  let entities :=
    match Xml.find_desc "entities" root with
    | Some entities_container => Xml.findall_child "entity" entities_container
    | None => entities
    end in
  match Xml.find_desc (ns "entities") root with
  | Some entities_container_ns =>
      let entities_ns_direct :=
        Xml.findall_child (ns "entity") entities_container_ns in
      if length entities <? length entities_ns_direct
      then entities_ns_direct else entities
  | None => entities
  end.

(** The extraction loop: an entity is kept when its Name is not empty. *)
Definition extraction_loop (entities : list Xml.Element)
  : list (gmap string string) :=
  foldl (λ extracted_data entity,
           let entity_data := extract_entity_data entity in
           if Py.truthy (field entity_data "Name")
           then extracted_data ++ [entity_data] else extracted_data)
    [] entities.

(** [process_sanctions_data], from the parsed document. *)
Definition process_sanctions_data (root : Xml.Element) : DataFrame :=
  let entities := find_entities root in
  if length entities =? 0 then mkDF [] []
  else mkDF canonical_columns (extraction_loop entities).

End Ofac.

(** ** UN consolidated-list extractor ([un_sanctions_parser.py]) *)

Module Un.

(** [get_text]. *)
Definition get_text (element : option Xml.Element) : string :=
  match Xml.text_of element with
  | Some t => Py.strip t
  | None => ""
  end.

(** [s.replace('Z', '+00:00')]. *)
Fixpoint replace_Z (s : string) : string :=
  match s with
  | EmptyString => EmptyString
  | String c s' =>
      if Ascii.eqb c "Z" then "+00:00" +:+ replace_Z s'
      else String c (replace_Z s')
  end.

(** Two digits at the head of [s] as a number. *)
Definition int2 (s : string) : option Z :=
  match s with
  | String a (String b _) =>
      if Py.is_digit a && Py.is_digit b
      then Some (10 * Date.digit_value a + Date.digit_value b)%Z else None
  | _ => None
  end.

(** [_parse_hh_mm_ss_ff]: [HH[:MM[:SS[.fff[fff]]]]] as hour, minute, second;
    the fraction is checked and plays no part in a date. *)
Definition parse_hh_mm_ss_ff (tstr : string) : option (Z * Z * Z) :=
  let fraction_ok (r : string) :=
    match r with
    | EmptyString => true
    | String c f =>
        Ascii.eqb c "." && Py.all_chars Py.is_digit f
        && bool_decide (String.length f ∈ [3; 6])
    end in
  h ← int2 tstr;
  match Py.drop 2 tstr with
  | EmptyString => Some (h, 0, 0)%Z
  | String c1 r1 =>
      if negb (Ascii.eqb c1 ":") then None
      else
        m ← int2 r1;
        match Py.drop 2 r1 with
        | EmptyString => Some (h, m, 0%Z)
        | String c2 r2 =>
            if negb (Ascii.eqb c2 ":") then None
            else
              sec ← int2 r2;
              if fraction_ok (Py.drop 2 r2) then Some (h, m, sec) else None
        end
  end.

(** The position of the first ["-"], or else of the first ["+"], in a time
    string: what comes before it and what comes after. *)
Fixpoint split_at_char (c : ascii) (s : string) : option (string * string) :=
  match s with
  | EmptyString => None
  | String a s' =>
      if Ascii.eqb a c then Some (EmptyString, s')
      else '(l, r) ← split_at_char c s'; Some (String a l, r)
  end.

Definition in_range (lo hi v : Z) : bool := (lo <=? v)%Z && (v <=? hi)%Z.

(** [_parse_isoformat_time]: the time of day and the offset are parsed and
    range-checked (the time of day by the constructor, the offset by
    [timezone], which wants less than a day); nothing of them is kept. *)
Definition parse_isoformat_time (tstr : string) : option unit :=
  if String.length tstr <? 2 then None
  else
    let parts :=
      match split_at_char "-" tstr with
      | Some p => Some p
      | None => split_at_char "+" tstr
      end in
    let timestr := match parts with Some (l, _) => l | None => tstr end in
    '(h, m, sec) ← parse_hh_mm_ss_ff timestr;
    if negb (in_range 0 23 h && in_range 0 59 m && in_range 0 59 sec) then None
    else
      match parts with
      | None => Some ()
      | Some (_, tzstr) =>
          if negb (bool_decide (String.length tzstr ∈ [5; 8; 15])) then None
          else
            '(th, tm, ts) ← parse_hh_mm_ss_ff tzstr;
            if (th * 3600 + tm * 60 + ts <? 86400)%Z
            then Some () else None
      end.

Definition int4 (s : string) : option Z :=
  match Date.alts_Y s with
  | (Some y, _) :: _ => Some y
  | _ => None
  end.

(** [_parse_isoformat_date] on the first ten characters, then the date. *)
Definition parse_isoformat_date (dtstr : string) : option Date.date :=
  y ← int4 dtstr;
  if negb (Py.startswith "-" (Py.drop 4 dtstr)) then None
  else
    m ← int2 (Py.drop 5 dtstr);
    if negb (Py.startswith "-" (Py.drop 7 dtstr)) then None
    else d ← int2 (Py.drop 8 dtstr); Date.make y m d.

(** [datetime.fromisoformat(s).date()] for the format
    [YYYY-MM-DD[*HH[:MM[:SS[.fff[fff]]]][+HH:MM[:SS[.ffffff]]]]]; [None] is
    the [ValueError] of any other text. *)
Definition fromisoformat_date (s : string) : option Date.date :=
  d ← parse_isoformat_date (Py.take 10 s);
  match Py.drop 11 s with
  | EmptyString => Some d
  | tstr => parse_isoformat_time tstr ≫= λ _, Some d
  end.

Definition parts (l : list string) : list string :=
  filter (λ p, Py.truthy p) l.

Definition child_text (t : string) (e : Xml.Element) : string :=
  get_text (Xml.find_child t e).

(** The stripped texts of the [a/VALUE] descendants that have a text. *)
Definition values_of (a : string) (e : Xml.Element) : list string :=
  omap (λ v, Py.strip <$> Xml.text_of (Some v))
    (Xml.findall_desc_child a "VALUE" e).

(** The alias loop, shared by individuals and entities. *)
Definition aliases_of (t : string) (e : Xml.Element) : list string :=
  omap (λ alias,
          let alias_name := child_text "ALIAS_NAME" alias in
          let quality := child_text "QUALITY" alias in
          if Py.truthy alias_name
          then Some (if Py.truthy quality
                     then alias_name +:+ " (" +:+ quality +:+ ")"
                     else alias_name)
          else None)
    (Xml.findall_desc t e).

(** [extract_individual_data]. *)
Definition extract_individual_data (individual : Xml.Element)
  : gmap string string :=
  let name_parts :=
    parts [ child_text "FIRST_NAME" individual;
            child_text "SECOND_NAME" individual;
            child_text "THIRD_NAME" individual;
            child_text "FOURTH_NAME" individual ] in
  let full_name := Py.join " " name_parts in
  let dob_info :=
    omap (λ dob,
            let date_val := child_text "DATE" dob in
            let year_val := child_text "YEAR" dob in
            let note_val := child_text "NOTE" dob in
            if Py.truthy date_val then Some date_val
            else if Py.truthy year_val then Some year_val
            else if Py.truthy note_val then Some note_val
            else None)
      (Xml.findall_desc "INDIVIDUAL_DATE_OF_BIRTH" individual) in
  let pob_info :=
    omap (λ pob,
            match parts [ child_text "CITY" pob;
                          child_text "STATE_PROVINCE" pob;
                          child_text "COUNTRY" pob ] with
            | [] => None
            | pob_parts => Some (Py.join ", " pob_parts)
            end)
      (Xml.findall_desc "INDIVIDUAL_PLACE_OF_BIRTH" individual) in
  let addresses :=
    omap (λ addr,
            let note := child_text "NOTE" addr in
            match parts [ child_text "STREET" addr; child_text "CITY" addr;
                          child_text "STATE_PROVINCE" addr;
                          child_text "COUNTRY" addr ] with
            | [] => None
            | addr_parts =>
                Some (if Py.truthy note
                      then Py.join ", " addr_parts +:+ " (" +:+ note +:+ ")"
                      else Py.join ", " addr_parts)
            end)
      (Xml.findall_desc "INDIVIDUAL_ADDRESS" individual) in
  list_to_map
    [ ("Type", "Individual"); ("Name", full_name);
      ("Reference_Number", child_text "REFERENCE_NUMBER" individual);
      ("Listed_On", child_text "LISTED_ON" individual);
      ("Gender", child_text "GENDER" individual);
      ("Designations", join_or_blank "; " (values_of "DESIGNATION" individual));
      ("Nationalities", join_or_blank "; " (values_of "NATIONALITY" individual));
      ("Aliases", join_or_blank "; " (aliases_of "INDIVIDUAL_ALIAS" individual));
      ("Date_of_Birth", join_or_blank "; " dob_info);
      ("Place_of_Birth", join_or_blank "; " pob_info);
      ("Addresses", join_or_blank "; " addresses);
      ("Comments", child_text "COMMENTS1" individual);
      ("Source", "UN Security Council") ].

(** [extract_entity_data]. *)
Definition extract_entity_data (entity : Xml.Element) : gmap string string :=
  let addresses :=
    omap (λ addr,
            match parts [ child_text "STREET" addr; child_text "CITY" addr;
                          child_text "STATE_PROVINCE" addr;
                          child_text "COUNTRY" addr ] with
            | [] => None
            | addr_parts => Some (Py.join ", " addr_parts)
            end)
      (Xml.findall_desc "ENTITY_ADDRESS" entity) in
  list_to_map
    [ ("Type", "Entity"); ("Name", child_text "FIRST_NAME" entity);
      ("Reference_Number", child_text "REFERENCE_NUMBER" entity);
      ("Listed_On", child_text "LISTED_ON" entity);
      ("Gender", ""); ("Designations", ""); ("Nationalities", "");
      ("Aliases", join_or_blank "; " (aliases_of "ENTITY_ALIAS" entity));
      ("Date_of_Birth", ""); ("Place_of_Birth", "");
      ("Addresses", join_or_blank "; " addresses);
      ("Comments", child_text "COMMENTS1" entity);
      ("Source", "UN Security Council") ].

(** The loop over the records of a section: a record is extracted when its
    LISTED_ON text parses to one of the target dates; a text that does not
    parse is the [ValueError] the loop passes over. *)
Definition listing_loop (target_dates : list Date.date)
    (extract : Xml.Element → gmap string string) (records : list Xml.Element)
  : list (gmap string string) :=
  foldl (λ data record,
           match Xml.text_of (Xml.find_child "LISTED_ON" record) with
           | Some listed_on =>
               match Date.strptime listed_on "%Y-%m-%d" with
               | Some listed_date =>
                   if bool_decide (listed_date ∈ target_dates)
                   then data ++ [extract record] else data
               | None => data
               end
           | None => data
           end) [] records.

(** [parse_un_sanctions_xml] from the parsed document: the individuals and
    the entities it exports.  [today] is [datetime.now().date()]; [None] is an
    exception caught by the function's outer handler, which exports
    nothing. *)
Definition parse_un_sanctions_xml (today : Date.date) (root : Xml.Element)
  : option (list (gmap string string) * list (gmap string string)) :=
  date_generated ←
    match Xml.get root "dateGenerated" with
    | Some date_generated_str =>
        if Py.truthy date_generated_str
        then fromisoformat_date (replace_Z date_generated_str)
        else Some today
    | None => Some today
    end;
  day_before ← Date.minus_one_day date_generated;
  let target_dates := [date_generated; day_before] in
  let individuals_data :=
    match Xml.find_child "INDIVIDUALS" root with
    | Some individuals_section =>
        listing_loop target_dates extract_individual_data
          (Xml.findall_child "INDIVIDUAL" individuals_section)
    | None => []
    end in
  let entities_data :=
    match Xml.find_child "ENTITIES" root with
    | Some entities_section =>
        listing_loop target_dates extract_entity_data
          (Xml.findall_child "ENTITY" entities_section)
    | None => []
    end in
  Some (individuals_data, entities_data).

End Un.

(** ** The [csv] reader, as far as the first record *)

Module Csv.

Inductive state :=
| START_RECORD | START_FIELD | IN_FIELD | IN_QUOTED_FIELD
| QUOTE_IN_QUOTED_FIELD | EAT_CRNL.

Global Instance state_eq_dec : EqDecision state.
Proof. solve_decision. Defined.

Record reader := mkReader {
  st : state;
  cur : string;
  fields : list string
}.

Definition parse_reset : reader := mkReader START_RECORD "" [].

Definition set_state (s : state) (p : reader) : reader :=
  mkReader s (cur p) (fields p).

Definition parse_save_field (p : reader) : reader :=
  mkReader (st p) "" (fields p ++ [cur p]).

(** [None] is the [csv.Error] of a field longer than the field limit. *)
Definition parse_add_char (c : ascii) (p : reader) : option reader :=
  if (131072 <=? N.of_nat (String.length (cur p)))%N then None
  else Some (mkReader (st p) (cur p +:+ String c "") (fields p)).

Definition is_nl (c : ascii) : bool :=
  Ascii.eqb c "010" || Ascii.eqb c "013".

(** The double quote, character 34. *)
Definition quotechar : ascii := "034".

(** [parse_process_char] for the default dialect: the comma delimits, the
    double quote quotes and is doubled inside a quoted field, there is no
    escape character, and the reader is not strict.  The character [None] is
    the end of a line. *)
Definition parse_process_char (p : reader) (c : option ascii)
  : option reader :=
  let start_field (p : reader) :=
    match c with
    | None => Some (set_state START_RECORD (parse_save_field p))
    | Some a =>
        if is_nl a then Some (set_state EAT_CRNL (parse_save_field p))
        else if Ascii.eqb a quotechar then Some (set_state IN_QUOTED_FIELD p)
        else if Ascii.eqb a "," then Some (parse_save_field p)
        else set_state IN_FIELD <$> parse_add_char a p
    end in
  match st p with
  | START_RECORD =>
      match c with
      | None => Some p
      | Some a =>
          if is_nl a then Some (set_state EAT_CRNL p)
          else start_field (set_state START_FIELD p)
      end
  | START_FIELD => start_field p
  | IN_FIELD =>
      match c with
      | None => Some (set_state START_RECORD (parse_save_field p))
      | Some a =>
          if is_nl a then Some (set_state EAT_CRNL (parse_save_field p))
          else if Ascii.eqb a ","
          then Some (set_state START_FIELD (parse_save_field p))
          else parse_add_char a p
      end
  | IN_QUOTED_FIELD =>
      match c with
      | None => Some p
      | Some a =>
          if Ascii.eqb a quotechar then Some (set_state QUOTE_IN_QUOTED_FIELD p)
          else parse_add_char a p
      end
  | QUOTE_IN_QUOTED_FIELD =>
      match c with
      | None => Some (set_state START_RECORD (parse_save_field p))
      | Some a =>
          if Ascii.eqb a quotechar
          then set_state IN_QUOTED_FIELD <$> parse_add_char a p
          else if Ascii.eqb a ","
          then Some (set_state START_FIELD (parse_save_field p))
          else if is_nl a
          then Some (set_state EAT_CRNL (parse_save_field p))
          else set_state IN_FIELD <$> parse_add_char a p
      end
  | EAT_CRNL =>
      match c with
      | None => Some (set_state START_RECORD p)
      | Some a => if is_nl a then Some p else None
      end
  end.

(** The characters of a line, then its end. *)
Fixpoint feed_line (p : reader) (line : string) : option reader :=
  match line with
  | EmptyString => parse_process_char p None
  | String c line' => parse_process_char p (Some c) ≫= λ p', feed_line p' line'
  end.

(** The lines [io.StringIO(text)] yields: each ends after its line feed. *)
Fixpoint lines_go (acc : string) (s : string) : list string :=
  match s with
  | EmptyString => if Py.truthy acc then [acc] else []
  | String c s' =>
      if Ascii.eqb c "010" then (acc +:+ String c "") :: lines_go "" s'
      else lines_go (acc +:+ String c "") s'
  end.

Definition lines (text : string) : list string := lines_go "" text.

(** [Reader.__next__]: lines are consumed until a record is complete.
    [None] is [StopIteration] or [csv.Error]. *)
Fixpoint read_record (p : reader) (ls : list string) : option (list string) :=
  match ls with
  | [] =>
      if Py.truthy (cur p) || bool_decide (st p = IN_QUOTED_FIELD)
      then Some (fields (parse_save_field p)) else None
  | line :: ls' =>
      match feed_line p line with
      | None => None
      | Some p' =>
          if bool_decide (st p' = START_RECORD) then Some (fields p')
          else read_record p' ls'
      end
  end.

(** [next(csv.reader(io.StringIO(text)))]. *)
Definition first_row (text : string) : option (list string) :=
  read_record parse_reset (lines text).

End Csv.

(** ** Document-derived extractor ([gemini_markdown_csv.py]) *)

Module Gemini.

Definition fence : string := "```".

(** [re.sub(r'```csv\s*\n?', '', text)]: every fence opening a CSV block
    goes, with the blanks that follow it. *)
Fixpoint remove_csv_fences (fuel : nat) (text : string) : string :=
  match fuel with
  | 0 => text
  | S fuel' =>
      match text with
      | EmptyString => EmptyString
      | String c text' =>
          if Py.startswith (fence +:+ "csv") text
          then remove_csv_fences fuel' (Py.lstrip (Py.drop 6 text))
          else String c (remove_csv_fences fuel' text')
      end
  end.

(** [re.sub(r'```\s*$', '', text)]: the first fence followed by blanks only
    goes, with them. *)
Fixpoint remove_closing_fence (text : string) : string :=
  match text with
  | EmptyString => EmptyString
  | String c text' =>
      if Py.startswith fence text && negb (Py.truthy (Py.lstrip (Py.drop 3 text)))
      then EmptyString
      else String c (remove_closing_fence text')
  end.

(** [clean_csv_response]. *)
Definition clean_csv_response (csv_text : string) : string :=
  let csv_text := remove_csv_fences (S (String.length csv_text)) csv_text in
  let csv_text := remove_closing_fence csv_text in
  Py.strip csv_text.

Definition expected_headers : list string :=
  [ "Name"; "Aliases"; "Type"; "Date of Birth"; "Place of Birth";
    "Gender"; "Nationality"; "COUNTRY"; "ID_1"; "ID_Type1";
    "ID_2"; "ID_Type2"; "Date of listing"; "Watchlist";
    "Other info"; "DOB_DJ"; "DOB_YEAR" ].

(** [validate_csv_structure]: any exception of the reader gives [False]. *)
Definition validate_csv_structure (csv_text : string) : bool :=
  match Csv.first_row csv_text with
  | Some headers => length headers =? length expected_headers
  | None => false
  end.

(** The dictionary [convert_markdown_to_csv] returns. *)
Inductive result :=
| Success (csv_content : string) (output_path : option string)
| Failure (error : string).

(** Truthiness of an optional [str] argument. *)
Definition given (a : option string) : option string :=
  match a with
  | Some s => if Py.truthy s then Some s else None
  | None => None
  end.

Section Convert.

(** What lies outside the converter: reading the markdown file ([inr] is the
    exception it raises), the collaborator's answer to a request
    ([process_markdown_file], a [str] as its signature says, [inr] being the
    exception it raises), and whether [save_csv_file] manages to write. *)
Variable read_file : string → string + string.
Variable process_markdown_file : string → string → string + string.
Variable save_csv_file : string → string → bool.

(** [convert_markdown_to_csv]: the result, and whether the structure warning
    was printed. *)
Definition convert_markdown_to_csv (markdown_file_path markdown_content
    output_path : option string) (is_base64 : bool) : result * bool :=
  let content :=
    match given markdown_file_path with
    | Some path => Some (read_file path)
    | None =>
        match given markdown_content with
        | Some c => Some (inl c)
        | None => None
        end
    end in
  match content with
  | None => (Failure "No markdown content provided", false)
  | Some (inr e) => (Failure e, false)
  | Some (inl content) =>
      let file_type := if is_base64 then "base64" else "text" in
      match process_markdown_file content file_type with
      | inr e => (Failure e, false)
      | inl csv_response =>
          let csv_content := clean_csv_response csv_response in
          let warned := negb (validate_csv_structure csv_content) in
          match given output_path with
          | Some path =>
              if save_csv_file csv_content path
              then (Success csv_content output_path, warned)
              else (Failure "Failed to save CSV file", warned)
          | None => (Success csv_content output_path, warned)
          end
      end
  end.

End Convert.

End Gemini.

(** ** Notions used in the statements, and sample inputs *)

(** A table whose two rows carry different regulation codes. *)
Definition two_codes : DataFrame :=
  mkDF ["Name"; "Watchlist"]
    [ {["Name" := "ALPHA"; "Watchlist" := "2025/1578"]};
      {["Name" := "BETA"; "Watchlist" := "2024/100"]} ].

(** The precedence of the Watchlist resolution read row by row: the row has
    no UN-indicative Source, no OFAC keyword in its Watchlist, and a Watchlist
    that is neither empty nor the placeholder. *)
Definition keeps_own_value (r : gmap string string) : bool :=
  let source := Py.lower (py_str (r !! "Source")) in
  let watchlist := Py.lower (py_str (r !! "Watchlist")) in
  negb (bool_decide (is_Some (r !! "Source"))
        && (Py.contains "un" source || Py.contains "security council" source))
  && negb (Py.contains "ofac" watchlist
           || Py.contains "specially designated" watchlist)
  && Py.truthy watchlist && negb (String.eqb watchlist "nan").

Definition dob_table : DataFrame :=
  mkDF ["Name"; "DOB_DJ"]
    [ {["Name" := "ALPHA"; "DOB_DJ" := "12/10/1958"]};
      {["Name" := "BETA"; "DOB_DJ" := "circa 1958"]} ].

(** The identity-document sub-elements of an entity, as the extractor
    enumerates them. *)
Definition id_docs_of (entity : Xml.Element) : list Xml.Element :=
  Xml.findall_desc_child (Ofac.ns "identityDocuments")
    (Ofac.ns "identityDocument") entity.

(** A sub-element the loop keeps: it has a type element and a document number
    with text; what is kept is the number and the label of the type. *)
Definition usable_doc (doc : Xml.Element) : option (string * string) :=
  match Xml.find_child (Ofac.ns "type") doc,
        Xml.text_of (Xml.find_child (Ofac.ns "documentNumber") doc) with
  | Some doc_type_elem, Some doc_number =>
      Some (doc_number,
            Ofac.get_document_type_name (Xml.get doc_type_elem "refId"))
  | _, _ => None
  end.

(** The number of a sub-element, when it has one. *)
Definition doc_number_of (doc : Xml.Element) : option string :=
  Xml.text_of (Xml.find_child (Ofac.ns "documentNumber") doc).

(** Sample OFAC elements. *)
Definition el (t : string) (attrs : list (string * string)) (txt : string)
    (cs : list Xml.Element) : Xml.Element :=
  Xml.Elem (Ofac.ns t) attrs (if Py.truthy txt then Some txt else None) cs.

Definition id_doc (ref number : string) : Xml.Element :=
  el "identityDocument" [] ""
    [ el "type" [("refId", ref)] "" []; el "documentNumber" [] number [] ].

Definition sample_entity (action : string) (docs : list Xml.Element)
  : Xml.Element :=
  el "entity" [("id", "4711"); ("action", action)] ""
    [ el "generalInfo" [] "" [ el "entityType" [("refId", "600")] "" [] ];
      el "names" [] ""
        [ el "name" [] ""
            [ el "isPrimary" [] "true" [];
              el "translations" [] ""
                [ el "translation" [] ""
                    [ el "formattedFullName" [] "DOE, John" [] ] ] ];
          el "name" [] ""
            [ el "isPrimary" [] "false" [];
              el "translations" [] ""
                [ el "translation" [] ""
                    [ el "formattedFullName" [] "DOE, Johnny" [] ] ] ] ];
      el "features" [] ""
        [ el "feature" [] ""
            [ el "type" [("featureTypeId", "8")] "" [];
              el "value" [] "circa 1958" [] ];
          el "feature" [] ""
            [ el "type" [("featureTypeId", "10")] "" [];
              el "value" [] "Liberia" [] ] ];
      el "identityDocuments" [] "" docs;
      el "sanctionsLists" [] ""
        [ el "sanctionsList" [("datePublished", "2025-07-30")] "" [] ];
      el "sanctionsPrograms" [] ""
        [ el "sanctionsProgram" [("refId", "1550")] "" [] ] ].

Definition five_docs : list Xml.Element :=
  [ id_doc "1571" "P1"; id_doc "1584" "N2"; id_doc "4242" "X3";
    id_doc "1576" "T4"; id_doc "1577" "S5" ].

(** Three sub-elements, the first of which has no document number. *)
Definition docs_first_incomplete : list Xml.Element :=
  [ el "identityDocument" [] "" [ el "type" [("refId", "1571")] "" [] ];
    id_doc "9999" "A"; id_doc "1584" "B" ].

Definition sample_root (es : list Xml.Element) : Xml.Element :=
  el "sanctionsData" [] "" [ el "entities" [] "" es ].

(** The date a UN record is listed on, when its LISTED_ON text parses. *)
Definition listed_date (record : Xml.Element) : option Date.date :=
  Xml.text_of (Xml.find_child "LISTED_ON" record)
  ≫= λ listed_on, Date.strptime listed_on "%Y-%m-%d".

(** A record listed on one of the target dates. *)
Definition listed_in (targets : list Date.date) (record : Xml.Element)
  : Prop :=
  match listed_date record with
  | Some d => d ∈ targets
  | None => False
  end.

Global Instance listed_in_dec targets record :
  Decision (listed_in targets record).
Proof. unfold listed_in. destruct (listed_date record); apply _. Defined.

(** The records of a section of the UN document; none when it is absent. *)
Definition section_records (section record : string) (root : Xml.Element)
  : list Xml.Element :=
  match Xml.find_child section root with
  | Some s => Xml.findall_child record s
  | None => []
  end.

(** Sample UN elements. *)
Definition un_el (t : string) (txt : string) (cs : list Xml.Element)
  : Xml.Element :=
  Xml.Elem t [] (if Py.truthy txt then Some txt else None) cs.

Definition un_individual (name listed_on : string) : Xml.Element :=
  un_el "INDIVIDUAL" ""
    ([ un_el "FIRST_NAME" name []; un_el "SECOND_NAME" "TEST" [] ]
     ++ if Py.truthy listed_on then [ un_el "LISTED_ON" listed_on [] ]
        else []).

Definition un_entity (name listed_on : string) : Xml.Element :=
  un_el "ENTITY" ""
    [ un_el "FIRST_NAME" name []; un_el "LISTED_ON" listed_on [] ].

Definition un_document (sections : list Xml.Element) : Xml.Element :=
  Xml.Elem "CONSOLIDATED_LIST"
    [("dateGenerated", "2025-07-30T23:00:05.333Z")] None sections.

Definition un_sample : Xml.Element :=
  un_document
    [ un_el "INDIVIDUALS" ""
        [ un_individual "A" "2025-07-28"; un_individual "B" "2025-07-29";
          un_individual "C" "2025-07-30"; un_individual "D" "2025-07-31";
          un_individual "E" "30/07/2025"; un_individual "F" "" ];
      un_el "ENTITIES" ""
        [ un_entity "G" "2025-07-29"; un_entity "H" "2024-07-30" ] ].

Definition names_of (l : list (gmap string string)) : list (option string) :=
  (λ r : gmap string string, r !! "Name") <$> l.

(** The Name cell of a row, the key of deduplication. *)
Definition name_of (r : gmap string string) : cell := r !! "Name".

(** The Watchlist value the resolution pass gives every row of a table. *)
Definition table_watchlist (df : DataFrame) (file : string) : string :=
  Main.resolve_watchlist
    (if negb (has_column "Watchlist" df) then set_column "Watchlist" "" df
     else df) file.

(** What the passes before deduplication make of one row: its table's
    Watchlist value, the date pass when the merged table has a DOB_DJ column,
    then the Watchlist canonicalization. *)
Definition normalized_row (dob : bool) (watchlist : string)
    (r : gmap string string) : gmap string string :=
  let r := <["Watchlist" := watchlist]> r in
  let r :=
    if dob then <["DOB_DJ" := Dob.convert_date_format (r !! "DOB_DJ")]> r
    else r in
  <["Watchlist" := Main.clean_watchlist_value (r !! "Watchlist")]> r.

(** Sample tables: the name BETA is in both. *)
Definition table_one : DataFrame :=
  mkDF ["Name"; "Watchlist"]
    [ {["Name" := "GAMMA"; "Watchlist" := "OFAC - Specially Designated National List"]};
      {["Name" := "BETA"; "Watchlist" := "OFAC - Specially Designated National List"]} ].

Definition table_two : DataFrame :=
  mkDF ["Name"; "Type"]
    [ {["Name" := "BETA"; "Type" := "Entity"]};
      {["Name" := "ALPHA"; "Type" := "Vessel"]};
      {["Name" := "ALPHA"; "Type" := "Entity"]} ].

Definition sample_files : list (string * DataFrame) :=
  [ ("sanctions_cleaned_2025-08-01.csv", table_one);
    ("sanctions_from_202501578_20250801.csv", table_two) ].

(** A character of a regulation code: a digit or the slash. *)
Definition code_char (c : ascii) : bool := Py.is_digit c || Ascii.eqb c "/".

(** The four identity-document cells of a dictionary. *)
Definition id_cells (data : gmap string string)
  : option string * option string * option string * option string :=
  (data !! "ID_1", data !! "ID_Type1", data !! "ID_2", data !! "ID_Type2").

Definition is_id_key (k : string) : bool :=
  bool_decide (k ∈ ["ID_1"; "ID_Type1"; "ID_2"; "ID_Type2"]).

(** A character that is neither the delimiter, the quote nor a line break,
    and a field made of such characters that fits the reader's limit. *)
Definition plain_char (c : ascii) : bool :=
  negb (Ascii.eqb c "," || Ascii.eqb c Csv.quotechar || Csv.is_nl c).

Definition plain_field (f : string) : Prop :=
  Py.all_chars plain_char f = true
  ∧ (N.of_nat (String.length f) ≤ 131072)%N.

(** The characters of a line without its end. *)
Fixpoint feed_chars (p : Csv.reader) (s : string) : option Csv.reader :=
  match s with
  | EmptyString => Some p
  | String c s' => Csv.parse_process_char p (Some c) ≫= λ p', feed_chars p' s'
  end.

Definition line_feed : string := String "010" "".

(** An answer of the collaborator with three columns, fenced. *)
Definition three_column_answer : string :=
  "```csv
Name,Type,Watchlist
ACME,Entity,2025/1578
```".

(** A real calendar date: one the [date] constructor accepts. *)
Definition valid_date (d : Date.date) : Prop :=
  Date.make (Date.year d) (Date.month d) (Date.day d) = Some d.

(** What the OFAC extractor may write into its dictionary: a canonical key;
    under DOB_YEAR a year in digits, under DOB_DJ a real date written
    day/month/year. *)
Definition ofac_write (k v : string) : Prop :=
  k ∈ Ofac.canonical_columns
  ∧ (k = "DOB_YEAR" → Py.isdigit v = true ∧ String.length v ≤ 4)
  ∧ (k = "DOB_DJ" → ∃ d, valid_date d ∧ v = Date.strftime_d_m_Y d).

(** A dictionary reached from another one by assignments [data[k] = v] that
    all satisfy [W]. *)
Inductive built (W : string → string → Prop) (data0 : gmap string string)
  : gmap string string → Prop :=
| built_refl : built W data0 data0
| built_insert data k v :
    built W data0 data → W k v → built W data0 (<[k := v]> data).

(** The formatted names of an OFAC entity in document order, each with the
    primary flag of the name it translates. *)
Definition formatted_names (entity : Xml.Element) : list (bool * string) :=
  Xml.findall_desc_child (Ofac.ns "names") (Ofac.ns "name") entity ≫= λ name,
    omap (λ translation,
            (λ t, (bool_decide (Xml.find_child (Ofac.ns "isPrimary") name
                                ≫= Xml.text = Some "true"), t))
            <$> Xml.text_of (Xml.find_child (Ofac.ns "formattedFullName")
                               translation))
      (Xml.findall_child_child (Ofac.ns "translations")
         (Ofac.ns "translation") name).

(** The value of a feature when it has the given type identifier and a
    text. *)
Definition feature_value (id : string) (feature : Xml.Element)
  : option string :=
  match Xml.find_child (Ofac.ns "type") feature with
  | Some feature_type =>
      if bool_decide (Xml.get feature_type "featureTypeId" = Some id)
      then Xml.text_of (Xml.find_child (Ofac.ns "value") feature)
      else None
  | None => None
  end.

(** The values of the features of an OFAC entity that have the given type
    identifier, in document order. *)
Definition feature_values (id : string) (entity : Xml.Element) : list string :=
  omap (feature_value id)
    (Xml.findall_desc_child (Ofac.ns "features") (Ofac.ns "feature") entity).

(** The Type the extractor derives from the entity type element. *)
Definition entity_type_label (entity : Xml.Element) : string :=
  match Xml.find_desc_child (Ofac.ns "generalInfo") (Ofac.ns "entityType")
          entity with
  | Some entity_type_elem =>
      let ref_id := Xml.get entity_type_elem "refId" in
      if bool_decide (ref_id = Some "600") then "Individual"
      else if bool_decide (ref_id = Some "601") then "Entity"
      else if bool_decide (ref_id = Some "602") then "Vessel"
      else "Type " +:+ fmt_opt ref_id
  | None => ""
  end.

(** The countries of the addresses of an OFAC entity. *)
Definition address_countries (entity : Xml.Element) : list string :=
  omap (λ address,
          Xml.text_of (Xml.find_child (Ofac.ns "country") address))
    (Xml.findall_desc_child (Ofac.ns "addresses") (Ofac.ns "address") entity).

(** A text without backtick, and a text made of blanks. *)
Definition no_backtick (t : string) : Prop :=
  Py.all_chars (λ c, negb (Ascii.eqb c "`")) t = true.

Definition blank (t : string) : Prop := Py.all_chars Py.is_space t = true.

(** * Properties *)

(** ** The embedding on sample values *)

Example dob_1 : Dob.convert_date_format (Some "12/10/1958") = "12 Oct 1958".
Proof. reflexivity. Qed.
Example dob_2 : Dob.convert_date_format (Some "1958-10-12") = "12 Oct 1958".
Proof. reflexivity. Qed.
Example dob_3 : Dob.convert_date_format (Some "12 Oct 1958") = "12 Oct 1958".
Proof. reflexivity. Qed.
Example dob_4 : Dob.convert_date_format (Some "circa 1958") = "circa 1958".
Proof. reflexivity. Qed.
Example dob_5 : Dob.convert_date_format (Some " circa 1958") = "circa 1958".
Proof. reflexivity. Qed.
Example dob_6 : Dob.convert_date_format (Some "10/13/1958") = "13 Oct 1958".
Proof. reflexivity. Qed.
Example dob_7 : Dob.convert_date_format (Some "12 10 1958") = "12 Oct 1958".
Proof. reflexivity. Qed.
Example dob_8 : Dob.convert_date_format (Some "31/02/1958") = "31/02/1958".
Proof. reflexivity. Qed.
Example dob_9 : Dob.convert_date_format (Some "1958-10- 2") = "02 Oct 1958".
Proof. reflexivity. Qed.

Example csv_1 : Csv.first_row "a,b,c
1,2,3" = Some ["a"; "b"; "c"].
Proof. reflexivity. Qed.
Example csv_2 : Csv.first_row "" = None.
Proof. reflexivity. Qed.
Example clean_1 : Gemini.clean_csv_response "```csv
a,b
```
" = "a,b".
Proof. reflexivity. Qed.

Lemma app_String c a b : String c a +:+ b = String c (a +:+ b).
Proof. reflexivity. Qed.
Lemma app_Empty b : "" +:+ b = b.
Proof. reflexivity. Qed.

Lemma string_app_assoc (a b c : string) : (a +:+ b) +:+ c = a +:+ b +:+ c.
Proof. induction a as [|x a IH]; [done|]. by rewrite !app_String, IH. Qed.

Lemma string_app_nil_r (a : string) : a +:+ "" = a.
Proof. induction a as [|x a IH]; [done|]. by rewrite app_String, IH. Qed.

Lemma string_length_app (a b : string) :
  String.length (a +:+ b) = String.length a + String.length b.
Proof. induction a as [|x a IH]; [done|]. rewrite app_String. simpl. lia. Qed.

Lemma all_chars_app p a b :
  Py.all_chars p (a +:+ b) = Py.all_chars p a && Py.all_chars p b.
Proof.
  induction a as [|c a IH]; [done|]. rewrite app_String. simpl.
  by rewrite IH, andb_assoc.
Qed.

Lemma all_chars_impl (p q : ascii → bool) s :
  (∀ c, p c = true → q c = true) →
  Py.all_chars p s = true → Py.all_chars q s = true.
Proof.
  intros Hpq. induction s as [|c s IH]; [done|]. simpl.
  intros [? ?]%andb_true_iff. rewrite Hpq by done. by apply IH.
Qed.

Lemma prefix_app a b : Py.startswith a (a +:+ b) = true.
Proof.
  induction a as [|c a IH]; [by destruct b|].
  rewrite app_String. simpl. by rewrite Ascii.eqb_refl.
Qed.

Lemma contains_prefix a h : Py.startswith a h = true → Py.contains a h = true.
Proof. destruct h; simpl; intros ->; done. Qed.

Lemma contains_app a b : Py.contains a (a +:+ b) = true.
Proof. apply contains_prefix, prefix_app. Qed.

Lemma drop_app a b : Py.drop (String.length a) (a +:+ b) = b.
Proof. induction a; [by destruct b|]. rewrite app_String. simpl. done. Qed.

Lemma span_digits_app d r :
  Py.all_chars Py.is_digit d = true →
  Py.startswith "_" r = true →
  Py.span_digits (d +:+ r) = (d, r).
Proof.
  intros Hd Hr. induction d as [|c d IH].
  - rewrite app_Empty. destruct r as [|a r]; [done|].
    cbn [Py.startswith] in Hr. apply andb_true_iff in Hr as [Ha _].
    apply Ascii.eqb_eq in Ha as <-. done.
  - rewrite app_String. simpl in *. apply andb_true_iff in Hd as [Hc Hd].
    rewrite Hc, (IH Hd). done.
Qed.

Lemma search_pdf_number_found d rest :
  Py.isdigit d = true →
  Main.search_pdf_number ("sanctions_from_" +:+ d +:+ "_" +:+ rest) = Some d.
Proof.
  intros Hd. apply andb_true_iff in Hd as [Ht Hd].
  assert (Main.match_pdf_number_at ("sanctions_from_" +:+ d +:+ "_" +:+ rest) = Some d) as Hm.
  { unfold Main.match_pdf_number_at. rewrite prefix_app.
    change 15 with (String.length "sanctions_from_"). rewrite drop_app.
    rewrite span_digits_app by done. rewrite Ht. done. }
  revert Hm. generalize ("sanctions_from_" +:+ d +:+ "_" +:+ rest).
  intros s Hm. destruct s; [by vm_compute in Hm|].
  cbn [Main.search_pdf_number]. by rewrite Hm.
Qed.

Lemma has_column_set_column c c' v df :
  has_column c (set_column c' v df) = has_column c df || bool_decide (c = c').
Proof.
  unfold set_column, has_column; cbn [columns].
  destruct (bool_decide (c' ∈ columns df)) eqn:E.
  - apply bool_decide_eq_true in E.
    destruct (decide (c = c')) as [->|Hne].
    + by rewrite (bool_decide_eq_true_2 (c' ∈ columns df)).
    + rewrite (bool_decide_eq_false_2 (c = c')) by done. by rewrite orb_false_r.
  - apply eq_true_iff_eq. rewrite orb_true_iff, !bool_decide_eq_true.
    rewrite elem_of_app, list_elem_of_singleton. done.
Qed.

Lemma len_set_column c v df : len (set_column c v df) = len df.
Proof. unfold len, set_column; cbn [rows]. by rewrite length_fmap. Qed.

Lemma iloc0_set_column c v df :
  0 < len df → iloc0 c (set_column c v df) = Some v.
Proof.
  unfold len, iloc0, set_column; cbn [rows]. destruct (rows df); simpl; [lia|].
  intros _. by rewrite lookup_insert_eq.
Qed.

Lemma extract_eu_truthy d :
  Py.truthy (Main.extract_eu_watchlist_from_number d) = true.
Proof.
  unfold Main.extract_eu_watchlist_from_number.
  repeat case_match; try done. destruct (Py.take 4 d); done.
Qed.

Lemma resolve_pdf_table df d rest :
  Py.isdigit d = true →
  has_column "Source" df = false →
  has_column "Watchlist" df = false →
  Main.resolve_watchlist (set_column "Watchlist" "" df)
    ("sanctions_from_" +:+ d +:+ "_" +:+ rest)
  = Main.extract_eu_watchlist_from_number d.
Proof.
  intros Hd Hs Hw. unfold Main.resolve_watchlist.
  rewrite !has_column_set_column, Hs, Hw, len_set_column.
  rewrite (bool_decide_eq_false_2 ("Source" = "Watchlist")) by done.
  rewrite (bool_decide_eq_true_2 ("Watchlist" = "Watchlist")) by done.
  assert ((if 0 <? len df
           then Py.lower (py_str (iloc0 "Watchlist" (set_column "Watchlist" "" df)))
           else "") = "") as ->.
  { destruct (0 <? len df) eqn:E; [|done].
    apply Nat.ltb_lt in E. by rewrite iloc0_set_column. }
  cbn -[Py.contains Main.search_pdf_number Main.extract_eu_watchlist_from_number String.append].
  rewrite contains_app, search_pdf_number_found by done.
  pose proof (extract_eu_truthy d) as Ht.
  by destruct (Main.extract_eu_watchlist_from_number d).
Qed.

Lemma rows_set_column c v df (r : gmap string string) :
  r ∈ rows (set_column c v df) → r !! c = Some v.
Proof.
  unfold set_column; cbn [rows]. intros (r0 & -> & _)%list_elem_of_fmap.
  apply lookup_insert_eq.
Qed.

Lemma lstrip_char_spec c s :
  ∃ zeros, s = zeros +:+ Py.lstrip_char c s
           ∧ Py.all_chars (λ a, Ascii.eqb a c) zeros = true
           ∧ Py.startswith (String c "") (Py.lstrip_char c s) = false.
Proof.
  induction s as [|a s (zeros & Hs & Hz & Hn)].
  - by exists "".
  - simpl. destruct (Ascii.eqb a c) eqn:E.
    + exists (String a zeros). rewrite app_String, <- Hs. simpl. by rewrite E, Hz.
    + exists "". split; [done|]. split; [done|].
      cbn [Py.startswith]. by rewrite Ascii.eqb_sym, E.
Qed.

(** Claim C4.  For a digit string taken from a document-derived file name:
    with at least 8 digits and a remainder that does not strip to nothing,
    the derived Watchlist value is the first 4 digits, a slash, and the
    remaining digits without their leading zeros; with fewer than 8 digits, or
    a remainder made of zeros only, it is the literal EU.  So 202501578
    gives 2025/1578, while 2025000 and 20250000 give EU; and every row of a
    table without Source and Watchlist columns read from
    [sanctions_from_<digits>_<rest>] receives the value derived from the
    digits. *)
Theorem eu_code_derivation :
  (∀ d, Py.isdigit d = true →
     (8 ≤ String.length d →
      Py.lstrip_char "0" (Py.drop 4 d) ≠ "" →
      Main.extract_eu_watchlist_from_number d
      = Py.take 4 d +:+ "/" +:+ Py.lstrip_char "0" (Py.drop 4 d))
     ∧ (String.length d < 8 ∨ Py.lstrip_char "0" (Py.drop 4 d) = "" →
        Main.extract_eu_watchlist_from_number d = "EU")
     ∧ ∃ zeros, Py.drop 4 d = zeros +:+ Py.lstrip_char "0" (Py.drop 4 d)
         ∧ Py.all_chars (λ a, Ascii.eqb a "0") zeros = true
         ∧ Py.startswith "0" (Py.lstrip_char "0" (Py.drop 4 d)) = false)
  ∧ Main.extract_eu_watchlist_from_number "202501578" = "2025/1578"
  ∧ Main.extract_eu_watchlist_from_number "2025000" = "EU"
  ∧ Main.extract_eu_watchlist_from_number "20250000" = "EU"
  ∧ (∀ df d rest (r : gmap string string),
       Py.isdigit d = true →
       has_column "Source" df = false →
       has_column "Watchlist" df = false →
       r ∈ rows (Main.update_watchlist_column df
                   ("sanctions_from_" +:+ d +:+ "_" +:+ rest)) →
       r !! "Watchlist" = Some (Main.extract_eu_watchlist_from_number d)).
Proof.
  split; [|split; [done|split; [done|split; [done|]]]].
  - intros d Hd. unfold Main.extract_eu_watchlist_from_number. rewrite Hd.
    assert (Py.truthy d = true) as -> by (by apply andb_true_iff in Hd as [? _]).
    cbn [negb orb andb]. split; [|split].
    + intros Hlen Hne.
      assert ((String.length d <? 8) = false) as -> by (apply Nat.ltb_ge; lia).
      assert ((8 <=? String.length d) = true) as -> by (apply Nat.leb_le; lia).
      by destruct (Py.lstrip_char "0" (Py.drop 4 d)).
    + intros [Hlen|He].
      * by assert ((String.length d <? 8) = true) as -> by (apply Nat.ltb_lt; lia).
      * rewrite He. by repeat case_match.
    + apply lstrip_char_spec.
  - intros df d rest r Hd Hs Hw. unfold Main.update_watchlist_column.
    rewrite Hw. cbn [negb]. rewrite resolve_pdf_table by done.
    apply rows_set_column.
Qed.

Lemma eu_code_derivation_witness :
  Main.extract_eu_watchlist_from_number "202501578" = "2025/1578"
  ∧ Main.extract_eu_watchlist_from_number "2025000" = "EU"
  ∧ (∀ r : gmap string string,
       r ∈ rows (Main.update_watchlist_column
                   (mkDF ["Name"] [{["Name" := "ACME"]}])
                   "sanctions_from_202501578_20250801.csv") →
       r !! "Watchlist" = Some "2025/1578").
Proof.
  destruct eu_code_derivation as (Hgen & _ & _ & _ & Hupd).
  split; [|split].
  - destruct (Hgen "202501578" eq_refl) as (H & _ & _).
    apply H; [vm_compute; lia | vm_compute; discriminate].
  - destruct (Hgen "2025000" eq_refl) as (_ & H & _).
    apply H. left. vm_compute. lia.
  - intros r Hr.
    apply (Hupd (mkDF ["Name"] [{["Name" := "ACME"]}]) "202501578"
             "20250801.csv" r eq_refl eq_refl eq_refl Hr).
Defined.

Lemma rstrip_idempotent s : Py.rstrip (Py.rstrip s) = Py.rstrip s.
Proof.
  induction s as [|c s IH]; [done|]. cbn [Py.rstrip].
  destruct (Py.is_space c && negb (Py.truthy (Py.rstrip s))) eqn:E; [done|].
  cbn [Py.rstrip]. by rewrite IH, E.
Qed.

Lemma lstrip_rstrip_lstrip s :
  Py.lstrip (Py.rstrip (Py.lstrip s)) = Py.rstrip (Py.lstrip s).
Proof.
  assert (∀ t, match t with
               | String c _ => Py.is_space c = false
               | EmptyString => True
               end → Py.lstrip (Py.rstrip t) = Py.rstrip t) as H.
  { intros [|c t] Hc; [done|]. cbn [Py.rstrip]. rewrite Hc. cbn [andb].
    cbn [Py.lstrip]. by rewrite Hc. }
  apply H. induction s as [|c s IH]; [done|]. cbn [Py.lstrip].
  by destruct (Py.is_space c) eqn:E.
Qed.

Lemma strip_idempotent s : Py.strip (Py.strip s) = Py.strip s.
Proof.
  unfold Py.strip. by rewrite lstrip_rstrip_lstrip, rstrip_idempotent.
Qed.

(** Away from blank values the canonicalization is idempotent. *)
Lemma clean_watchlist_idempotent_off_blank v :
  Py.strip v ≠ "" →
  Main.clean_watchlist_value (Some (Main.clean_watchlist_value (Some v)))
  = Main.clean_watchlist_value (Some v).
Proof.
  intros Hne.
  assert (∀ w, Py.strip w ≠ "" →
    Main.clean_watchlist_value (Some w)
    = if Py.contains_any ["un"; "united nations"; "security council"]
           (Py.lower (Py.strip w)) then "UN"
      else if Py.contains_any ["ofac"; "specially designated"; "treasury"]
                (Py.lower (Py.strip w)) then "OFAC"
      else if Main.search_eu_code (Py.strip w) then Py.strip w
      else if Py.contains "eu" (Py.lower (Py.strip w)) then "EU"
      else Py.strip w) as Hunfold.
  { intros w Hw. unfold Main.clean_watchlist_value.
    by assert (Py.truthy w = true) as -> by (by destruct w). }
  rewrite (Hunfold v Hne).
  destruct (Py.contains_any ["un"; "united nations"; "security council"]
              (Py.lower (Py.strip v))) eqn:E1; [reflexivity|].
  destruct (Py.contains_any ["ofac"; "specially designated"; "treasury"]
              (Py.lower (Py.strip v))) eqn:E2; [reflexivity|].
  destruct (Main.search_eu_code (Py.strip v)) eqn:E3.
  { rewrite Hunfold by (by rewrite strip_idempotent).
    by rewrite strip_idempotent, E1, E2, E3. }
  destruct (Py.contains "eu" (Py.lower (Py.strip v))) eqn:E4; [reflexivity|].
  rewrite Hunfold by (by rewrite strip_idempotent).
  by rewrite strip_idempotent, E1, E2, E3, E4.
Qed.

Lemma code_char_facts c :
  code_char c = true →
  Py.is_space c = false ∧ Py.lower_char c = c
  ∧ Ascii.eqb "u" c = false ∧ Ascii.eqb "s" c = false
  ∧ Ascii.eqb "o" c = false ∧ Ascii.eqb "t" c = false
  ∧ Ascii.eqb "e" c = false.
Proof. destruct c as [[] [] [] [] [] [] [] []]; vm_compute; try done. Qed.

Lemma code_lower s : Py.all_chars code_char s = true → Py.lower s = s.
Proof.
  induction s as [|c s IH]; [done|]. cbn [Py.all_chars Py.lower].
  intros [Hc Hs]%andb_true_iff.
  apply code_char_facts in Hc as (_ & -> & _). by rewrite IH.
Qed.

Lemma code_rstrip s : Py.all_chars code_char s = true → Py.rstrip s = s.
Proof.
  induction s as [|c s IH]; [done|]. cbn [Py.all_chars Py.rstrip].
  intros [Hc Hs]%andb_true_iff.
  apply code_char_facts in Hc as (-> & _). by rewrite IH.
Qed.

Lemma code_strip s : Py.all_chars code_char s = true → Py.strip s = s.
Proof.
  intros Hs. unfold Py.strip.
  assert (Py.lstrip s = s) as ->; [|by apply code_rstrip].
  destruct s as [|c s]; [done|]. cbn [Py.all_chars] in Hs.
  apply andb_true_iff in Hs as [Hc _].
  apply code_char_facts in Hc as (Hc & _). cbn [Py.lstrip]. by rewrite Hc.
Qed.

Lemma code_contains a k s :
  (∀ c, code_char c = true → Ascii.eqb a c = false) →
  Py.all_chars code_char s = true →
  Py.contains (String a k) s = false.
Proof.
  intros Ha. induction s as [|c s IH]; [done|].
  cbn [Py.all_chars Py.contains Py.startswith].
  intros [Hc Hs]%andb_true_iff. by rewrite (Ha c Hc), IH.
Qed.

(** A regulation code, four digits, a slash and digits, is a fixed point of
    the canonicalization. *)
Lemma clean_watchlist_eu_code_fixed y n :
  String.length y = 4 →
  Py.all_chars Py.is_digit y = true →
  Py.isdigit n = true →
  Main.clean_watchlist_value (Some (y +:+ "/" +:+ n)) = y +:+ "/" +:+ n.
Proof.
  intros Hlen Hy [Hn1 Hn]%andb_true_iff.
  assert (Py.all_chars code_char (y +:+ "/" +:+ n) = true) as Hcode.
  { assert (∀ s, Py.all_chars Py.is_digit s = true →
                 Py.all_chars code_char s = true) as Hd.
    { intros s. apply all_chars_impl. intros c Hc. unfold code_char.
      by rewrite Hc. }
    rewrite !all_chars_app, (Hd y Hy), (Hd n Hn). done. }
  destruct y as [|a [|b [|c [|d [|? ?]]]]]; try discriminate.
  destruct n as [|e n]; [discriminate|].
  cbn [Py.all_chars] in Hy, Hn.
  repeat (apply andb_true_iff in Hy as [? Hy]).
  apply andb_true_iff in Hn as [He Hn].
  revert Hcode. rewrite !app_String, !app_Empty.
  clear Hlen. intros Hcode.
  set (code := String a _) in *.
  unfold Main.clean_watchlist_value.
  cbn [Py.truthy negb]. cbv zeta.
  rewrite (code_strip code Hcode), (code_lower code Hcode).
  unfold Py.contains_any. cbn [existsb].
  rewrite !code_contains; try done;
    try (intros ? Hc; by apply code_char_facts in Hc as (?&?&?&?&?&?&?)).
  cbn [orb].
  assert (Main.search_eu_code code = true) as ->; [|done].
  unfold code. cbn [Main.search_eu_code Main.match_eu_code_at].
  by rewrite H, H0, H1, H2, He.
Qed.

(** Claim C2, evaluated where it fails.  A missing or empty value is
    canonicalized to Unknown, but Unknown itself is canonicalized to UN (the
    keyword [un] occurs in it): Unknown is not a fixed point, and applying the
    function twice to a missing value does not give what applying it once
    gives.  In the pipeline, a table for which the resolution pass settles on
    Unknown leaves the canonicalization pass labelled UN.  A value made of
    blanks only is canonicalized to the empty string, which is itself
    canonicalized to Unknown.  On every value that is not blank the function
    is idempotent, and OFAC, UN, EU and every regulation code are fixed
    points. *)
Theorem clean_watchlist_unknown_becomes_un :
  Main.clean_watchlist_value None = "Unknown"
  ∧ Main.clean_watchlist_value (Some "") = "Unknown"
  ∧ Main.clean_watchlist_value (Some "Unknown") = "UN"
  ∧ Main.clean_watchlist_value (Some (Main.clean_watchlist_value None))
    ≠ Main.clean_watchlist_value None
  ∧ (let df := mkDF ["Name"] [{["Name" := "ACME"]}] in
     rows (Main.update_watchlist_column df "sanctions_cleaned_2025-08-01.csv")
     = [ {["Name" := "ACME"; "Watchlist" := "Unknown"]} ]
     ∧ rows (Main.standardize_watchlist
               (Main.update_watchlist_column df
                  "sanctions_cleaned_2025-08-01.csv"))
       = [ {["Name" := "ACME"; "Watchlist" := "UN"]} ])
  ∧ Main.clean_watchlist_value (Some "  ") = ""
  ∧ (∀ v, Py.strip v ≠ "" →
       Main.clean_watchlist_value
         (Some (Main.clean_watchlist_value (Some v)))
       = Main.clean_watchlist_value (Some v))
  ∧ Main.clean_watchlist_value (Some "OFAC") = "OFAC"
  ∧ Main.clean_watchlist_value (Some "UN") = "UN"
  ∧ Main.clean_watchlist_value (Some "EU") = "EU"
  ∧ (∀ y n, String.length y = 4 → Py.all_chars Py.is_digit y = true →
            Py.isdigit n = true →
            Main.clean_watchlist_value (Some (y +:+ "/" +:+ n))
            = y +:+ "/" +:+ n).
Proof.
  split; [reflexivity|]. split; [reflexivity|]. split; [reflexivity|].
  split; [vm_compute; discriminate|].
  split; [split; vm_compute; reflexivity|]. split; [reflexivity|].
  split; [apply clean_watchlist_idempotent_off_blank|].
  split; [reflexivity|]. split; [reflexivity|]. split; [reflexivity|].
  apply clean_watchlist_eu_code_fixed.
Qed.

(** Claim C3 fails as stated: in the table [two_codes] the second row has no
    UN provenance, no OFAC keyword and the non-empty value 2024/100, yet after
    the resolution pass it carries the first row's value 2025/1578. *)
Lemma update_watchlist_not_per_row :
  ∃ (r r' : gmap string string),
    rows two_codes !! 1 = Some r
    ∧ keeps_own_value r = true
    ∧ rows (Main.update_watchlist_column two_codes
              "sanctions_from_202501578_20250801.csv") !! 1 = Some r'
    ∧ r !! "Watchlist" = Some "2024/100"
    ∧ r' !! "Watchlist" = Some "2025/1578"
    ∧ r' !! "Watchlist" ≠ r !! "Watchlist".
Proof.
  exists {["Name" := "BETA"; "Watchlist" := "2024/100"]},
         {["Name" := "BETA"; "Watchlist" := "2025/1578"]}.
  split; [reflexivity|]. split; [reflexivity|]. split; [reflexivity|].
  split; [reflexivity|]. split; [reflexivity|]. vm_compute. discriminate.
Qed.

Lemma truthy_lower s : Py.truthy (Py.lower s) = Py.truthy s.
Proof. by destruct s. Qed.

Lemma iloc0_Some_len c df w : iloc0 c df = Some w → (0 <? len df) = true.
Proof. unfold iloc0, len. by destruct (rows df). Qed.

Lemma resolve_keeps_first df filename w :
  has_column "Watchlist" df = true →
  iloc0 "Watchlist" df = Some w →
  (has_column "Source" df = false
   ∨ Py.contains "un" (Py.lower (py_str (iloc0 "Source" df)))
     || Py.contains "security council" (Py.lower (py_str (iloc0 "Source" df)))
     = false) →
  Py.contains "ofac" (Py.lower w)
  || Py.contains "specially designated" (Py.lower w) = false →
  Py.truthy w = true →
  Py.lower w ≠ "nan" →
  Main.resolve_watchlist df filename = w.
Proof.
  intros Hcol Hw Hsrc Hofac Ht Hnan. unfold Main.resolve_watchlist.
  rewrite Hcol, (iloc0_Some_len _ _ _ Hw), Hw. cbn [py_str].
  assert ((if has_column "Source" df
           then if Py.contains "un" (Py.lower (py_str (iloc0 "Source" df)))
                   || Py.contains "security council"
                        (Py.lower (py_str (iloc0 "Source" df)))
                then "UN" else ""
           else "") = "") as ->.
  { destruct Hsrc as [->| ->]; [done|]. by destruct (has_column "Source" df). }
  cbn [Py.truthy negb andb]. rewrite Hofac, truthy_lower, Ht.
  assert (String.eqb (Py.lower w) "nan" = false) as ->
    by (by apply String.eqb_neq).
  cbn [negb andb]. rewrite Ht. cbn [negb andb]. by rewrite Ht.
Qed.

(** Claim C3 as amended.  The resolution pass settles the precedence once
    per table, from the first row: when the table has a Watchlist column,
    the first row has no UN-indicative Source, and its Watchlist value has no
    OFAC keyword and is neither empty nor the placeholder, then every row of
    the table receives the first row's Watchlist value; the other columns,
    and the number and order of the rows, are unchanged. *)
Theorem update_watchlist_first_row_decides df filename w :
  has_column "Watchlist" df = true →
  iloc0 "Watchlist" df = Some w →
  (has_column "Source" df = false
   ∨ Py.contains "un" (Py.lower (py_str (iloc0 "Source" df)))
     || Py.contains "security council" (Py.lower (py_str (iloc0 "Source" df)))
     = false) →
  Py.contains "ofac" (Py.lower w)
  || Py.contains "specially designated" (Py.lower w) = false →
  Py.truthy w = true →
  Py.lower w ≠ "nan" →
  let df' := Main.update_watchlist_column df filename in
  columns df' = columns df
  ∧ length (rows df') = length (rows df)
  ∧ (∀ r' : gmap string string, r' ∈ rows df' → r' !! "Watchlist" = Some w)
  ∧ (∀ i (r : gmap string string), rows df !! i = Some r →
       ∃ r', rows df' !! i = Some r'
             ∧ ∀ c, c ≠ "Watchlist" → r' !! c = r !! c).
Proof.
  intros Hcol Hw Hsrc Hofac Ht Hnan df'. subst df'.
  unfold Main.update_watchlist_column. rewrite Hcol. cbn [negb].
  rewrite (resolve_keeps_first df filename w) by done.
  split; [|split; [|split]].
  - unfold set_column; cbn [columns]. by rewrite Hcol.
  - unfold set_column; cbn [rows]. by rewrite length_fmap.
  - intros r'. apply rows_set_column.
  - intros i r Hr. exists (<["Watchlist" := w]> r). split.
    + unfold set_column; cbn [rows]. by rewrite list_lookup_fmap, Hr.
    + intros c Hc. by rewrite lookup_insert_ne.
Qed.

Lemma update_watchlist_first_row_decides_witness :
  iloc0 "Watchlist" two_codes = Some "2025/1578"
  ∧ ∀ r' : gmap string string,
      r' ∈ rows (Main.update_watchlist_column two_codes
                   "sanctions_from_202501578_20250801.csv") →
      r' !! "Watchlist" = Some "2025/1578".
Proof.
  split; [reflexivity|].
  apply (update_watchlist_first_row_decides two_codes
           "sanctions_from_202501578_20250801.csv" "2025/1578");
    [reflexivity | reflexivity | left; reflexivity | reflexivity | reflexivity
    | vm_compute; discriminate].
Defined.

(** Claim C10.  The date-normalization pass keeps the columns, the number
    of rows and their order, and in every row the value of every column
    other than DOB_DJ; a table without a DOB_DJ column is returned as it
    is. *)
Theorem standardize_dob_format_frame df :
  let df' := Dob.standardize_dob_format df in
  columns df' = columns df
  ∧ length (rows df') = length (rows df)
  ∧ (∀ i (r : gmap string string), rows df !! i = Some r →
       ∃ r', rows df' !! i = Some r'
             ∧ ∀ c, c ≠ "DOB_DJ" → r' !! c = r !! c)
  ∧ (has_column "DOB_DJ" df = false → df' = df).
Proof.
  unfold Dob.standardize_dob_format.
  destruct (has_column "DOB_DJ" df) eqn:E; cbn [negb].
  - split; [done|]. split; [by unfold apply_column; cbn; rewrite length_fmap|].
    split; [|done]. intros i r Hr.
    exists (<["DOB_DJ" := Dob.convert_date_format (r !! "DOB_DJ")]> r). split.
    + unfold apply_column; cbn [rows]. by rewrite list_lookup_fmap, Hr.
    + intros c Hc. by rewrite lookup_insert_ne.
  - repeat split; eauto.
Qed.

Lemma standardize_dob_format_frame_witness :
  (∃ r' : gmap string string,
     rows (Dob.standardize_dob_format dob_table) !! 0 = Some r'
     ∧ ∀ c, c ≠ "DOB_DJ" →
            r' !! c
            = ({["Name" := "ALPHA"; "DOB_DJ" := "12/10/1958"]}
                 : gmap string string) !! c)
  ∧ Dob.standardize_dob_format (mkDF ["Name"] [{["Name" := "ALPHA"]}])
    = mkDF ["Name"] [{["Name" := "ALPHA"]}].
Proof.
  split.
  - destruct (standardize_dob_format_frame dob_table) as (_ & _ & H & _).
    apply (H 0 _ eq_refl).
  - destruct (standardize_dob_format_frame
                (mkDF ["Name"] [{["Name" := "ALPHA"]}])) as (_ & _ & _ & H).
    apply H. reflexivity.
Defined.

Lemma try_formats_first fmts s i fmt d :
  fmts !! i = Some fmt →
  Date.strptime s fmt = Some d →
  (∀ j fmt', j < i → fmts !! j = Some fmt' → Date.strptime s fmt' = None) →
  Dob.try_formats fmts s = Date.strftime_d_b_Y d.
Proof.
  revert i. induction fmts as [|f fmts IH]; intros i Hi Hd Hbefore; [done|].
  destruct i as [|i]; simpl in *.
  - injection Hi as ->. by rewrite Hd.
  - rewrite (Hbefore 0 f) by (done || lia).
    apply (IH i); [done..|]. intros j fmt' Hj Hf.
    apply (Hbefore (S j) fmt'); [lia|done].
Qed.

Lemma try_formats_none fmts s :
  (∀ fmt, fmt ∈ fmts → Date.strptime s fmt = None) →
  Dob.try_formats fmts s = s.
Proof.
  induction fmts as [|f fmts IH]; intros H; [done|]. simpl.
  rewrite H by left. apply IH. intros fmt Hf. apply H. by right.
Qed.

Lemma make_valid y m d dt :
  Date.make y m d = Some dt →
  dt = Date.mkDate y m d
  ∧ (1 ≤ y ≤ 9999)%Z ∧ (1 ≤ m ≤ 12)%Z ∧ (1 ≤ d ≤ Date.days_in_month y m)%Z.
Proof.
  unfold Date.make. case_match eqn:E; [|done]. intros [= <-].
  repeat (apply andb_true_iff in E as [E ?]). split; [done|]. lia.
Qed.

Lemma strptime_valid s fmt dt :
  Date.strptime s fmt = Some dt →
  (1 ≤ Date.year dt ≤ 9999)%Z ∧ (1 ≤ Date.month dt ≤ 12)%Z
  ∧ (1 ≤ Date.day dt ≤ Date.days_in_month (Date.year dt) (Date.month dt))%Z.
Proof.
  unfold Date.strptime. repeat case_match; try done.
  intros (-> & ?)%make_valid. done.
Qed.

Lemma digit_char_is_digit n : Py.is_digit (Date.digit_char n) = true.
Proof.
  unfold Date.digit_char. pose proof (Z.mod_pos_bound n 10 eq_refl) as Hb.
  assert (n mod 10 = 0 ∨ n mod 10 = 1 ∨ n mod 10 = 2 ∨ n mod 10 = 3
          ∨ n mod 10 = 4 ∨ n mod 10 = 5 ∨ n mod 10 = 6 ∨ n mod 10 = 7
          ∨ n mod 10 = 8 ∨ n mod 10 = 9)%Z as H by lia.
  destruct H as [-> | [-> | [-> | [-> | [-> | [-> | [-> | [-> | [-> | ->]]]]]]]]];
    reflexivity.
Qed.

Lemma digit_not_space c : Py.is_digit c = true → Py.is_space c = false.
Proof. destruct c as [[] [] [] [] [] [] [] []]; vm_compute; congruence. Qed.

Lemma alpha_not_space c : Py.is_alpha c = true → Py.is_space c = false.
Proof. destruct c as [[] [] [] [] [] [] [] []]; vm_compute; congruence. Qed.

Lemma match_dob_shape_intro a b m1 m2 m3 y1 y2 y3 y4 :
  Py.is_digit a = true → Py.is_digit b = true →
  Py.is_alpha m1 = true → Py.is_alpha m2 = true → Py.is_alpha m3 = true →
  Py.is_digit y1 = true → Py.is_digit y2 = true →
  Py.is_digit y3 = true → Py.is_digit y4 = true →
  Dob.match_dob_shape
    (String a (String b (String " " (String m1 (String m2 (String m3
       (String " " (String y1 (String y2 (String y3 (String y4 "")))))))))))
  = true.
Proof.
  intros Ha Hb H1 H2 H3 Hy1 Hy2 Hy3 Hy4.
  unfold Dob.match_dob_shape. rewrite Ha, Hb. cbn [andb].
  apply orb_true_iff; left.
  unfold Dob.match_shape_tail, Dob.skip_spaces1.
  change (Py.is_space " ") with true. cbn [Py.lstrip].
  change (Py.is_space " ") with true. cbn [Py.lstrip].
  rewrite (alpha_not_space m1 H1), H1, H2, H3. cbn [andb].
  change (Py.is_space " ") with true. cbn [Py.lstrip].
  rewrite (digit_not_space y1 Hy1).
  cbn -[Py.is_digit Py.is_space]. change (Py.is_space " ") with true.
  cbn -[Py.is_digit Py.is_space]. rewrite ?(digit_not_space y1 Hy1).
  cbn -[Py.is_digit Py.is_space]. rewrite Hy1, Hy2, Hy3, Hy4.
  reflexivity.
Qed.

Lemma month_abbr_alpha m :
  (1 ≤ m ≤ 12)%Z →
  ∃ a b c, Date.month_abbr m = String a (String b (String c ""))
           ∧ Py.is_alpha a = true ∧ Py.is_alpha b = true
           ∧ Py.is_alpha c = true.
Proof.
  intros Hm.
  assert (m = 1 ∨ m = 2 ∨ m = 3 ∨ m = 4 ∨ m = 5 ∨ m = 6 ∨ m = 7 ∨ m = 8
          ∨ m = 9 ∨ m = 10 ∨ m = 11 ∨ m = 12)%Z as H by lia.
  destruct H as [-> | [-> | [-> | [-> | [-> | [-> | [-> | [-> | [-> | [-> | [-> | ->]]]]]]]]]]];
    (eexists _, _, _; split; [reflexivity|done]).
Qed.

Lemma strftime_shape dt :
  (1 ≤ Date.month dt ≤ 12)%Z →
  Dob.match_dob_shape (Date.strftime_d_b_Y dt) = true.
Proof.
  intros (a & b & c & Hm & Ha & Hb & Hc)%month_abbr_alpha.
  unfold Date.strftime_d_b_Y, Date.two_digits, Date.four_digits.
  rewrite Hm, !app_String, !app_Empty.
  apply match_dob_shape_intro; auto using digit_char_is_digit.
Qed.

Lemma convert_nonblank v :
  Py.strip v ≠ "" →
  Dob.convert_date_format (Some v)
  = if Dob.match_dob_shape (Py.strip v) then Py.strip v
    else Dob.try_formats Dob.date_formats (Py.strip v).
Proof.
  intros Hne. unfold Dob.convert_date_format.
  assert (Py.truthy v = true) as -> by (by destruct v).
  assert (String.eqb (Py.strip v) "" = false) as ->
    by (by apply String.eqb_neq).
  done.
Qed.

(** Claim C5 fails as stated: no pattern matches the value " circa 1958"
    (with or without its leading blank) and it is not in the target shape,
    yet it is not returned unchanged: the blank is stripped. *)
Lemma dob_unparsed_is_stripped :
  Forall (λ fmt, Date.strptime " circa 1958" fmt = None) Dob.date_formats
  ∧ Forall (λ fmt, Date.strptime (Py.strip " circa 1958") fmt = None)
      Dob.date_formats
  ∧ Dob.match_dob_shape " circa 1958" = false
  ∧ Dob.convert_date_format (Some " circa 1958") = "circa 1958"
  ∧ Dob.convert_date_format (Some " circa 1958") ≠ " circa 1958".
Proof.
  split; [repeat constructor|]. split; [repeat constructor|].
  split; [reflexivity|]. split; [reflexivity|]. vm_compute. discriminate.
Qed.

(** Claim C5 as amended.  The value is first stripped of surrounding
    whitespace; a missing or blank value gives the empty string.  A stripped
    value already in dd MMM yyyy shape is returned as it is.  Otherwise the
    patterns are tried in the order %d/%m/%Y, %d-%m-%Y, %d.%m.%Y, %Y-%m-%d,
    %Y/%m/%d, %m/%d/%Y, %d %m %Y, and the first that parses gives the date
    rewritten in dd MMM yyyy form, which from the year 1000 on has the target
    shape (12/10/1958 and 1958-10-12 both become
    12 Oct 1958; 01/02/2000 is read day first, 10/13/1958 month first).  When
    none parses the stripped value is returned and nothing is raised (circa
    1958 stays circa 1958), while the OFAC extractor, at extraction time,
    gives DOB_YEAR the four-digit year 1958 found in that text. *)
Theorem dob_normalization :
  Dob.date_formats
  = [ "%d/%m/%Y"; "%d-%m-%Y"; "%d.%m.%Y"; "%Y-%m-%d"; "%Y/%m/%d";
      "%m/%d/%Y"; "%d %m %Y" ]
  ∧ Dob.convert_date_format None = ""
  ∧ (∀ v, Py.strip v = "" → Dob.convert_date_format (Some v) = "")
  ∧ (∀ v, Py.strip v ≠ "" → Dob.match_dob_shape (Py.strip v) = true →
       Dob.convert_date_format (Some v) = Py.strip v)
  ∧ (∀ v i fmt d,
       Py.strip v ≠ "" → Dob.match_dob_shape (Py.strip v) = false →
       Dob.date_formats !! i = Some fmt →
       Date.strptime (Py.strip v) fmt = Some d →
       (∀ j fmt', j < i → Dob.date_formats !! j = Some fmt' →
                  Date.strptime (Py.strip v) fmt' = None) →
       Dob.convert_date_format (Some v) = Date.strftime_d_b_Y d
       ∧ ((1000 ≤ Date.year d)%Z →
          Dob.match_dob_shape (Date.strftime_d_b_Y d) = true))
  ∧ (∀ v, Py.strip v ≠ "" → Dob.match_dob_shape (Py.strip v) = false →
       (∀ fmt, fmt ∈ Dob.date_formats →
               Date.strptime (Py.strip v) fmt = None) →
       Dob.convert_date_format (Some v) = Py.strip v)
  ∧ Dob.convert_date_format (Some "12/10/1958") = "12 Oct 1958"
  ∧ Dob.convert_date_format (Some "1958-10-12") = "12 Oct 1958"
  ∧ Dob.convert_date_format (Some "12 Oct 1958") = "12 Oct 1958"
  ∧ Dob.convert_date_format (Some "circa 1958") = "circa 1958"
  ∧ Dob.convert_date_format (Some "01/02/2000") = "01 Feb 2000"
  ∧ Dob.convert_date_format (Some "10/13/1958") = "13 Oct 1958"
  ∧ Ofac.field (Ofac.set_birthdate "circa 1958" Ofac.blank_data) "DOB_YEAR"
    = "1958"
  ∧ Ofac.field (Ofac.set_birthdate "circa 1958" Ofac.blank_data) "DOB_DJ"
    = "".
Proof.
  split; [reflexivity|]. split; [reflexivity|].
  split.
  { intros v Hv. unfold Dob.convert_date_format. rewrite Hv.
    by rewrite orb_true_r. }
  split.
  { intros v Hne Hs. by rewrite convert_nonblank, Hs. }
  split.
  { intros v i fmt d Hne Hs Hi Hd Hbefore. rewrite convert_nonblank, Hs by done.
    split; [by eapply try_formats_first|]. intros _.
    apply strftime_shape. by apply strptime_valid in Hd as (_ & ? & _). }
  split.
  { intros v Hne Hs Hnone. rewrite convert_nonblank, Hs by done.
    by apply try_formats_none. }
  repeat split; reflexivity.
Qed.

Lemma dob_normalization_witness :
  Py.strip " 12/10/1958 " = "12/10/1958"
  ∧ Date.strptime "12/10/1958" "%d/%m/%Y" = Some (Date.mkDate 1958 10 12)
  ∧ Dob.convert_date_format (Some " 12/10/1958 ") = "12 Oct 1958"
  ∧ Dob.convert_date_format (Some " circa 1958") = Py.strip " circa 1958".
Proof.
  destruct dob_normalization as (_ & _ & _ & _ & Hfirst & Hnone & _).
  split; [reflexivity|]. split; [reflexivity|]. split.
  - apply (Hfirst " 12/10/1958 " 0 "%d/%m/%Y" (Date.mkDate 1958 10 12));
      [vm_compute; discriminate | reflexivity | reflexivity | reflexivity
      | intros j fmt' Hj; lia].
  - apply Hnone; [vm_compute; discriminate | reflexivity |].
    intros fmt Hf. repeat (apply elem_of_cons in Hf as [-> | Hf]; [reflexivity|]).
    by apply elem_of_nil in Hf.
Defined.

Lemma extraction_loop_filter entities :
  Ofac.extraction_loop entities
  = filter (λ d, Py.truthy (Ofac.field d "Name") = true)
      (Ofac.extract_entity_data <$> entities).
Proof.
  unfold Ofac.extraction_loop.
  enough (∀ acc,
    foldl (λ extracted_data entity,
             if Py.truthy (Ofac.field (Ofac.extract_entity_data entity) "Name")
             then extracted_data ++ [Ofac.extract_entity_data entity]
             else extracted_data) acc entities
    = acc ++ filter (λ d, Py.truthy (Ofac.field d "Name") = true)
               (Ofac.extract_entity_data <$> entities)) as H by apply H.
  induction entities as [|e es IH]; intros acc; simpl.
  - by rewrite app_nil_r.
  - rewrite IH, filter_cons.
    destruct (Py.truthy (Ofac.field (Ofac.extract_entity_data e) "Name")) eqn:E.
    + rewrite decide_True by done. by rewrite <- app_assoc.
    + by rewrite decide_False by done.
Qed.

Lemma extract_not_add e :
  default "" (Xml.get e "action") ≠ "add" →
  Ofac.extract_entity_data e = Ofac.blank_data.
Proof.
  intros H. unfold Ofac.extract_entity_data.
  apply String.eqb_neq in H. by rewrite H.
Qed.

Lemma extract_named_is_add e :
  Py.truthy (Ofac.field (Ofac.extract_entity_data e) "Name") = true →
  Xml.get e "action" = Some "add".
Proof.
  intros H. destruct (decide (default "" (Xml.get e "action") = "add")) as [Heq|Hne].
  - destruct (Xml.get e "action"); simpl in Heq; [by subst|discriminate].
  - rewrite (extract_not_add e Hne) in H. discriminate.
Qed.

(** Claim C6.  An entity whose action attribute is not [add] (modify,
    delete, or none) yields the blank dictionary, whatever it contains, and
    contributes no row: the extraction loop gives the same rows with or
    without it.  Every row of the table the extractor returns comes from an
    entity with action [add]. *)
Theorem ofac_action_filter :
  (∀ entity, default "" (Xml.get entity "action") ≠ "add" →
     Ofac.extract_entity_data entity = Ofac.blank_data
     ∧ ∀ before after,
         Ofac.extraction_loop (before ++ entity :: after)
         = Ofac.extraction_loop (before ++ after))
  ∧ (∀ root (row : gmap string string),
       row ∈ rows (Ofac.process_sanctions_data root) →
       ∃ entity, entity ∈ Ofac.find_entities root
                 ∧ Xml.get entity "action" = Some "add"
                 ∧ row = Ofac.extract_entity_data entity).
Proof.
  split.
  - intros entity Hne. split; [by apply extract_not_add|].
    intros before after. rewrite !extraction_loop_filter, !fmap_app, fmap_cons.
    rewrite !filter_app, filter_cons, (extract_not_add entity Hne).
    by rewrite decide_False by (by vm_compute).
  - intros root row. unfold Ofac.process_sanctions_data.
    destruct (length (Ofac.find_entities root) =? 0); cbn [rows].
    + by intros ?%elem_of_nil.
    + rewrite extraction_loop_filter.
      intros [Hname (entity & -> & He)%list_elem_of_fmap]%list_elem_of_filter.
      exists entity. split; [done|]. split; [|done].
      by apply extract_named_is_add.
Qed.

Lemma ofac_action_filter_witness :
  default "" (Xml.get (sample_entity "modify" five_docs) "action") ≠ "add"
  ∧ Ofac.extract_entity_data (sample_entity "modify" five_docs)
    = Ofac.blank_data
  ∧ name_of
    <$> rows (Ofac.process_sanctions_data
                (sample_root [ sample_entity "modify" five_docs;
                               sample_entity "add" five_docs;
                               sample_entity "delete" five_docs ]))
    = [Some "DOE, John"].
Proof.
  destruct ofac_action_filter as [Hskip _].
  assert (default "" (Xml.get (sample_entity "modify" five_docs) "action")
          ≠ "add") as Hne by (vm_compute; discriminate).
  split; [exact Hne|]. split; [apply (Hskip _ Hne)|]. reflexivity.
Defined.

Lemma id_docs_loop_done docs n data :
  2 ≤ n → Ofac.id_docs_loop docs n data = data.
Proof.
  intros Hn. destruct docs; [done|]. cbn [Ofac.id_docs_loop].
  by assert ((2 <=? n) = true) as -> by (by apply Nat.leb_le).
Qed.

Lemma id_docs_loop_second docs data :
  Ofac.id_docs_loop docs 1 data
  = match omap usable_doc docs with
    | [] => data
    | (number, label) :: _ => <["ID_Type2" := label]> (<["ID_2" := number]> data)
    end.
Proof.
  induction docs as [|doc docs IH]; [done|].
  cbn [Ofac.id_docs_loop omap list_omap]. unfold usable_doc at 1.
  change (2 <=? 1) with false. cbn iota.
  destruct (Xml.find_child (Ofac.ns "type") doc) as [ty|]; [|apply IH].
  destruct (Xml.text_of (Xml.find_child (Ofac.ns "documentNumber") doc))
    as [number|]; [|apply IH].
  cbn. by rewrite id_docs_loop_done.
Qed.

Lemma id_docs_loop_first docs data :
  Ofac.id_docs_loop docs 0 data
  = match omap usable_doc docs with
    | [] => data
    | (number1, label1) :: kept =>
        let data := <["ID_Type1" := label1]> (<["ID_1" := number1]> data) in
        match kept with
        | [] => data
        | (number2, label2) :: _ =>
            <["ID_Type2" := label2]> (<["ID_2" := number2]> data)
        end
    end.
Proof.
  induction docs as [|doc docs IH]; [done|].
  cbn [Ofac.id_docs_loop omap list_omap]. unfold usable_doc at 1.
  change (2 <=? 0) with false. cbn iota.
  destruct (Xml.find_child (Ofac.ns "type") doc) as [ty|]; [|apply IH].
  destruct (Xml.text_of (Xml.find_child (Ofac.ns "documentNumber") doc))
    as [number|]; [|apply IH].
  cbn. by rewrite id_docs_loop_second.
Qed.

Lemma id_cells_insert k v data :
  is_id_key k = false → id_cells (<[k := v]> data) = id_cells data.
Proof.
  intros Hk. unfold id_cells.
  assert (k ≠ "ID_1" ∧ k ≠ "ID_Type1" ∧ k ≠ "ID_2" ∧ k ≠ "ID_Type2")
    as (? & ? & ? & ?) by (repeat split; intros ->; by vm_compute in Hk).
  by rewrite !lookup_insert_ne.
Qed.

Lemma id_cells_set_birthdate value data :
  id_cells (Ofac.set_birthdate value data) = id_cells data.
Proof.
  unfold Ofac.set_birthdate. repeat case_match; by rewrite !id_cells_insert.
Qed.

Lemma id_cells_feature_step st feature :
  id_cells (Ofac.feature_step st feature).1.1 = id_cells st.1.1.
Proof.
  destruct st as [[data nats] vf]. unfold Ofac.feature_step.
  repeat case_match; cbn [fst];
    rewrite ?id_cells_insert, ?id_cells_set_birthdate; done.
Qed.

Lemma id_cells_features st features :
  id_cells (foldl Ofac.feature_step st features).1.1 = id_cells st.1.1.
Proof.
  revert st. induction features as [|f fs IH]; intros st; [done|].
  simpl. by rewrite IH, id_cells_feature_step.
Qed.

Lemma id_cells_of_loop docs data :
  id_cells data = (Some "", Some "", Some "", Some "") →
  id_cells (Ofac.id_docs_loop docs 0 data)
  = match omap usable_doc docs with
    | [] => (Some "", Some "", Some "", Some "")
    | [(n1, t1)] => (Some n1, Some t1, Some "", Some "")
    | (n1, t1) :: (n2, t2) :: _ => (Some n1, Some t1, Some n2, Some t2)
    end.
Proof.
  intros Hb. rewrite id_docs_loop_first.
  destruct (omap usable_doc docs) as [|[n1 t1] [|[n2 t2] kept]]; [done|..];
    cbn zeta; unfold id_cells in *; injection Hb as H1 H2 H3 H4;
    rewrite ?lookup_insert_eq;
    repeat (rewrite lookup_insert_ne by done; rewrite ?lookup_insert_eq);
    by rewrite ?H1, ?H2, ?H3, ?H4.
Qed.

Lemma extract_id_cells entity :
  Xml.get entity "action" = Some "add" →
  id_cells (Ofac.extract_entity_data entity)
  = match omap usable_doc (id_docs_of entity) with
    | [] => (Some "", Some "", Some "", Some "")
    | [(n1, t1)] => (Some n1, Some t1, Some "", Some "")
    | (n1, t1) :: (n2, t2) :: _ => (Some n1, Some t1, Some n2, Some t2)
    end.
Proof.
  intros Hadd. unfold Ofac.extract_entity_data, id_docs_of. rewrite Hadd.
  change (negb (String.eqb (default "" (Some "add")) "add")) with false.
  cbn iota.
  destruct (foldl Ofac.name_step _ _) as [primary aliases_list].
  destruct (foldl Ofac.feature_step _ _) as [[data nationalities] vessel_flag]
    eqn:Ef.
  assert (id_cells data = (Some "", Some "", Some "", Some "")) as Hd.
  { change data with (data, nationalities, vessel_flag).1.1.
    rewrite <- Ef, id_cells_features. cbn [fst].
    rewrite !id_cells_insert by done. by repeat case_match. }
  clear Ef.
  match goal with
  | |- context [Ofac.id_docs_loop ?docs 0 ?pre] =>
      assert (id_cells pre = (Some "", Some "", Some "", Some "")) as Hpre;
      [ repeat case_match; by rewrite ?id_cells_insert
      | rewrite <- (id_cells_of_loop docs pre Hpre);
        generalize (Ofac.id_docs_loop docs 0 pre) ]
  end.
  intros kept. rewrite id_cells_insert by done.
  repeat case_match; by rewrite ?id_cells_insert.
Qed.

Lemma field_of_cell (data : gmap string string) k v :
  data !! k = Some v → Ofac.field data k = v.
Proof. unfold Ofac.field. by intros ->. Qed.

(** Claim C8 fails as stated: of three identity-document sub-elements whose
    first has no document number, ID_1 and ID_2 are taken from the second and
    the third, so ID_2 does not come from one of the first two
    sub-elements. *)
Lemma ofac_ids_skip_incomplete_documents :
  id_docs_of (sample_entity "add" docs_first_incomplete)
  = docs_first_incomplete
  ∧ doc_number_of <$> docs_first_incomplete = [None; Some "A"; Some "B"]
  ∧ Ofac.field (Ofac.extract_entity_data
                  (sample_entity "add" docs_first_incomplete)) "ID_1" = "A"
  ∧ Ofac.field (Ofac.extract_entity_data
                  (sample_entity "add" docs_first_incomplete)) "ID_2" = "B"
  ∧ Some (Ofac.field (Ofac.extract_entity_data
                        (sample_entity "add" docs_first_incomplete)) "ID_2")
    ∉ doc_number_of <$> take 2 docs_first_incomplete.
Proof.
  split; [reflexivity|]. split; [reflexivity|]. split; [reflexivity|].
  split; [reflexivity|]. vm_compute.
  intros H. repeat (apply elem_of_cons in H as [H|H]; [discriminate|]).
  by apply elem_of_nil in H.
Qed.

(** Claim C8 as amended.  For every OFAC entity with action [add], ID_1 and
    ID_Type1 come from the first identity-document sub-element that has a
    type element and a non-empty document number, ID_2 and ID_Type2 from the
    second such sub-element, and they are empty when there is none; further
    sub-elements are dropped (of 5 complete ones, the last three).  The type
    reference is mapped through the fixed table, an unmapped reference [id]
    being rendered as [Doc Type id]. *)
Theorem ofac_identity_documents_cap :
  (∀ entity, Xml.get entity "action" = Some "add" →
     let data := Ofac.extract_entity_data entity in
     let kept := omap usable_doc (id_docs_of entity) in
     (Ofac.field data "ID_1", Ofac.field data "ID_Type1")
     = default ("", "") (kept !! 0)
     ∧ (Ofac.field data "ID_2", Ofac.field data "ID_Type2")
       = default ("", "") (kept !! 1))
  ∧ (∀ k v, (k, v) ∈ Ofac.doc_type_map →
            Ofac.get_document_type_name (Some k) = v)
  ∧ (∀ k, k ∉ Ofac.doc_type_map.*1 →
          Ofac.get_document_type_name (Some k) = "Doc Type " +:+ k)
  ∧ Ofac.get_document_type_name None = "Doc Type None"
  ∧ length (id_docs_of (sample_entity "add" five_docs)) = 5
  ∧ id_cells (Ofac.extract_entity_data (sample_entity "add" five_docs))
    = (Some "P1", Some "Passport", Some "N2", Some "National ID").
Proof.
  split; [|split; [|split; [|by vm_compute]]].
  - intros entity Hadd data kept. subst data kept.
    pose proof (extract_id_cells entity Hadd) as H. unfold id_cells in H.
    destruct (omap usable_doc (id_docs_of entity)) as [|[n1 t1] [|[n2 t2] kept]];
      injection H as H1 H2 H3 H4;
      by rewrite (field_of_cell _ _ _ H1), (field_of_cell _ _ _ H2),
           (field_of_cell _ _ _ H3), (field_of_cell _ _ _ H4).
  - intros k v H. unfold Ofac.doc_type_map in H.
    repeat (apply elem_of_cons in H as [[= -> ->]|H]; [reflexivity|]).
    by apply elem_of_nil in H.
  - intros k Hk. unfold Ofac.get_document_type_name, Ofac.table_get.
    destruct (list_find _ _) as [[i [k' v]]|] eqn:E; [|done].
    apply list_find_Some in E as (Hi & Hkv & _). cbn in Hkv. subst k'.
    exfalso. apply Hk. apply list_elem_of_fmap. exists (k, v).
    split; [done|]. by eapply list_elem_of_lookup_2.
Qed.

Lemma ofac_identity_documents_cap_witness :
  Xml.get (sample_entity "add" five_docs) "action" = Some "add"
  ∧ (Ofac.field (Ofac.extract_entity_data (sample_entity "add" five_docs))
       "ID_1",
     Ofac.field (Ofac.extract_entity_data (sample_entity "add" five_docs))
       "ID_Type1") = ("P1", "Passport")
  ∧ (Ofac.field (Ofac.extract_entity_data (sample_entity "add" five_docs))
       "ID_2",
     Ofac.field (Ofac.extract_entity_data (sample_entity "add" five_docs))
       "ID_Type2") = ("N2", "National ID")
  ∧ Ofac.get_document_type_name (Some "4242") = "Doc Type 4242".
Proof.
  destruct ofac_identity_documents_cap as (Hcap & _ & Hunmapped & _).
  destruct (Hcap (sample_entity "add" five_docs) eq_refl) as [H1 H2].
  split; [reflexivity|]. split; [exact H1|]. split; [exact H2|].
  apply Hunmapped. vm_compute.
  intros H. repeat (apply elem_of_cons in H as [H|H]; [discriminate|]).
  by apply elem_of_nil in H.
Defined.

Lemma listing_loop_filter targets extract records :
  Un.listing_loop targets extract records
  = extract <$> filter (listed_in targets) records.
Proof.
  unfold Un.listing_loop.
  enough (∀ acc,
    foldl (λ data record,
             match Xml.text_of (Xml.find_child "LISTED_ON" record) with
             | Some listed_on =>
                 match Date.strptime listed_on "%Y-%m-%d" with
                 | Some listed_date =>
                     if bool_decide (listed_date ∈ targets)
                     then data ++ [extract record] else data
                 | None => data
                 end
             | None => data
             end) acc records
    = acc ++ (extract <$> filter (listed_in targets) records)) as H by apply H.
  induction records as [|r rs IH]; intros acc; simpl.
  - by rewrite app_nil_r.
  - rewrite IH, filter_cons.
    destruct (decide (listed_in targets r)) as [Hin|Hout];
      unfold listed_in, listed_date in *;
      destruct (Xml.text_of (Xml.find_child "LISTED_ON" r)) as [t|];
      simpl in *; try done;
      destruct (Date.strptime t "%Y-%m-%d") as [d|]; try done.
    + rewrite bool_decide_eq_true_2 by done. by rewrite <- app_assoc.
    + by rewrite bool_decide_eq_false_2 by done.
Qed.

Local Open Scope Z_scope.

Lemma days_before_month_step y m :
  2 ≤ m ≤ 12 →
  Date.days_before_month y m
  = Date.days_before_month y (m - 1) + Date.days_in_month y (m - 1).
Proof.
  intros Hm.
  assert (m = 2 ∨ m = 3 ∨ m = 4 ∨ m = 5 ∨ m = 6 ∨ m = 7 ∨ m = 8 ∨ m = 9
          ∨ m = 10 ∨ m = 11 ∨ m = 12) as H by lia.
  destruct H as [-> | [-> | [-> | [-> | [-> | [-> | [-> | [-> | [-> | [-> | ->]]]]]]]]]];
    match goal with
    | |- context [?a - 1] =>
        let v := eval vm_compute in (a - 1) in change (a - 1) with v
    end;
    unfold Date.days_before_month, Date.days_in_month; cbn -[Date.is_leap];
    destruct (Date.is_leap y); lia.
Qed.

Lemma days_before_year_step y :
  2 ≤ y →
  Date.days_before_year y
  = Date.days_before_year (y - 1) + 365
    + (if Date.is_leap (y - 1) then 1 else 0).
Proof.
  intros Hy. unfold Date.days_before_year, Date.is_leap. cbv zeta.
  replace (y - 1 - 1) with (y - 2) by lia.
  destruct (Z.eqb_spec ((y - 1) mod 4) 0), (Z.eqb_spec ((y - 1) mod 100) 0),
    (Z.eqb_spec ((y - 1) mod 400) 0); cbn [negb andb orb];
    Z.div_mod_to_equations; lia.
Qed.

Lemma minus_one_day_ordinal g p :
  1 ≤ Date.month g ≤ 12 →
  1 ≤ Date.day g →
  Date.minus_one_day g = Some p →
  Date.toordinal p = Date.toordinal g - 1.
Proof.
  destruct g as [y m d]. unfold Date.minus_one_day, Date.toordinal.
  cbn [Date.year Date.month Date.day]. intros Hm Hd.
  destruct (Z.ltb_spec 1 d); [intros [= <-]; cbn; lia|].
  destruct (Z.ltb_spec 1 m).
  { intros [= <-]. cbn [Date.year Date.month Date.day].
    rewrite (days_before_month_step y m) by lia. lia. }
  destruct (Z.ltb_spec 1 y); [|done].
  intros [= <-]. cbn [Date.year Date.month Date.day].
  assert (m = 1) as -> by lia. rewrite (days_before_year_step y) by lia.
  unfold Date.days_before_month. cbn -[Date.is_leap Date.days_before_year].
  destruct (Date.is_leap (y - 1)); lia.
Qed.

Lemma fromisoformat_date_valid s g :
  Un.fromisoformat_date s = Some g →
  1 ≤ Date.year g ≤ 9999 ∧ 1 ≤ Date.month g ≤ 12
  ∧ 1 ≤ Date.day g ≤ Date.days_in_month (Date.year g) (Date.month g).
Proof.
  unfold Un.fromisoformat_date, Un.parse_isoformat_date.
  intros H. apply bind_Some in H as (d & Hd & H).
  assert (g = d) as ->.
  { destruct (Py.drop 11 s); [by injection H|].
    apply bind_Some in H as (? & _ & H). by injection H. }
  apply bind_Some in Hd as (y & _ & Hd).
  destruct (negb _); [done|].
  apply bind_Some in Hd as (m & _ & Hd).
  destruct (negb _); [done|].
  apply bind_Some in Hd as (dd & _ & Hd).
  by apply make_valid in Hd as (-> & ? & ? & ?).
Qed.

Lemma minus_one_day_exists g :
  1 ≤ Date.year g → 1 ≤ Date.month g → 1 ≤ Date.day g →
  g ≠ Date.mkDate 1 1 1 →
  ∃ p, Date.minus_one_day g = Some p.
Proof.
  destruct g as [y m d]. cbn [Date.year Date.month Date.day].
  intros Hy Hm Hd Hne. unfold Date.minus_one_day.
  cbn [Date.year Date.month Date.day].
  destruct (Z.ltb_spec 1 d); [eauto|].
  destruct (Z.ltb_spec 1 m); [eauto|].
  destruct (Z.ltb_spec 1 y); [eauto|].
  exfalso. apply Hne. f_equal; lia.
Qed.

Local Close Scope Z_scope.

Lemma listed_in_window g p record :
  listed_in [g; p] record
  ↔ ∃ d, listed_date record = Some d ∧ (d = g ∨ d = p).
Proof.
  unfold listed_in. destruct (listed_date record) as [d|].
  - rewrite !elem_of_cons, elem_of_nil. split.
    + intros [?|[?|[]]]; eauto.
    + intros (? & [= <-] & [?|?]); auto.
  - split; [done|]. by intros (? & ? & _).
Qed.

(** Claim C7.  Let the document's dateGenerated attribute parse to the
    calendar date [g], other than the first day of the calendar.  Then the
    extractor runs to the end, and the individuals (entities) it exports are
    exactly, in document order, the INDIVIDUAL (ENTITY) records of the
    INDIVIDUALS (ENTITIES) section whose LISTED_ON text parses to [g] or to
    the day before [g]; a record whose LISTED_ON is absent or does not parse
    is passed over, and a missing section gives no record of its
    category. *)
Theorem un_listing_window today root date_generated_str g :
  Xml.get root "dateGenerated" = Some date_generated_str →
  Py.truthy date_generated_str = true →
  Un.fromisoformat_date (Un.replace_Z date_generated_str) = Some g →
  g ≠ Date.mkDate 1 1 1 →
  ∃ p individuals entities,
    Date.minus_one_day g = Some p
    ∧ Date.toordinal p = (Date.toordinal g - 1)%Z
    ∧ Un.parse_un_sanctions_xml today root = Some (individuals, entities)
    ∧ individuals
      = Un.extract_individual_data
        <$> filter (listed_in [g; p])
              (section_records "INDIVIDUALS" "INDIVIDUAL" root)
    ∧ entities
      = Un.extract_entity_data
        <$> filter (listed_in [g; p])
              (section_records "ENTITIES" "ENTITY" root)
    ∧ (∀ record,
         listed_in [g; p] record
         ↔ ∃ d, listed_date record = Some d ∧ (d = g ∨ d = p))
    ∧ (Xml.find_child "INDIVIDUALS" root = None → individuals = [])
    ∧ (Xml.find_child "ENTITIES" root = None → entities = []).
Proof.
  intros Hattr Ht Hg Hmin.
  pose proof (fromisoformat_date_valid _ _ Hg) as (Hy & Hm & Hd).
  destruct (minus_one_day_exists g) as [p Hp]; [lia..|done|].
  exists p. eexists _, _. split; [done|].
  split; [apply minus_one_day_ordinal; [done|lia|done]|].
  split.
  { unfold Un.parse_un_sanctions_xml. rewrite Hattr, Ht, Hg. cbn [mbind option_bind].
    rewrite Hp. cbn [mbind option_bind]. reflexivity. }
  unfold section_records.
  split; [destruct (Xml.find_child "INDIVIDUALS" root);
          [apply listing_loop_filter|done]|].
  split; [destruct (Xml.find_child "ENTITIES" root);
          [apply listing_loop_filter|done]|].
  split; [apply listed_in_window|].
  split; by intros ->.
Qed.

Lemma un_listing_window_witness :
  Xml.get un_sample "dateGenerated" = Some "2025-07-30T23:00:05.333Z"
  ∧ Un.fromisoformat_date (Un.replace_Z "2025-07-30T23:00:05.333Z")
    = Some (Date.mkDate 2025 7 30)
  ∧ ∃ individuals entities,
      Un.parse_un_sanctions_xml (Date.mkDate 2026 1 1) un_sample
      = Some (individuals, entities)
      ∧ names_of individuals = [Some "B TEST"; Some "C TEST"]
      ∧ names_of entities = [Some "G"].
Proof.
  split; [reflexivity|]. split; [reflexivity|].
  destruct (un_listing_window (Date.mkDate 2026 1 1) un_sample
              "2025-07-30T23:00:05.333Z" (Date.mkDate 2025 7 30)
              eq_refl eq_refl eq_refl)
    as (p & individuals & entities & Hp & _ & Hrun & Hi & He & _);
    [discriminate|].
  exists individuals, entities. split; [exact Hrun|].
  injection Hp as <-. subst individuals entities. split; reflexivity.
Defined.

Lemma feed_line_chars p s :
  Csv.feed_line p s = feed_chars p s ≫= λ p', Csv.parse_process_char p' None.
Proof.
  revert p. induction s as [|c s IH]; intros p; simpl.
  - by destruct (Csv.parse_process_char p None).
  - destruct (Csv.parse_process_char p (Some c)); simpl; [apply IH|done].
Qed.

Lemma feed_chars_app p a b :
  feed_chars p (a +:+ b) = feed_chars p a ≫= λ p', feed_chars p' b.
Proof.
  revert p. induction a as [|c a IH]; intros p.
  - rewrite app_Empty. done.
  - rewrite app_String. simpl.
    destruct (Csv.parse_process_char p (Some c)); simpl; [apply IH|done].
Qed.

Lemma plain_char_cases c :
  plain_char c = true →
  Csv.is_nl c = false ∧ Ascii.eqb c Csv.quotechar = false
  ∧ Ascii.eqb c "," = false.
Proof.
  unfold plain_char. rewrite negb_true_iff, !orb_false_iff. tauto.
Qed.

(** Inside an unquoted field, plain characters pile up. *)
Lemma feed_chars_in_field cur fields f :
  Py.all_chars plain_char f = true →
  (N.of_nat (String.length (cur +:+ f)) ≤ 131072)%N →
  feed_chars (Csv.mkReader Csv.IN_FIELD cur fields) f
  = Some (Csv.mkReader Csv.IN_FIELD (cur +:+ f) fields).
Proof.
  revert cur. induction f as [|c f IH]; intros cur Hp Hlen.
  - by rewrite string_app_nil_r.
  - cbn [Py.all_chars] in Hp. apply andb_true_iff in Hp as [Hc Hp].
    apply plain_char_cases in Hc as (Hnl & Hq & Hd).
    cbn [feed_chars]. unfold Csv.parse_process_char. cbn [Csv.st].
    rewrite Hnl, Hd. unfold Csv.parse_add_char. cbn [Csv.cur Csv.st Csv.fields].
    rewrite string_length_app in Hlen. cbn [String.length] in Hlen.
    assert ((131072 <=? N.of_nat (String.length cur))%N = false) as ->
      by (apply N.leb_gt; lia).
    cbn [mbind option_bind]. rewrite IH; [|done|].
    + replace ((cur +:+ String c "") +:+ f) with (cur +:+ String c f); [done|].
      by rewrite string_app_assoc.
    + rewrite !string_length_app. cbn [String.length]. lia.
Qed.

(** A plain field read from where a field starts. *)
Lemma feed_chars_field s fields f :
  s = Csv.START_RECORD ∨ s = Csv.START_FIELD →
  plain_field f → f ≠ "" →
  feed_chars (Csv.mkReader s "" fields) f
  = Some (Csv.mkReader Csv.IN_FIELD f fields).
Proof.
  intros Hs [Hp Hlen] Hne. destruct f as [|c f]; [done|].
  cbn [Py.all_chars] in Hp. apply andb_true_iff in Hp as [Hc Hp].
  apply plain_char_cases in Hc as (Hnl & Hq & Hd).
  cbn [feed_chars].
  assert (Csv.parse_process_char (Csv.mkReader s "" fields) (Some c)
          = Some (Csv.mkReader Csv.IN_FIELD (String c "") fields)) as ->.
  { unfold Csv.parse_process_char.
    destruct Hs as [-> | ->]; cbn [Csv.st Csv.set_state Csv.cur Csv.fields];
      rewrite Hnl, Hq, Hd; reflexivity. }
  cbn [mbind option_bind]. rewrite feed_chars_in_field; [done..|].
  rewrite app_String, app_Empty. done.
Qed.

Lemma join_cons2 sep f g fs :
  Py.join sep (f :: g :: fs) = f +:+ sep +:+ Py.join sep (g :: fs).
Proof. done. Qed.

(** A record of plain fields followed by a line feed, read from where a
    field starts: every field is saved and the reader waits for the end of
    the line. *)
Lemma feed_chars_record s acc fields :
  s = Csv.START_RECORD ∨ s = Csv.START_FIELD →
  fields ≠ [] →
  ¬ (s = Csv.START_RECORD ∧ fields = [""]) →
  Forall plain_field fields →
  feed_chars (Csv.mkReader s "" acc) (Py.join "," fields +:+ line_feed)
  = Some (Csv.mkReader Csv.EAT_CRNL "" (acc ++ fields)).
Proof.
  intros Hs Hne Hnot Hplain. revert s acc Hs Hnot.
  induction Hplain as [|f fs Hf Hfs IH]; intros s acc Hs Hnot; [done|].
  destruct fs as [|g fs].
  - change (Py.join "," [f]) with f. clear IH.
    destruct (decide (f = "")) as [->|Hfne].
    + destruct Hs as [->| ->]; [by destruct Hnot|]. reflexivity.
    + rewrite feed_chars_app, feed_chars_field by done. reflexivity.
  - rewrite join_cons2.
    replace ((f +:+ "," +:+ Py.join "," (g :: fs)) +:+ line_feed)
      with ((f +:+ ",") +:+ Py.join "," (g :: fs) +:+ line_feed)
      by (by rewrite !string_app_assoc).
    assert (feed_chars (Csv.mkReader s "" acc) (f +:+ ",")
            = Some (Csv.mkReader Csv.START_FIELD "" (acc ++ [f]))) as Hhead.
    { destruct (decide (f = "")) as [->|Hfne].
      - by destruct Hs as [->| ->].
      - rewrite feed_chars_app, feed_chars_field by done. reflexivity. }
    rewrite feed_chars_app, Hhead. cbn [mbind option_bind].
    rewrite IH; [|done|by right|by intros [? _]].
    by rewrite <- app_assoc.
Qed.

Lemma lines_go_first acc s rest :
  Py.all_chars (λ c, negb (Ascii.eqb c "010")) s = true →
  Csv.lines_go acc (s +:+ line_feed +:+ rest)
  = (acc +:+ s +:+ line_feed) :: Csv.lines_go "" rest.
Proof.
  revert acc. induction s as [|c s IH]; intros acc Hs.
  - rewrite !app_Empty. reflexivity.
  - cbn [Py.all_chars] in Hs. apply andb_true_iff in Hs as [Hc Hs].
    apply negb_true_iff in Hc. rewrite app_String.
    cbn [Csv.lines_go]. rewrite Hc, IH by done.
    by rewrite !string_app_assoc.
Qed.

Lemma join_no_line_feed fields :
  Forall plain_field fields →
  Py.all_chars (λ c, negb (Ascii.eqb c "010")) (Py.join "," fields) = true.
Proof.
  assert (∀ f, plain_field f →
               Py.all_chars (λ c, negb (Ascii.eqb c "010")) f = true) as Hf.
  { intros f [Hp _]. revert Hp. apply all_chars_impl. intros c.
    intros (Hnl & _ & _)%plain_char_cases. unfold Csv.is_nl in Hnl.
    apply orb_false_iff in Hnl as [-> _]. done. }
  induction 1 as [|f fs Hpf Hfs IH]; [done|].
  destruct fs as [|g fs]; [by apply Hf|].
  rewrite join_cons2, !all_chars_app, (Hf f Hpf), IH. done.
Qed.

(** The first record of a text that starts with a line of plain fields. *)
Lemma first_row_plain fields rest :
  fields ≠ [] → fields ≠ [""] → Forall plain_field fields →
  Csv.first_row (Py.join "," fields +:+ line_feed +:+ rest) = Some fields.
Proof.
  intros Hne Hne1 Hplain. unfold Csv.first_row, Csv.lines.
  rewrite lines_go_first by (by apply join_no_line_feed).
  rewrite app_Empty. cbn [Csv.read_record].
  rewrite feed_line_chars. unfold Csv.parse_reset.
  rewrite feed_chars_record; [done|by left|done|by intros [_ ?]|done].
Qed.

Lemma validate_iff csv_text :
  Gemini.validate_csv_structure csv_text = true
  ↔ ∃ headers, Csv.first_row csv_text = Some headers ∧ length headers = 17.
Proof.
  unfold Gemini.validate_csv_structure.
  destruct (Csv.first_row csv_text) as [headers|].
  - change (length Gemini.expected_headers) with 17. rewrite Nat.eqb_eq.
    split; [eauto|]. by intros (? & [= <-] & ?).
  - split; [done|]. by intros (? & ? & _).
Qed.

(** Claim C9.  The structural validation accepts a text exactly when its
    first CSV record can be read and has 17 fields, the number of canonical
    columns; for a text whose first line is made of plain comma-separated
    fields, exactly when these fields are 17.  Whenever the content is
    available and the collaborator answers, the conversion returns a success
    result holding the cleaned answer,
    whether or not the validation accepts it (a rejection only prints the
    warning), provided the output file, if one is asked for, can be written.
    An error result is returned only when no content was provided, the input
    file cannot be read, the collaborator raises, or the output file cannot
    be written. *)
Theorem csv_structure_validation :
  (∀ csv_text,
     Gemini.validate_csv_structure csv_text = true
     ↔ ∃ headers, Csv.first_row csv_text = Some headers
                  ∧ length headers = 17)
  ∧ length Gemini.expected_headers = 17
  ∧ (∀ fields rest,
       fields ≠ [] → fields ≠ [""] → Forall plain_field fields →
       Gemini.validate_csv_structure
         (Py.join "," fields +:+ line_feed +:+ rest) = true
       ↔ length fields = 17)
  ∧ Gemini.validate_csv_structure (Py.join "," Gemini.expected_headers) = true
  ∧ (∀ (read_file : string → string + string)
       (process_markdown_file : string → string → string + string)
       (save_csv_file : string → string → bool)
       markdown_file_path markdown_content output_path (is_base64 : bool)
       content csv_response,
       (match Gemini.given markdown_file_path with
        | Some path => read_file path = inl content
        | None => Gemini.given markdown_content = Some content
        end) →
       process_markdown_file content (if is_base64 then "base64" else "text")
       = inl csv_response →
       (match Gemini.given output_path with
        | Some path =>
            save_csv_file (Gemini.clean_csv_response csv_response) path = true
        | None => True
        end) →
       Gemini.convert_markdown_to_csv read_file process_markdown_file
         save_csv_file markdown_file_path markdown_content output_path
         is_base64
       = (Gemini.Success (Gemini.clean_csv_response csv_response) output_path,
          negb (Gemini.validate_csv_structure
                  (Gemini.clean_csv_response csv_response))))
  ∧ (∀ (read_file : string → string + string)
       (process_markdown_file : string → string → string + string)
       (save_csv_file : string → string → bool)
       markdown_file_path markdown_content output_path (is_base64 : bool)
       error,
       (Gemini.convert_markdown_to_csv read_file process_markdown_file
          save_csv_file markdown_file_path markdown_content output_path
          is_base64).1 = Gemini.Failure error →
       (Gemini.given markdown_file_path = None
        ∧ Gemini.given markdown_content = None)
       ∨ (∃ path, Gemini.given markdown_file_path = Some path
                  ∧ read_file path = inr error)
       ∨ (∃ content file_type,
            process_markdown_file content file_type = inr error)
       ∨ (∃ csv_content path,
            Gemini.given output_path = Some path
            ∧ save_csv_file csv_content path = false)).
Proof.
  split; [apply validate_iff|]. split; [reflexivity|]. split.
  { intros fields rest Hne Hne1 Hplain.
    unfold Gemini.validate_csv_structure.
    rewrite first_row_plain by done.
    change (length Gemini.expected_headers) with 17. apply Nat.eqb_eq. }
  split; [reflexivity|]. split.
  - intros read_file process save file_path content output_path is_base64
      text response Hcontent Hresp Hsave.
    unfold Gemini.convert_markdown_to_csv.
    destruct (Gemini.given file_path) as [path|].
    + rewrite Hcontent, Hresp.
      destruct (Gemini.given output_path); [by rewrite Hsave|done].
    + rewrite Hcontent, Hresp.
      destruct (Gemini.given output_path); [by rewrite Hsave|done].
  - intros read_file process save file_path content output_path is_base64
      error. unfold Gemini.convert_markdown_to_csv.
    destruct (Gemini.given file_path) as [path|] eqn:Hpath.
    + destruct (read_file path) as [text|e] eqn:Hread.
      * destruct (process text _) as [response|e] eqn:Hresp.
        -- destruct (Gemini.given output_path) as [out|]; [|done].
           destruct (save _ out) eqn:Hsave; [done|]. intros _.
           right; right; right. eauto.
        -- intros [= ->]. right; right; left. eauto.
      * intros [= ->]. right; left. eauto.
    + destruct (Gemini.given content) as [text|]; [|by left].
      destruct (process text _) as [response|e] eqn:Hresp.
      * destruct (Gemini.given output_path) as [out|]; [|done].
        destruct (save _ out) eqn:Hsave; [done|]. intros _.
        right; right; right. eauto.
      * intros [= ->]. right; right; left. eauto.
Qed.

Lemma csv_structure_validation_witness :
  Gemini.validate_csv_structure
    (Gemini.clean_csv_response three_column_answer) = false
  ∧ Gemini.convert_markdown_to_csv (λ _, inr "unused")
      (λ _ _, inl three_column_answer) (λ _ _, true)
      None (Some "# Annex") None false
    = (Gemini.Success "Name,Type,Watchlist
ACME,Entity,2025/1578" None, true)
  ∧ (Gemini.validate_csv_structure
       (Py.join "," ["Name"; "Type"; "Watchlist"] +:+ line_feed
        +:+ "ACME,Entity,2025/1578") = true
     ↔ length ["Name"; "Type"; "Watchlist"] = 17).
Proof.
  destruct csv_structure_validation as (_ & _ & Hplain & _ & Hok & _).
  split; [reflexivity|]. split.
  - apply (Hok (λ _, inr "unused") (λ _ _, inl three_column_answer)
             (λ _ _, true) None (Some "# Annex") None false "# Annex"
             three_column_answer); [reflexivity | reflexivity | exact I].
  - apply (Hplain ["Name"; "Type"; "Watchlist"] "ACME,Entity,2025/1578");
      [discriminate | discriminate |].
    repeat (constructor; [split; [reflexivity | vm_compute; discriminate]|]).
    constructor.
Defined.

Section Dedup.

Implicit Types (r : gmap string string) (rs : list (gmap string string)).
Implicit Types (k : cell) (seen : list cell).

Lemma drop_duplicates_go_filter seen rs k :
  filter (λ r, name_of r = k) (Consolidate.drop_duplicates_go seen rs)
  = if decide (k ∈ seen) then []
    else option_list (head (filter (λ r, name_of r = k) rs)).
Proof.
  revert seen. induction rs as [|r rs IH]; intros seen.
  - by destruct (decide (k ∈ seen)).
  - cbn [Consolidate.drop_duplicates_go]. fold (name_of r).
    rewrite (filter_cons _ r rs).
    destruct (decide (name_of r ∈ seen)) as [Hin|Hout].
    + rewrite bool_decide_eq_true_2 by done. rewrite IH.
      destruct (decide (k ∈ seen)) as [|Hk]; [done|].
      rewrite decide_False; [done|]. by intros <-.
    + rewrite bool_decide_eq_false_2 by done. rewrite filter_cons, IH.
      destruct (decide (name_of r = k)) as [<-|Hne].
      * rewrite (decide_False (P := name_of r ∈ seen)) by done.
        by rewrite (decide_True (P := name_of r ∈ name_of r :: seen)) by left.
      * destruct (decide (k ∈ seen)) as [Hk|Hk].
        -- by rewrite (decide_True (P := k ∈ name_of r :: seen)) by (by right).
        -- rewrite (decide_False (P := k ∈ name_of r :: seen)); [done|].
           by intros [?|?]%elem_of_cons.
Qed.

Lemma drop_duplicates_go_names seen rs :
  NoDup (name_of <$> Consolidate.drop_duplicates_go seen rs)
  ∧ ∀ r, r ∈ Consolidate.drop_duplicates_go seen rs →
         r ∈ rs ∧ name_of r ∉ seen.
Proof.
  revert seen. induction rs as [|r rs IH]; intros seen.
  - split; [constructor|]. by intros r ?%elem_of_nil.
  - cbn [Consolidate.drop_duplicates_go]. fold (name_of r).
    destruct (decide (name_of r ∈ seen)) as [Hin|Hout].
    + rewrite bool_decide_eq_true_2 by done.
      destruct (IH seen) as [Hnd Hsub]. split; [done|].
      intros r' [? ?]%Hsub. split; [by right|done].
    + rewrite bool_decide_eq_false_2 by done.
      destruct (IH (name_of r :: seen)) as [Hnd Hsub]. split.
      * rewrite fmap_cons. constructor; [|done].
        intros (r' & Heq & [_ Hr']%Hsub)%list_elem_of_fmap.
        apply Hr'. rewrite Heq. by left.
      * intros r' [->|[? Hr']%Hsub]%elem_of_cons; [by split; [left|]|].
        split; [by right|]. intros ?. apply Hr'. by right.
Qed.

Lemma drop_duplicates_go_length seen rs :
  length (Consolidate.drop_duplicates_go seen rs) ≤ length rs.
Proof.
  revert seen. induction rs as [|r rs IH]; intros seen; [done|].
  cbn [Consolidate.drop_duplicates_go]. case_match; simpl.
  - specialize (IH seen). lia.
  - specialize (IH ((r !! "Name") :: seen)). lia.
Qed.

End Dedup.

Global Instance cell_le_total : Total Consolidate.cell_le.
Proof.
  intros [x|] [y|]; simpl; auto. destruct (total String.le x y); auto.
Qed.

Global Instance cell_le_trans : Transitive Consolidate.cell_le.
Proof.
  intros [x|] [y|] [z|]; simpl; try done. apply transitivity.
Qed.

Lemma cell_le_antisym a b :
  Consolidate.cell_le a b → Consolidate.cell_le b a → a = b.
Proof.
  destruct a as [x|], b as [y|]; simpl; try done.
  intros ? ?. f_equal. by apply (anti_symm String.le).
Qed.

Global Instance name_le_total : Total Consolidate.name_le.
Proof. intros r1 r2. apply cell_le_total. Qed.

Global Instance name_le_trans : Transitive Consolidate.name_le.
Proof. intros r1 r2 r3. apply cell_le_trans. Qed.

(** The sorted table is the only sorted arrangement of rows whose names are
    pairwise different, whatever the sorting algorithm. *)
Lemma sort_values_unique (l l' : list (gmap string string)) :
  NoDup (name_of <$> l) →
  l' ≡ₚ l →
  Sorted Consolidate.name_le l' →
  l' = merge_sort Consolidate.name_le l.
Proof.
  intros Hnd Hperm Hsorted.
  assert (NoDup (name_of <$> l')) as Hnd' by (by rewrite Hperm).
  apply (StronglySorted_unique_strong Consolidate.name_le).
  - intros r1 r2 H1 H2 H12 H21.
    pose proof (cell_le_antisym _ _ H12 H21) as Heq.
    rewrite merge_sort_Permutation, <- Hperm in H2.
    apply list_elem_of_lookup in H1 as [i Hi].
    apply list_elem_of_lookup in H2 as [j Hj].
    assert (i = j) as Hij.
    { eapply (NoDup_lookup (name_of <$> l')); [done|..].
      - by rewrite list_lookup_fmap, Hi.
      - rewrite list_lookup_fmap, Hj. simpl. unfold name_of. by rewrite Heq. }
    subst j. rewrite Hi in Hj. by injection Hj.
  - by apply (Sorted_StronglySorted _).
  - apply (Sorted_StronglySorted _). apply (Sorted_merge_sort _).
  - by rewrite merge_sort_Permutation.
Qed.

Lemma read_all_spec files :
  Consolidate.read_all files
  = (λ fd, Main.update_watchlist_column fd.2 fd.1)
    <$> filter (λ fd, 0 < len fd.2) files.
Proof.
  unfold Consolidate.read_all.
  enough (∀ acc,
    foldl (λ all_dataframes '(file, df),
             if 0 <? len df
             then all_dataframes ++ [Main.update_watchlist_column df file]
             else all_dataframes) acc files
    = acc ++ ((λ fd, Main.update_watchlist_column fd.2 fd.1)
              <$> filter (λ fd, 0 < len fd.2) files)) as H by apply H.
  induction files as [|[file df] files IH]; intros acc; simpl.
  - by rewrite app_nil_r.
  - rewrite IH, filter_cons. cbn [snd].
    destruct (Nat.ltb_spec 0 (len df)).
    + rewrite decide_True by done. by rewrite <- app_assoc.
    + by rewrite decide_False by lia.
Qed.

Lemma rows_update_watchlist_column df file :
  rows (Main.update_watchlist_column df file)
  = (λ r : gmap string string, <["Watchlist" := table_watchlist df file]> r)
    <$> rows df.
Proof.
  unfold Main.update_watchlist_column, table_watchlist.
  destruct (negb (has_column "Watchlist" df)); [|done].
  unfold set_column at 1. cbn [rows]. unfold set_column at 2. cbn [rows].
  rewrite <- list_fmap_compose. apply list_fmap_ext. intros _ r _. simpl.
  by rewrite insert_insert_eq.
Qed.

Lemma has_column_update_watchlist_column df file :
  has_column "Watchlist" (Main.update_watchlist_column df file) = true.
Proof.
  unfold Main.update_watchlist_column.
  rewrite has_column_set_column. by rewrite orb_true_r.
Qed.

Lemma rows_read_all files :
  Consolidate.read_all files ≫= rows
  = files ≫= λ fd, (λ r : gmap string string,
                      <["Watchlist" := table_watchlist fd.2 fd.1]> r)
                   <$> rows fd.2.
Proof.
  rewrite read_all_spec. induction files as [|[file df] files IH]; [done|].
  rewrite filter_cons. cbn [snd fst]. rewrite bind_cons. cbn [snd fst].
  destruct (decide (0 < len df)) as [Hlen|Hlen].
  - rewrite fmap_cons, bind_cons, IH. cbn [snd fst].
    by rewrite rows_update_watchlist_column.
  - rewrite IH. unfold len in Hlen. destruct (rows df); [done|simpl in *; lia].
Qed.

Lemma columns_concat c dfs acc :
  c ∈ foldl (λ acc df, acc ++ filter (λ c, c ∉ acc) (columns df)) acc dfs
  ↔ c ∈ acc ∨ ∃ df, df ∈ dfs ∧ c ∈ columns df.
Proof.
  revert acc. induction dfs as [|df dfs IH]; intros acc; simpl.
  - split; [auto|]. intros [?|(? & []%elem_of_nil & _)]; done.
  - rewrite IH, elem_of_app, list_elem_of_filter. split.
    + intros [[?|[_ ?]]|(df' & ? & ?)]; [auto|right..].
      * exists df. split; [left|done].
      * exists df'. split; [by right|done].
    + intros [?|(df' & [->|?]%elem_of_cons & ?)]; [auto| |right; eauto].
      left. destruct (decide (c ∈ acc)); auto.
Qed.

Lemma has_column_concat c dfs :
  has_column c (Consolidate.concat dfs) = true
  ↔ ∃ df, df ∈ dfs ∧ has_column c df = true.
Proof.
  unfold has_column, Consolidate.concat. cbn [columns].
  rewrite bool_decide_eq_true, columns_concat. split.
  - intros [[]%elem_of_nil|(df & ? & ?)]. exists df.
    by rewrite bool_decide_eq_true.
  - intros (df & ? & ?%bool_decide_eq_true). eauto.
Qed.

Lemma fmap_bind {A B C} (f : B → C) (g : A → list B) (l : list A) :
  f <$> (l ≫= g) = l ≫= λ x, f <$> g x.
Proof.
  induction l as [|x l IH]; [done|]. by rewrite !bind_cons, fmap_app, IH.
Qed.

Lemma rows_established files :
  Consolidate.read_all files ≠ [] →
  rows (Consolidate.established files)
  = files ≫= λ fd,
      normalized_row
        (has_column "DOB_DJ" (Consolidate.concat (Consolidate.read_all files)))
        (table_watchlist fd.2 fd.1)
      <$> rows fd.2.
Proof.
  intros Hne. unfold Consolidate.established.
  set (merged := Consolidate.concat (Consolidate.read_all files)).
  assert (has_column "Watchlist" (Dob.standardize_dob_format merged) = true)
    as Hw.
  { assert (has_column "Watchlist" merged = true) as Hm.
    { apply has_column_concat.
      destruct (Consolidate.read_all files) as [|df dfs] eqn:E; [done|].
      exists df. split; [left|].
      assert (df ∈ Consolidate.read_all files) as Hin by (rewrite E; left).
      rewrite read_all_spec in Hin.
      apply list_elem_of_fmap in Hin as (fd & -> & _).
      apply has_column_update_watchlist_column. }
    unfold Dob.standardize_dob_format. by destruct (negb _). }
  unfold Main.standardize_watchlist. rewrite Hw. cbn [negb].
  unfold apply_column at 1. cbn [rows].
  unfold Dob.standardize_dob_format.
  assert (rows merged
          = files ≫= λ fd, (λ r : gmap string string,
                              <["Watchlist" := table_watchlist fd.2 fd.1]> r)
                           <$> rows fd.2) as Hrows
    by apply rows_read_all.
  destruct (has_column "DOB_DJ" merged); cbn [negb].
  - unfold apply_column. cbn [rows]. rewrite Hrows.
    rewrite <- list_fmap_compose, fmap_bind.
    apply list_bind_ext; [|done]. intros fd.
    rewrite <- list_fmap_compose. by apply list_fmap_ext.
  - rewrite Hrows, fmap_bind.
    apply list_bind_ext; [|done]. intros fd.
    rewrite <- list_fmap_compose. by apply list_fmap_ext.
Qed.

Lemma name_of_normalized_row dob watchlist r :
  name_of (normalized_row dob watchlist r) = name_of r.
Proof.
  unfold normalized_row, name_of. destruct dob;
    by rewrite !lookup_insert_ne by done.
Qed.

Lemma filter_name_fmap (g : gmap string string → gmap string string) k
    (l : list (gmap string string)) :
  (∀ r, name_of (g r) = name_of r) →
  filter (λ r, name_of r = k) (g <$> l)
  = g <$> filter (λ r, name_of r = k) l.
Proof.
  intros Hg. induction l as [|r l IH]; [done|].
  rewrite fmap_cons, !filter_cons, Hg, IH. by destruct (decide _).
Qed.

Lemma permutation_option_list {A} (l : list A) (o : option A) :
  l ≡ₚ option_list o → l = option_list o.
Proof.
  destruct o; simpl; intros H.
  - by apply Permutation_singleton_r.
  - by apply Permutation_nil_r.
Qed.

(** Claim C1.  When consolidation produces a table: the rows looked at are the
    rows of all input tables in input order (table by table, each row taken
    through the Watchlist and date passes, which leave its Name alone); for
    every Name value the final table holds exactly the first of these rows
    carrying it and none when no row carries it, so no Name occurs twice and a
    Name found in the first table survives as the first table's row; the
    count reported is the number of rows removed; and the final table is
    sorted ascending by Name, being the only sorted arrangement of its
    rows. *)
Theorem consolidation_first_occurrence_wins files out dups :
  Consolidate.step6_consolidate_data files = Some (out, dups) →
  let dob :=
    has_column "DOB_DJ" (Consolidate.concat (Consolidate.read_all files)) in
  let est :=
    files ≫= λ fd,
      normalized_row dob (table_watchlist fd.2 fd.1) <$> rows fd.2 in
  rows (Consolidate.established files) = est
  ∧ name_of <$> est = name_of <$> (files ≫= λ fd, rows fd.2)
  ∧ (∀ k, filter (λ r, name_of r = k) (rows out)
          = option_list (head (filter (λ r, name_of r = k) est)))
  ∧ NoDup (name_of <$> rows out)
  ∧ dups + length (rows out) = length est
  ∧ Sorted Consolidate.name_le (rows out)
  ∧ (∀ l', l' ≡ₚ rows out → Sorted Consolidate.name_le l' → l' = rows out)
  ∧ (∀ file1 table1 rest k r1,
       files = (file1, table1) :: rest →
       head (filter (λ r, name_of r = k) (rows table1)) = Some r1 →
       filter (λ r, name_of r = k) (rows out)
       = [normalized_row dob (table_watchlist table1 file1) r1]).
Proof.
  intros Hrun.
  assert (Consolidate.read_all files ≠ []
          ∧ out = Consolidate.sort_values_name
                    {| columns := columns (Consolidate.established files);
                       rows := Consolidate.drop_duplicates_go []
                                 (rows (Consolidate.established files)) |}
          ∧ dups = len (Consolidate.established files)
                   - length (Consolidate.drop_duplicates_go []
                               (rows (Consolidate.established files))))
    as (Hne & -> & ->).
  { unfold Consolidate.step6_consolidate_data in Hrun.
    destruct files as [|fd0 files0]; [done|].
    destruct (Consolidate.read_all (fd0 :: files0)); [done|].
    unfold Consolidate.drop_duplicates_name in Hrun.
    destruct (has_column "Name" _); [|done]. by injection Hrun as <- <-. }
  intros dob est.
  pose proof (rows_established files Hne) as Hest. fold dob est in Hest.
  unfold Consolidate.sort_values_name, len. cbn [rows]. rewrite Hest.
  set (kept := Consolidate.drop_duplicates_go [] est).
  assert (∀ k, filter (λ r, name_of r = k) (merge_sort Consolidate.name_le kept)
               = option_list (head (filter (λ r, name_of r = k) est)))
    as Hfilter.
  { intros k. apply permutation_option_list.
    rewrite merge_sort_Permutation. unfold kept.
    rewrite drop_duplicates_go_filter. by rewrite decide_False by apply not_elem_of_nil. }
  assert (NoDup (name_of <$> merge_sort Consolidate.name_le kept)) as Hnd.
  { rewrite merge_sort_Permutation. apply drop_duplicates_go_names. }
  split; [done|]. split.
  { unfold est. rewrite !fmap_bind. apply list_bind_ext; [|done]. intros fd.
    rewrite <- list_fmap_compose. apply list_fmap_ext. intros _ r _.
    apply name_of_normalized_row. }
  split; [done|]. split; [done|]. split.
  { rewrite (Permutation_length (merge_sort_Permutation _ kept)).
    pose proof (drop_duplicates_go_length [] est). fold kept in H. lia. }
  split; [apply (Sorted_merge_sort _)|]. split.
  { intros l' Hperm Hsorted. apply sort_values_unique; [|by rewrite Hperm, merge_sort_Permutation|done].
    by rewrite merge_sort_Permutation in Hnd. }
  intros file1 table1 rest k r1 Hshape Hhead. rewrite Hfilter.
  unfold est. rewrite Hshape, bind_cons. cbn [fst snd].
  rewrite filter_app, filter_name_fmap by apply name_of_normalized_row.
  destruct (filter (λ r, name_of r = k) (rows table1)) as [|r l]; [done|].
  injection Hhead as ->. done.
Qed.

Lemma columns_established files :
  Consolidate.read_all files ≠ [] →
  columns (Consolidate.established files)
  = columns (Consolidate.concat (Consolidate.read_all files)).
Proof.
  intros Hne. unfold Consolidate.established, Main.standardize_watchlist,
    Dob.standardize_dob_format.
  by repeat (destruct (negb _); cbn [apply_column columns]).
Qed.

(** The step produces a table as soon as one non-empty input table has a
    Name column. *)
Lemma step6_succeeds files file df :
  (file, df) ∈ files → 0 < len df → has_column "Name" df = true →
  is_Some (Consolidate.step6_consolidate_data files).
Proof.
  intros Hin Hlen Hname.
  assert (Main.update_watchlist_column df file ∈ Consolidate.read_all files)
    as Hupd.
  { rewrite read_all_spec. apply list_elem_of_fmap. exists (file, df).
    split; [done|]. by apply list_elem_of_filter. }
  assert (Consolidate.read_all files ≠ []) as Hne.
  { intros E. rewrite E in Hupd. by apply elem_of_nil in Hupd. }
  unfold Consolidate.step6_consolidate_data.
  destruct files as [|fd0 files0]; [by apply elem_of_nil in Hin|].
  set (files := fd0 :: files0) in *.
  destruct (Consolidate.read_all files) eqn:E; [done|]. rewrite <- E in *.
  unfold Consolidate.drop_duplicates_name.
  assert (has_column "Name" (Consolidate.established files) = true) as ->.
  { unfold has_column at 1. rewrite columns_established by done.
    apply has_column_concat. eexists. split; [done|].
    unfold Main.update_watchlist_column.
    rewrite has_column_set_column.
    destruct (negb _); [rewrite has_column_set_column|]; by rewrite Hname. }
  done.
Qed.

Lemma consolidation_first_occurrence_wins_witness :
  ∃ out,
    Consolidate.step6_consolidate_data sample_files = Some (out, 2)
    ∧ name_of <$> rows out = [Some "ALPHA"; Some "BETA"; Some "GAMMA"]
    ∧ filter (λ r, name_of r = Some "BETA") (rows out)
      = [ {["Name" := "BETA"; "Watchlist" := "OFAC"]} ].
Proof.
  destruct (step6_succeeds sample_files
              "sanctions_cleaned_2025-08-01.csv" table_one)
    as [[out dups] Hrun]; [left | vm_compute; lia | reflexivity |].
  exists out.
  destruct (consolidation_first_occurrence_wins sample_files out dups Hrun)
    as (_ & _ & _ & _ & _ & _ & _ & Hfirst).
  specialize (Hfirst "sanctions_cleaned_2025-08-01.csv" table_one
                [("sanctions_from_202501578_20250801.csv", table_two)]
                (Some "BETA")
                {["Name" := "BETA";
                  "Watchlist" := "OFAC - Specially Designated National List"]}
                eq_refl eq_refl).
  assert (Some (out, dups)
          = Consolidate.step6_consolidate_data sample_files) as Heq
    by (by rewrite Hrun).
  vm_compute in Heq. injection Heq as -> ->.
  split; [reflexivity|]. split; [reflexivity|]. exact Hfirst.
Defined.

(** ** Further properties of the Watchlist passes *)

Lemma resolve_watchlist_truthy df filename :
  Py.truthy (Main.resolve_watchlist df filename) = true.
Proof.
  unfold Main.resolve_watchlist. cbv zeta.
  match goal with
  | |- Py.truthy (if negb (Py.truthy ?x) then _ else _) = true => by destruct x
  end.
Qed.

Lemma has_column_after_update c df filename :
  has_column c (Main.update_watchlist_column df filename)
  = has_column c df || bool_decide (c = "Watchlist").
Proof.
  unfold Main.update_watchlist_column. rewrite has_column_set_column.
  destruct (negb (has_column "Watchlist" df)); [|done].
  rewrite has_column_set_column. by destruct (has_column c df), (bool_decide _).
Qed.

(** Property X1.  After the resolution pass a table has a Watchlist column
    and all its rows carry one and the same value, which is not empty; the
    other columns, the other cells, and the number and order of the rows are
    those of the table given. *)
Theorem update_watchlist_uniform df filename :
  let df' := Main.update_watchlist_column df filename in
  ∃ w, Py.truthy w = true
       ∧ has_column "Watchlist" df' = true
       ∧ (∀ c, c ≠ "Watchlist" → has_column c df' = has_column c df)
       ∧ length (rows df') = length (rows df)
       ∧ (∀ r' : gmap string string,
            r' ∈ rows df' → r' !! "Watchlist" = Some w)
       ∧ (∀ i (r : gmap string string), rows df !! i = Some r →
            ∃ r', rows df' !! i = Some r'
                  ∧ ∀ c, c ≠ "Watchlist" → r' !! c = r !! c).
Proof.
  intros df'. exists (table_watchlist df filename).
  split; [apply resolve_watchlist_truthy|].
  split; [unfold df'; by rewrite has_column_after_update, orb_true_r|].
  split.
  { intros c Hc. unfold df'.
    rewrite has_column_after_update, (bool_decide_eq_false_2 _ Hc).
    apply orb_false_r. }
  unfold df'. rewrite rows_update_watchlist_column.
  split; [by rewrite length_fmap|]. split.
  - intros r' (r & -> & _)%list_elem_of_fmap. apply lookup_insert_eq.
  - intros i r Hr. exists (<["Watchlist" := table_watchlist df filename]> r).
    split.
    + by rewrite list_lookup_fmap, Hr.
    + intros c Hc. by rewrite lookup_insert_ne.
Qed.

Lemma iloc0_other_column c c' v df :
  c ≠ c' → iloc0 c (set_column c' v df) = iloc0 c df.
Proof.
  intros Hne. unfold iloc0, set_column; cbn [rows].
  destruct (rows df); [done|]. cbn. by rewrite lookup_insert_ne.
Qed.

(** A table whose first row has a UN-indicative Source resolves to UN. *)
Lemma table_watchlist_un df filename s :
  has_column "Source" df = true →
  iloc0 "Source" df = Some s →
  Py.contains "un" (Py.lower s) || Py.contains "security council" (Py.lower s)
  = true →
  table_watchlist df filename = "UN".
Proof.
  intros Hcol Hs Hkw. unfold table_watchlist.
  set (df0 := if negb (has_column "Watchlist" df)
              then set_column "Watchlist" "" df else df).
  assert (has_column "Source" df0 = true) as Hcol0.
  { unfold df0. destruct (negb _); [|done].
    by rewrite has_column_set_column, Hcol. }
  assert (iloc0 "Source" df0 = Some s) as Hs0.
  { unfold df0. destruct (negb _); [|done]. by rewrite iloc0_other_column. }
  unfold Main.resolve_watchlist.
  rewrite Hcol0, (iloc0_Some_len _ _ _ Hs0), Hs0. cbn [py_str]. rewrite Hkw.
  reflexivity.
Qed.

(** A table without UN-indicative Source whose first row has an OFAC keyword
    in its Watchlist resolves to OFAC. *)
Lemma table_watchlist_ofac df filename w :
  has_column "Source" df = false →
  has_column "Watchlist" df = true →
  iloc0 "Watchlist" df = Some w →
  Py.contains "ofac" (Py.lower w)
  || Py.contains "specially designated" (Py.lower w) = true →
  table_watchlist df filename = "OFAC".
Proof.
  intros Hsrc Hcol Hw Hkw. unfold table_watchlist. rewrite Hcol. cbn [negb].
  unfold Main.resolve_watchlist.
  rewrite Hsrc, Hcol, (iloc0_Some_len _ _ _ Hw), Hw. cbn [py_str].
  cbn [Py.truthy negb andb]. rewrite Hkw. reflexivity.
Qed.

Lemma rows_standardize_after_update df filename :
  rows (Main.standardize_watchlist (Main.update_watchlist_column df filename))
  = (λ r : gmap string string,
       <["Watchlist" :=
           Main.clean_watchlist_value (Some (table_watchlist df filename))]> r)
    <$> rows df.
Proof.
  unfold Main.standardize_watchlist.
  rewrite has_column_update_watchlist_column. cbn [negb].
  unfold apply_column; cbn [rows]. rewrite rows_update_watchlist_column.
  rewrite <- list_fmap_compose. apply list_fmap_ext. intros _ r _. cbn.
  by rewrite lookup_insert_eq, insert_insert_eq.
Qed.

Lemma un_source_cell record :
  Un.extract_individual_data record !! "Source" = Some "UN Security Council"
  ∧ Un.extract_entity_data record !! "Source" = Some "UN Security Council".
Proof.
  unfold Un.extract_individual_data, Un.extract_entity_data. cbv zeta.
  cbn [list_to_map foldr fst snd].
  split; repeat (rewrite lookup_insert_ne by done); apply lookup_insert_eq.
Qed.

(** Property X2.  A table whose first row carries the Source cell of a record
    of the UN extractor is labelled UN in every row by the resolution pass,
    whatever its Watchlist column and its file name, and stays labelled UN
    through the canonicalization pass. *)
Theorem un_table_is_labelled_un df filename (r : gmap string string) rest
    record :
  has_column "Source" df = true →
  rows df = r :: rest →
  (r !! "Source" = Un.extract_individual_data record !! "Source"
   ∨ r !! "Source" = Un.extract_entity_data record !! "Source") →
  (∀ r' : gmap string string,
     r' ∈ rows (Main.update_watchlist_column df filename) →
     r' !! "Watchlist" = Some "UN")
  ∧ (∀ r' : gmap string string,
       r' ∈ rows (Main.standardize_watchlist
                    (Main.update_watchlist_column df filename)) →
       r' !! "Watchlist" = Some "UN").
Proof.
  intros Hcol Hrows Hsrc.
  assert (table_watchlist df filename = "UN") as Hw.
  { apply (table_watchlist_un df filename "UN Security Council");
      [done| |reflexivity].
    unfold iloc0. rewrite Hrows.
    destruct (un_source_cell record) as [Hi He].
    destruct Hsrc as [->| ->]; done. }
  rewrite rows_standardize_after_update, rows_update_watchlist_column, Hw.
  split; intros r' (r0 & -> & _)%list_elem_of_fmap; apply lookup_insert_eq.
Qed.

Lemma un_table_is_labelled_un_witness :
  Forall (λ r' : gmap string string, r' !! "Watchlist" = Some "UN")
    (rows (Main.standardize_watchlist
             (Main.update_watchlist_column
                (mkDF ["Name"; "Watchlist"; "Source"]
                   [ {["Name" := "B TEST"; "Watchlist" := "2025/1578";
                       "Source" := "UN Security Council"]} ])
                "sanctions_from_202501578_20250801.csv"))).
Proof.
  apply Forall_forall.
  apply (un_table_is_labelled_un
           (mkDF ["Name"; "Watchlist"; "Source"]
              [ {["Name" := "B TEST"; "Watchlist" := "2025/1578";
                  "Source" := "UN Security Council"]} ])
           "sanctions_from_202501578_20250801.csv" _ []
           (un_individual "B TEST" "2025-07-30") eq_refl eq_refl).
  left. reflexivity.
Defined.

Lemma extract_watchlist_cell entity :
  Xml.get entity "action" = Some "add" →
  is_Some (Xml.find_desc_child (Ofac.ns "sanctionsLists")
             (Ofac.ns "sanctionsList") entity) →
  Ofac.extract_entity_data entity !! "Watchlist"
  = Some "OFAC - Specially Designated National List".
Proof.
  intros Hadd [sl Hsl]. unfold Ofac.extract_entity_data.
  rewrite Hadd, Hsl.
  change (negb (String.eqb (default "" (Some "add")) "add")) with false.
  cbv zeta. cbn iota.
  repeat case_match;
    repeat (rewrite lookup_insert_ne by done); apply lookup_insert_eq.
Qed.

(** Property X3.  A table without Source column whose first row carries the
    Watchlist cell the OFAC extractor gives an added entity that is on a
    sanctions list is labelled OFAC in every row by the resolution pass,
    whatever its file name, and stays labelled OFAC through the
    canonicalization pass. *)
Theorem ofac_table_is_labelled_ofac df filename (r : gmap string string) rest
    entity :
  has_column "Source" df = false →
  has_column "Watchlist" df = true →
  rows df = r :: rest →
  Xml.get entity "action" = Some "add" →
  is_Some (Xml.find_desc_child (Ofac.ns "sanctionsLists")
             (Ofac.ns "sanctionsList") entity) →
  r !! "Watchlist" = Ofac.extract_entity_data entity !! "Watchlist" →
  (∀ r' : gmap string string,
     r' ∈ rows (Main.update_watchlist_column df filename) →
     r' !! "Watchlist" = Some "OFAC")
  ∧ (∀ r' : gmap string string,
       r' ∈ rows (Main.standardize_watchlist
                    (Main.update_watchlist_column df filename)) →
       r' !! "Watchlist" = Some "OFAC").
Proof.
  intros Hsrc Hcol Hrows Hadd Hsl Hcell.
  assert (table_watchlist df filename = "OFAC") as Hw.
  { apply (table_watchlist_ofac df filename
             "OFAC - Specially Designated National List");
      [done|done| |reflexivity].
    unfold iloc0. rewrite Hrows, Hcell. by apply extract_watchlist_cell. }
  rewrite rows_standardize_after_update, rows_update_watchlist_column, Hw.
  split; intros r' (r0 & -> & _)%list_elem_of_fmap; apply lookup_insert_eq.
Qed.

Lemma ofac_table_is_labelled_ofac_witness :
  Forall (λ r' : gmap string string, r' !! "Watchlist" = Some "OFAC")
    (rows (Main.standardize_watchlist
             (Main.update_watchlist_column
                (mkDF Ofac.canonical_columns
                   [ Ofac.extract_entity_data (sample_entity "add" five_docs);
                     {["Name" := "ROE, Jane"; "Watchlist" := "2024/100"]} ])
                "sanctions_cleaned_2025-08-01.csv"))).
Proof.
  apply Forall_forall.
  apply (ofac_table_is_labelled_ofac
           (mkDF Ofac.canonical_columns
              [ Ofac.extract_entity_data (sample_entity "add" five_docs);
                {["Name" := "ROE, Jane"; "Watchlist" := "2024/100"]} ])
           "sanctions_cleaned_2025-08-01.csv" _ _
           (sample_entity "add" five_docs)
           eq_refl eq_refl eq_refl eq_refl); [|reflexivity].
  eexists. reflexivity.
Defined.

(** Property X4.  The Watchlist value derived from the digits of a file name
    is either the literal EU or a regulation code, and in both cases the
    canonicalization pass leaves it as it is. *)
Theorem derived_code_is_canonical d :
  (Main.extract_eu_watchlist_from_number d = "EU"
   ∨ Main.search_eu_code (Main.extract_eu_watchlist_from_number d) = true)
  ∧ Main.clean_watchlist_value (Some (Main.extract_eu_watchlist_from_number d))
    = Main.extract_eu_watchlist_from_number d.
Proof.
  unfold Main.extract_eu_watchlist_from_number.
  destruct (negb (Py.truthy d) || (String.length d <? 8)) eqn:Hshort;
    [split; [by left|reflexivity]|].
  destruct (Py.isdigit d && (8 <=? String.length d)) eqn:Hd;
    [|split; [by left|reflexivity]].
  cbv zeta.
  destruct (Py.truthy (Py.lstrip_char "0" (Py.drop 4 d))) eqn:Hn;
    [|split; [by left|reflexivity]].
  apply andb_true_iff in Hd as [[Ht Hd]%andb_true_iff Hlen].
  apply Nat.leb_le in Hlen.
  assert (String.length (Py.take 4 d) = 4
          ∧ Py.all_chars Py.is_digit (Py.take 4 d) = true
          ∧ Py.all_chars Py.is_digit (Py.drop 4 d) = true) as (H4 & Hy & Hr).
  { destruct d as [|a [|b [|c [|e d]]]]; simpl in Hlen; try lia.
    cbn [Py.all_chars] in Hd.
    apply andb_true_iff in Hd as [Ha Hd]. apply andb_true_iff in Hd as [Hb Hd].
    apply andb_true_iff in Hd as [Hc Hd]. apply andb_true_iff in Hd as [He Hd].
    cbn [Py.take Py.drop Py.all_chars String.length].
    by rewrite Ha, Hb, Hc, He, Hd. }
  assert (Py.isdigit (Py.lstrip_char "0" (Py.drop 4 d)) = true) as Hnum.
  { unfold Py.isdigit. rewrite Hn. cbn [andb].
    destruct (lstrip_char_spec "0" (Py.drop 4 d)) as (zeros & Heq & _ & _).
    rewrite Heq, all_chars_app in Hr. by apply andb_true_iff in Hr as [_ ?]. }
  pose proof (clean_watchlist_eu_code_fixed _ _ H4 Hy Hnum) as Hfix.
  split; [right|exact Hfix].
  destruct (Py.take 4 d) as [|a [|b [|c [|e [|? ?]]]]]; try discriminate.
  destruct (Py.lstrip_char "0" (Py.drop 4 d)) as [|n0 n]; [discriminate|].
  cbn [Py.all_chars] in Hy. repeat (apply andb_true_iff in Hy as [? Hy]).
  apply andb_true_iff in Hnum as [_ [Hn0 _]%andb_true_iff].
  rewrite !app_String, !app_Empty.
  cbn [Main.search_eu_code Main.match_eu_code_at].
  by rewrite H, H0, H1, H2, Hn0.
Qed.

(** Property X5.  The canonicalization pass keeps the columns, the number and
    order of the rows and every cell outside the Watchlist column; in a
    table with a Watchlist column each row's new Watchlist is Unknown, UN,
    OFAC, EU, or the old value stripped of surrounding whitespace; a table
    without the column is returned as it is. *)
Theorem standardize_watchlist_frame df :
  let df' := Main.standardize_watchlist df in
  columns df' = columns df
  ∧ length (rows df') = length (rows df)
  ∧ (∀ i (r : gmap string string), rows df !! i = Some r →
       ∃ r', rows df' !! i = Some r'
             ∧ (∀ c, c ≠ "Watchlist" → r' !! c = r !! c)
             ∧ (has_column "Watchlist" df = true →
                ∃ w, r' !! "Watchlist" = Some w
                     ∧ (w ∈ ["Unknown"; "UN"; "OFAC"; "EU"]
                        ∨ ∃ v, r !! "Watchlist" = Some v ∧ w = Py.strip v)))
  ∧ (has_column "Watchlist" df = false → df' = df).
Proof.
  unfold Main.standardize_watchlist.
  destruct (has_column "Watchlist" df) eqn:E; cbn [negb].
  - split; [done|]. split; [by unfold apply_column; cbn; rewrite length_fmap|].
    split; [|done]. intros i r Hr.
    exists (<["Watchlist" := Main.clean_watchlist_value (r !! "Watchlist")]> r).
    split; [unfold apply_column; cbn [rows]; by rewrite list_lookup_fmap, Hr|].
    split; [intros c Hc; by rewrite lookup_insert_ne|].
    intros _. eexists. split; [apply lookup_insert_eq|].
    unfold Main.clean_watchlist_value.
    destruct (r !! "Watchlist") as [v|]; [|left; set_solver].
    repeat case_match; try (left; set_solver). all: right; eauto.
  - split; [done|]. split; [done|]. split; [|done].
    intros i r Hr. exists r. split; [done|]. split; [done|]. done.
Qed.

(** ** Dates written and read back *)

Lemma digit_value_char n :
  Date.digit_value (Date.digit_char n) = (n mod 10)%Z.
Proof.
  unfold Date.digit_char. pose proof (Z.mod_pos_bound n 10 eq_refl) as Hb.
  assert (n mod 10 = 0 ∨ n mod 10 = 1 ∨ n mod 10 = 2 ∨ n mod 10 = 3
          ∨ n mod 10 = 4 ∨ n mod 10 = 5 ∨ n mod 10 = 6 ∨ n mod 10 = 7
          ∨ n mod 10 = 8 ∨ n mod 10 = 9)%Z as H by lia.
  destruct H as [-> | [-> | [-> | [-> | [-> | [-> | [-> | [-> | [-> | ->]]]]]]]]];
    reflexivity.
Qed.

Lemma first_some_head {A B} (f : A → option B) x l :
  is_Some (f x) → Date.first_some f (x :: l) = f x.
Proof.
  intros [y Hy]. unfold Date.first_some. cbn [fmap list_fmap list_find].
  rewrite Hy. rewrite decide_True by eauto. done.
Qed.

Lemma alts_d_two_digits dd r :
  (1 ≤ dd ≤ 31)%Z →
  ∃ l, Date.alts_d (Date.two_digits dd +:+ r) = (Some dd, r) :: l.
Proof.
  intros H.
  assert (dd ∈ (Z.of_nat <$> seq 1 31)) as Hin.
  { apply list_elem_of_fmap. exists (Z.to_nat dd). split; [lia|].
    apply elem_of_seq. lia. }
  cbn in Hin.
  repeat (apply elem_of_cons in Hin as [-> | Hin]; [eexists; reflexivity|]).
  by apply elem_of_nil in Hin.
Qed.

Lemma alts_m_two_digits mm r :
  (1 ≤ mm ≤ 12)%Z →
  ∃ l, Date.alts_m (Date.two_digits mm +:+ r) = (Some mm, r) :: l.
Proof.
  intros H.
  assert (mm ∈ (Z.of_nat <$> seq 1 12)) as Hin.
  { apply list_elem_of_fmap. exists (Z.to_nat mm). split; [lia|].
    apply elem_of_seq. lia. }
  cbn in Hin.
  repeat (apply elem_of_cons in Hin as [-> | Hin]; [eexists; reflexivity|]).
  by apply elem_of_nil in Hin.
Qed.

Lemma alts_b_month_abbr mm r :
  (1 ≤ mm ≤ 12)%Z →
  Date.alts_b (Date.month_abbr mm +:+ r) = [(Some mm, r)].
Proof.
  intros H.
  assert (mm ∈ (Z.of_nat <$> seq 1 12)) as Hin.
  { apply list_elem_of_fmap. exists (Z.to_nat mm). split; [lia|].
    apply elem_of_seq. lia. }
  cbn in Hin.
  repeat (apply elem_of_cons in Hin as [-> | Hin]; [reflexivity|]).
  by apply elem_of_nil in Hin.
Qed.

Lemma four_digits_value y :
  (0 ≤ y ≤ 9999)%Z →
  (1000 * ((y / 1000) mod 10) + 100 * ((y / 100) mod 10)
   + 10 * ((y / 10) mod 10) + y mod 10 = y)%Z.
Proof. intros H. Z.to_euclidean_division_equations. lia. Qed.

Lemma alts_Y_four_digits y r :
  (0 ≤ y ≤ 9999)%Z →
  Date.alts_Y (Date.four_digits y +:+ r) = [(Some y, r)].
Proof.
  intros H. unfold Date.four_digits. rewrite !app_String, app_Empty.
  cbn [Date.alts_Y]. rewrite !digit_char_is_digit. cbn [andb].
  by rewrite !digit_value_char, four_digits_value.
Qed.

Lemma alts_ws_month_abbr mm r :
  (1 ≤ mm ≤ 12)%Z → Date.alts_ws (Date.month_abbr mm +:+ r) = [].
Proof.
  intros (a & b & c & -> & Ha & _)%month_abbr_alpha.
  rewrite !app_String. cbn [Date.alts_ws]. by rewrite (alpha_not_space a Ha).
Qed.

Lemma alts_ws_four_digits y r :
  Date.alts_ws (Date.four_digits y +:+ r) = [].
Proof.
  unfold Date.four_digits. rewrite !app_String. cbn [Date.alts_ws].
  by rewrite (digit_not_space _ (digit_char_is_digit _)).
Qed.

Section Steps.

Context (ds : list Date.directive) (r : string) (acc : Date.fields)
  (res : Date.fields * string).

Lemma step_Dd dd :
  (1 ≤ dd ≤ 31)%Z →
  Date.match_directives ds r
    (Date.mkFields (Date.f_year acc) (Date.f_month acc) (Some dd)) = Some res →
  Date.match_directives (Date.Dd :: ds) (Date.two_digits dd +:+ r) acc
  = Some res.
Proof.
  intros Hdd H. cbn [Date.match_directives].
  destruct (alts_d_two_digits dd r Hdd) as [l ->].
  rewrite first_some_head; [exact H | exists res; exact H].
Qed.

Lemma step_Dm mm :
  (1 ≤ mm ≤ 12)%Z →
  Date.match_directives ds r
    (Date.mkFields (Date.f_year acc) (Some mm) (Date.f_day acc)) = Some res →
  Date.match_directives (Date.Dm :: ds) (Date.two_digits mm +:+ r) acc
  = Some res.
Proof.
  intros Hmm H. cbn [Date.match_directives].
  destruct (alts_m_two_digits mm r Hmm) as [l ->].
  rewrite first_some_head; [exact H | exists res; exact H].
Qed.

Lemma step_Db mm :
  (1 ≤ mm ≤ 12)%Z →
  Date.match_directives ds r
    (Date.mkFields (Date.f_year acc) (Some mm) (Date.f_day acc)) = Some res →
  Date.match_directives (Date.Db :: ds) (Date.month_abbr mm +:+ r) acc
  = Some res.
Proof.
  intros Hmm H. cbn [Date.match_directives].
  rewrite alts_b_month_abbr by done.
  rewrite first_some_head; [exact H | exists res; exact H].
Qed.

Lemma step_DY y :
  (0 ≤ y ≤ 9999)%Z →
  Date.match_directives ds r
    (Date.mkFields (Some y) (Date.f_month acc) (Date.f_day acc)) = Some res →
  Date.match_directives (Date.DY :: ds) (Date.four_digits y +:+ r) acc
  = Some res.
Proof.
  intros Hy H. cbn [Date.match_directives].
  rewrite alts_Y_four_digits by done.
  rewrite first_some_head; [exact H | exists res; exact H].
Qed.

Lemma step_Ws :
  Date.alts_ws r = [] →
  Date.match_directives ds r acc = Some res →
  Date.match_directives (Date.Ws :: ds) (String " " r) acc = Some res.
Proof.
  intros Hr H. cbn [Date.match_directives Date.alts_ws].
  change (Py.is_space " ") with true. cbn iota. rewrite Hr. cbn [app].
  rewrite first_some_head; [exact H | exists res; exact H].
Qed.

Lemma step_Lit c :
  Date.match_directives ds r acc = Some res →
  Date.match_directives (Date.Lit c :: ds) (String c r) acc = Some res.
Proof.
  intros H. cbn [Date.match_directives]. by rewrite Ascii.eqb_refl.
Qed.

End Steps.

Lemma valid_date_bounds d :
  valid_date d →
  (1 ≤ Date.year d ≤ 9999)%Z ∧ (1 ≤ Date.month d ≤ 12)%Z
  ∧ (1 ≤ Date.day d ≤ 31)%Z.
Proof.
  intros (_ & Hy & Hm & Hd)%make_valid. split; [done|]. split; [done|].
  assert (Date.days_in_month (Date.year d) (Date.month d) ≤ 31)%Z; [|lia].
  unfold Date.days_in_month. repeat case_match; lia.
Qed.

Lemma strptime_intro s fmt ds f :
  Date.directives fmt = Some ds →
  Date.match_directives ds s Date.no_fields = Some (f, "") →
  Date.strptime s fmt
  = Date.make (default 1900%Z (Date.f_year f)) (default 1%Z (Date.f_month f))
      (default 1%Z (Date.f_day f)).
Proof. intros Hds Hm. unfold Date.strptime. by rewrite Hds, Hm. Qed.

(** What [strftime] writes, [strptime] reads back. *)
Lemma strptime_strftime d :
  valid_date d →
  Date.strptime (Date.strftime_d_m_Y d) "%d/%m/%Y" = Some d
  ∧ Date.strptime (Date.strftime_d_b_Y d) "%d %b %Y" = Some d.
Proof.
  intros Hv. pose proof (valid_date_bounds d Hv) as (Hy & Hm & Hd).
  set (f := Date.mkFields (Some (Date.year d)) (Some (Date.month d))
              (Some (Date.day d))).
  split.
  - rewrite (strptime_intro _ _
               [Date.Dd; Date.Lit "/"; Date.Dm; Date.Lit "/"; Date.DY] f);
      [exact Hv|reflexivity|].
    unfold Date.strftime_d_m_Y.
    rewrite <- (string_app_nil_r (Date.four_digits (Date.year d))).
    apply step_Dd; [done|].
    rewrite app_String, app_Empty. apply step_Lit.
    apply step_Dm; [done|].
    rewrite app_String, app_Empty. apply step_Lit.
    apply step_DY; [lia|]. reflexivity.
  - rewrite (strptime_intro _ _
               [Date.Dd; Date.Ws; Date.Db; Date.Ws; Date.DY] f);
      [exact Hv|reflexivity|].
    unfold Date.strftime_d_b_Y.
    rewrite <- (string_app_nil_r (Date.four_digits (Date.year d))).
    apply step_Dd; [done|].
    rewrite app_String, app_Empty.
    apply step_Ws; [by apply alts_ws_month_abbr|].
    apply step_Db; [done|].
    rewrite app_String, app_Empty.
    apply step_Ws; [by apply alts_ws_four_digits|].
    apply step_DY; [lia|]. reflexivity.
Qed.

Lemma rstrip_app a b :
  Py.truthy (Py.rstrip b) = true → Py.rstrip (a +:+ b) = a +:+ Py.rstrip b.
Proof.
  intros Hb. induction a as [|c a IH]; [done|].
  rewrite !app_String. cbn [Py.rstrip]. rewrite IH.
  assert (Py.truthy (a +:+ Py.rstrip b) = true) as ->.
  { destruct a; [by rewrite app_Empty|done]. }
  by rewrite andb_false_r.
Qed.

Lemma rstrip_four_digits y :
  Py.rstrip (Date.four_digits y) = Date.four_digits y.
Proof.
  unfold Date.four_digits. cbn [Py.rstrip Py.truthy negb].
  rewrite (digit_not_space _ (digit_char_is_digit y)). cbn [andb Py.truthy negb].
  by rewrite !andb_false_r.
Qed.

Lemma strip_strftime d :
  Py.strip (Date.strftime_d_m_Y d) = Date.strftime_d_m_Y d
  ∧ Py.strip (Date.strftime_d_b_Y d) = Date.strftime_d_b_Y d.
Proof.
  assert (∀ x, Py.strip (Date.two_digits (Date.day d) +:+ x
                         +:+ Date.four_digits (Date.year d))
               = Date.two_digits (Date.day d) +:+ x
                 +:+ Date.four_digits (Date.year d)) as H.
  { intros x. unfold Py.strip.
    assert (Py.lstrip (Date.two_digits (Date.day d) +:+ x
                       +:+ Date.four_digits (Date.year d))
            = Date.two_digits (Date.day d) +:+ x
              +:+ Date.four_digits (Date.year d)) as ->.
    { unfold Date.two_digits. rewrite app_String. cbn [Py.lstrip].
      by rewrite (digit_not_space _ (digit_char_is_digit _)). }
    rewrite <- !string_app_assoc, rstrip_app; rewrite rstrip_four_digits; done. }
  split.
  - unfold Date.strftime_d_m_Y.
    rewrite <- (string_app_assoc "/" (Date.two_digits (Date.month d))).
    rewrite <- (string_app_assoc _ "/"). apply H.
  - unfold Date.strftime_d_b_Y.
    rewrite <- (string_app_assoc " " (Date.month_abbr (Date.month d))).
    rewrite <- (string_app_assoc _ " "). apply H.
Qed.

Lemma strftime_d_m_Y_not_shaped d :
  Dob.match_dob_shape (Date.strftime_d_m_Y d) = false.
Proof.
  unfold Date.strftime_d_m_Y, Date.two_digits.
  rewrite !app_String, !app_Empty. cbn [Dob.match_dob_shape].
  unfold Dob.match_shape_tail, Dob.skip_spaces1.
  change (Py.is_space "/") with false. cbn iota.
  rewrite (digit_not_space _ (digit_char_is_digit (Date.day d))).
  by rewrite !andb_false_r.
Qed.

Lemma strftime_truthy d :
  Py.truthy (Date.strftime_d_m_Y d) = true
  ∧ Py.truthy (Date.strftime_d_b_Y d) = true.
Proof. done. Qed.

(** The date pass on a date written day/month/year. *)
Lemma convert_strftime_d_m_Y d :
  valid_date d →
  Dob.convert_date_format (Some (Date.strftime_d_m_Y d))
  = Date.strftime_d_b_Y d.
Proof.
  intros Hv. destruct (strip_strftime d) as [Hs _].
  rewrite convert_nonblank by (rewrite Hs; by intros ?%(f_equal Py.truthy)).
  rewrite Hs, strftime_d_m_Y_not_shaped.
  apply (try_formats_first _ _ 0 "%d/%m/%Y"); [done| |intros; lia].
  by apply strptime_strftime.
Qed.

Lemma try_formats_cases fmts s :
  Dob.try_formats fmts s = s
  ∨ ∃ fmt d, Date.strptime s fmt = Some d
             ∧ Dob.try_formats fmts s = Date.strftime_d_b_Y d.
Proof.
  induction fmts as [|fmt fmts IH]; [by left|]. cbn [Dob.try_formats].
  destruct (Date.strptime s fmt) as [d|] eqn:E; [right; eauto|done].
Qed.

(** Property X6.  The date conversion of the date pass is idempotent: a
    value it has converted, left as found or blanked is returned unchanged by
    a second conversion. *)
Theorem convert_date_format_idempotent (v : cell) :
  Dob.convert_date_format (Some (Dob.convert_date_format v))
  = Dob.convert_date_format v.
Proof.
  destruct v as [v|]; [|reflexivity].
  destruct (decide (Py.strip v = "")) as [Hb|Hne].
  { assert (Dob.convert_date_format (Some v) = "") as ->; [|reflexivity].
    unfold Dob.convert_date_format. rewrite Hb. by rewrite orb_true_r. }
  rewrite (convert_nonblank v Hne).
  assert (Py.strip (Py.strip v) ≠ "") as Hne' by (by rewrite strip_idempotent).
  destruct (Dob.match_dob_shape (Py.strip v)) eqn:Hshape.
  { by rewrite (convert_nonblank _ Hne'), strip_idempotent, Hshape. }
  destruct (try_formats_cases Dob.date_formats (Py.strip v))
    as [Hsame | (fmt & d & Hd & Hconv)].
  - rewrite Hsame, (convert_nonblank _ Hne'), strip_idempotent, Hshape.
    exact Hsame.
  - rewrite Hconv. destruct (strip_strftime d) as [_ Hs].
    rewrite convert_nonblank by (rewrite Hs; by intros ?%(f_equal Py.truthy)).
    rewrite Hs, strftime_shape; [done|].
    by apply strptime_valid in Hd as (_ & ? & _).
Qed.

(** Property X7.  A birth date the OFAC feed gives in the form dd Mon yyyy,
    for a real date from the year 1000 on, is stored by the extractor as
    dd/mm/yyyy in DOB_DJ with its year in DOB_YEAR, and the date pass of the
    consolidation turns that DOB_DJ back into the text the feed gave. *)
Theorem ofac_birthdate_round_trip d (data : gmap string string) :
  valid_date d →
  (1000 ≤ Date.year d)%Z →
  let data' := Ofac.set_birthdate (Date.strftime_d_b_Y d) data in
  data' !! "Date of Birth" = Some (Date.strftime_d_b_Y d)
  ∧ data' !! "DOB_DJ" = Some (Date.strftime_d_m_Y d)
  ∧ data' !! "DOB_YEAR" = Some (Date.four_digits (Date.year d))
  ∧ Dob.convert_date_format (data' !! "DOB_DJ") = Date.strftime_d_b_Y d
  ∧ (∀ k, k ∉ ["Date of Birth"; "DOB_DJ"; "DOB_YEAR"] →
          data' !! k = data !! k).
Proof.
  intros Hv Hy data'. subst data'. unfold Ofac.set_birthdate. cbv zeta.
  destruct (strptime_strftime d Hv) as [_ ->].
  assert (Date.str_year (Date.year d) = Date.four_digits (Date.year d)) as ->.
  { unfold Date.str_year.
    by rewrite !(proj2 (Z.ltb_ge _ _)) by lia. }
  split; [rewrite !lookup_insert_ne by done; apply lookup_insert_eq|].
  split; [rewrite lookup_insert_ne by done; apply lookup_insert_eq|].
  split; [apply lookup_insert_eq|].
  split.
  - rewrite lookup_insert_ne, lookup_insert_eq by done.
    by apply convert_strftime_d_m_Y.
  - intros k Hk. rewrite !lookup_insert_ne; [done|..];
      intros <-; apply Hk; set_solver.
Qed.

Lemma ofac_birthdate_round_trip_witness :
  valid_date (Date.mkDate 1958 10 12)
  ∧ Date.strftime_d_b_Y (Date.mkDate 1958 10 12) = "12 Oct 1958"
  ∧ Ofac.set_birthdate "12 Oct 1958" Ofac.blank_data !! "DOB_DJ"
    = Some "12/10/1958"
  ∧ Dob.convert_date_format
      (Ofac.set_birthdate "12 Oct 1958" Ofac.blank_data !! "DOB_DJ")
    = "12 Oct 1958".
Proof.
  destruct (ofac_birthdate_round_trip (Date.mkDate 1958 10 12)
              Ofac.blank_data eq_refl)
    as (_ & Hdj & _ & Hback & _); [done|].
  split; [reflexivity|]. split; [reflexivity|]. split; [exact Hdj|exact Hback].
Defined.

(** ** The dictionaries of the OFAC extractor *)

Lemma built_trans W (a b c : gmap string string) :
  built W a b → built W b c → built W a c.
Proof. intros Hab Hbc. induction Hbc; [done|]. by constructor. Qed.

Lemma ofac_write_plain k v :
  k ∈ Ofac.canonical_columns → k ≠ "DOB_YEAR" → k ≠ "DOB_DJ" →
  ofac_write k v.
Proof. intros Hk H1 H2. by split. Qed.

Lemma strptime_valid_date s fmt d :
  Date.strptime s fmt = Some d → valid_date d.
Proof.
  unfold Date.strptime. repeat case_match; try done.
  intros Hmake. pose proof Hmake as (-> & _)%make_valid. exact Hmake.
Qed.

Lemma str_year_digits y :
  (1 ≤ y ≤ 9999)%Z →
  Py.isdigit (Date.str_year y) = true ∧ String.length (Date.str_year y) ≤ 4.
Proof.
  intros Hy. unfold Date.str_year, Py.isdigit.
  repeat case_match; cbn [Py.truthy Py.all_chars String.length andb];
    unfold Date.two_digits, Date.four_digits;
    cbn [Py.truthy Py.all_chars String.length andb];
    rewrite ?digit_char_is_digit; split; (done || lia).
Qed.

Lemma take_4_length_le t : String.length (Py.take 4 t) ≤ 4.
Proof. destruct t as [|? [|? [|? [|? ?]]]]; simpl; lia. Qed.

Lemma search_year_digits b s y :
  Ofac.search_year b s = Some y →
  Py.isdigit y = true ∧ String.length y ≤ 4.
Proof.
  revert b y. induction s as [|c s IH]; intros b y; [done|].
  cbn [Ofac.search_year].
  destruct (negb b && (4 <=? String.length (Py.take 4 (String c s)))
            && Py.all_chars Py.is_digit (Py.take 4 (String c s)) && _) eqn:E;
    [|apply IH].
  intros Hy. assert (y = Py.take 4 (String c s)) as -> by congruence.
  clear Hy. split; [|apply take_4_length_le].
  apply andb_true_iff in E as [E _].
  apply andb_true_iff in E as [E Hd]. apply andb_true_iff in E as [_ Hl].
  apply Nat.leb_le in Hl. unfold Py.isdigit. rewrite Hd.
  destruct (Py.take 4 (String c s)); [simpl in Hl; lia|done].
Qed.

Lemma built_set_birthdate value data0 data :
  built ofac_write data0 data →
  built ofac_write data0 (Ofac.set_birthdate value data).
Proof.
  intros Hb. unfold Ofac.set_birthdate. cbv zeta.
  assert (built ofac_write data0 (<["Date of Birth" := value]> data)) as Hb1.
  { constructor; [done|]. apply ofac_write_plain; [set_solver|done..]. }
  assert (∀ fmt d, Date.strptime value fmt = Some d →
            built ofac_write data0
              (<["DOB_YEAR" := Date.str_year (Date.year d)]>
                 (<["DOB_DJ" := Date.strftime_d_m_Y d]>
                    (<["Date of Birth" := value]> data)))) as Hparsed.
  { intros fmt d Hd. constructor; [constructor; [done|]|].
    - split; [set_solver|]. split; [done|]. intros _. exists d.
      split; [by eapply strptime_valid_date|done].
    - split; [set_solver|]. split; [|done]. intros _.
      apply str_year_digits. by apply strptime_valid in Hd as (? & _). }
  destruct (Date.strptime value "%d %b %Y") eqn:E1; [by eapply Hparsed|].
  destruct (Date.strptime value "%Y-%m-%d") eqn:E2; [by eapply Hparsed|].
  destruct (Ofac.search_year false value) as [y|] eqn:E3; [|done].
  constructor; [done|]. split; [set_solver|]. split; [|done].
  intros _. by eapply search_year_digits.
Qed.

Lemma built_feature_step data0 st feature :
  built ofac_write data0 st.1.1 →
  built ofac_write data0 (Ofac.feature_step st feature).1.1.
Proof.
  destruct st as [[data nats] vf]. cbn [fst]. intros Hb.
  unfold Ofac.feature_step.
  repeat case_match; cbn [fst]; try done;
    try (by apply built_set_birthdate);
    (constructor; [done|]; apply ofac_write_plain; [set_solver|done..]).
Qed.

Lemma built_features data0 st features :
  built ofac_write data0 st.1.1 →
  built ofac_write data0 (foldl Ofac.feature_step st features).1.1.
Proof.
  revert st. induction features as [|f fs IH]; intros st Hb; [done|].
  simpl. apply IH. by apply built_feature_step.
Qed.

Lemma built_id_docs_loop data0 docs n data :
  built ofac_write data0 data →
  built ofac_write data0 (Ofac.id_docs_loop docs n data).
Proof.
  revert n data. induction docs as [|doc docs IH]; intros n data Hb; [done|].
  cbn [Ofac.id_docs_loop]. repeat case_match; try done; apply IH; try done.
  - constructor; [constructor; [done|]|];
      (apply ofac_write_plain; [set_solver|done..]).
  - constructor; [constructor; [done|]|];
      (apply ofac_write_plain; [set_solver|done..]).
Qed.

(** The dictionary of an entity is the blank one after assignments that are
    all of the permitted kind. *)
Lemma extract_entity_data_built entity :
  built ofac_write Ofac.blank_data (Ofac.extract_entity_data entity).
Proof.
  unfold Ofac.extract_entity_data. cbv zeta.
  destruct (negb _); [constructor|].
  set (data1 := match Xml.find_desc_child _ _ entity with
                | Some _ => _ | None => Ofac.blank_data end).
  assert (built ofac_write Ofac.blank_data data1) as H1.
  { unfold data1. case_match; [|constructor].
    constructor; [constructor|]. apply ofac_write_plain; [set_solver|done..]. }
  clearbody data1.
  destruct (foldl Ofac.name_step _ _) as [primary aliases_list].
  match goal with
  | |- context [foldl Ofac.feature_step ?st ?fs] =>
      pose proof (built_features Ofac.blank_data st fs) as H2;
      destruct (foldl Ofac.feature_step st fs) as [[data2 nats] vf]
  end.
  cbn [fst] in H2.
  assert (built ofac_write Ofac.blank_data data2) as H2'.
  { apply H2. constructor; [constructor; [done|]|];
      (apply ofac_write_plain; [set_solver|done..]). }
  clear H2.
  repeat first
    [ done
    | apply built_id_docs_loop
    | case_match
    | constructor; [|apply ofac_write_plain; [set_solver|done..]] ].
Qed.

Lemma canonical_columns_nodup : NoDup Ofac.canonical_columns.
Proof. apply (bool_decide_unpack _). by vm_compute. Qed.

Lemma blank_data_lookup c :
  Ofac.blank_data !! c
  = if bool_decide (c ∈ Ofac.canonical_columns) then Some "" else None.
Proof.
  unfold Ofac.blank_data.
  destruct (bool_decide_reflect (c ∈ Ofac.canonical_columns)) as [Hin|Hout].
  - apply elem_of_list_to_map_1.
    + rewrite <- list_fmap_compose, list_fmap_id.
      apply canonical_columns_nodup.
    + apply list_elem_of_fmap. eauto.
  - apply not_elem_of_list_to_map_1. rewrite <- list_fmap_compose.
    by rewrite list_fmap_id.
Qed.

Lemma built_keys data :
  built ofac_write Ofac.blank_data data →
  ∀ c, is_Some (data !! c) ↔ c ∈ Ofac.canonical_columns.
Proof.
  induction 1 as [|data k v _ IH (Hk & _)]; intros c.
  - rewrite blank_data_lookup. case_bool_decide; [|split; [by intros []|done]].
    split; eauto.
  - destruct (decide (c = k)) as [->|Hne].
    + rewrite lookup_insert_eq. split; eauto.
    + by rewrite lookup_insert_ne.
Qed.

(** Property X8.  The table of the OFAC extractor: when the document has no
    entity it is the empty table without columns; otherwise its columns are
    the seventeen canonical ones, it has at most as many rows as there are
    entities, and every row holds a value, possibly empty, under each of the
    seventeen columns and under nothing else, the one under Name being not
    empty. *)
Theorem ofac_table_shape root :
  let df := Ofac.process_sanctions_data root in
  (Ofac.find_entities root = [] → df = mkDF [] [])
  ∧ (Ofac.find_entities root ≠ [] → columns df = Ofac.canonical_columns)
  ∧ length (rows df) ≤ length (Ofac.find_entities root)
  ∧ (∀ row : gmap string string, row ∈ rows df →
       (∀ c, is_Some (row !! c) ↔ c ∈ Ofac.canonical_columns)
       ∧ Py.truthy (Ofac.field row "Name") = true).
Proof.
  intros df. subst df. unfold Ofac.process_sanctions_data.
  destruct (Ofac.find_entities root) as [|e es] eqn:E; cbn [length Nat.eqb].
  { split; [done|]. split; [done|]. split; [done|]. by intros row ?%elem_of_nil. }
  cbn [columns rows]. split; [done|]. split; [done|].
  rewrite extraction_loop_filter. split.
  - etrans; [apply length_filter|]. by rewrite length_fmap.
  - intros row [Hname (entity & -> & _)%list_elem_of_fmap]%list_elem_of_filter.
    split; [|done]. apply built_keys, extract_entity_data_built.
Qed.



(** ** The fields of an OFAC entity *)

Lemma text_of_truthy e t : Xml.text_of e = Some t → Py.truthy t = true.
Proof.
  unfold Xml.text_of. destruct e as [el|]; [|done].
  destruct (Xml.text el) as [x|]; [|done].
  destruct (Py.truthy x) eqn:E; [|done]. by intros [= <-].
Qed.

(** The name loop on the translations of one name. *)
Lemma name_step_spec primary aliases name :
  Ofac.name_step (primary, aliases) name
  = foldl (λ '(p, a) '(b, t),
             if b : bool then (if negb (Py.truthy p) then t else p, a)
             else (p, a ++ [t]))
      (primary, aliases)
      (omap (λ translation,
               (λ t, (bool_decide (Xml.find_child (Ofac.ns "isPrimary") name
                                   ≫= Xml.text = Some "true"), t))
               <$> Xml.text_of (Xml.find_child (Ofac.ns "formattedFullName")
                                  translation))
         (Xml.findall_child_child (Ofac.ns "translations")
            (Ofac.ns "translation") name)).
Proof.
  unfold Ofac.name_step. cbv zeta.
  generalize (Xml.findall_child_child (Ofac.ns "translations")
                (Ofac.ns "translation") name).
  intros l. revert primary aliases.
  induction l as [|tr l IH]; intros primary aliases; [done|].
  cbn [foldl omap list_omap].
  destruct (Xml.text_of (Xml.find_child (Ofac.ns "formattedFullName") tr))
    as [t|]; cbn [fmap option_fmap option_map]; [|apply IH].
  cbn [foldl]. case_bool_decide; apply IH.
Qed.

Lemma name_loop_spec st names :
  foldl Ofac.name_step st names
  = foldl (λ '(p, a) '(b, t),
             if b : bool then (if negb (Py.truthy p) then t else p, a)
             else (p, a ++ [t]))
      st
      (names ≫= λ name,
         omap (λ translation,
                 (λ t, (bool_decide (Xml.find_child (Ofac.ns "isPrimary") name
                                     ≫= Xml.text = Some "true"), t))
                 <$> Xml.text_of (Xml.find_child (Ofac.ns "formattedFullName")
                                    translation))
           (Xml.findall_child_child (Ofac.ns "translations")
              (Ofac.ns "translation") name)).
Proof.
  revert st. induction names as [|name names IH]; intros [p a]; [done|].
  cbn [foldl]. rewrite bind_cons, foldl_app, <- name_step_spec. apply IH.
Qed.

Lemma name_fold_spec (items : list (bool * string)) p a :
  Forall (λ bt, Py.truthy bt.2 = true) items →
  foldl (λ '(p, a) '(b, t),
           if b : bool then (if negb (Py.truthy p) then t else p, a)
           else (p, a ++ [t]))
    (p, a) items
  = (if Py.truthy p then p
     else default "" (snd <$> head (filter (λ bt, bt.1 = true) items)),
     a ++ (snd <$> filter (λ bt, bt.1 = false) items)).
Proof.
  intros Hall. revert p a.
  induction Hall as [|[b t] items Ht _ IH]; intros p a.
  - cbn. rewrite app_nil_r. by destruct p.
  - cbn [foldl]. cbn [snd] in Ht. destruct b.
    + rewrite IH. rewrite (filter_cons_True (λ bt, bt.1 = true)) by done.
      rewrite (filter_cons_False (λ bt, bt.1 = false)) by done.
      cbn [head fmap option_fmap option_map snd default].
      destruct (Py.truthy p) eqn:E; cbn [negb]; [by rewrite E|by rewrite Ht].
    + rewrite IH. rewrite (filter_cons_False (λ bt, bt.1 = true)) by done.
      rewrite (filter_cons_True (λ bt, bt.1 = false)) by done.
      cbn [fmap list_fmap snd]. by rewrite <- app_assoc.
Qed.

Lemma formatted_names_truthy entity :
  Forall (λ bt, Py.truthy bt.2 = true) (formatted_names entity).
Proof.
  unfold formatted_names. apply Forall_forall. intros [b t].
  intros (name & Hin & _)%list_elem_of_bind.
  apply list_elem_of_omap in Hin as (tr & _ & Htr).
  destruct (Xml.text_of _) as [x|] eqn:E; [|done].
  cbn in Htr. injection Htr as <- <-. by eapply text_of_truthy.
Qed.

(** The feature loop, quantity by quantity. *)
Ltac in_list := apply (bool_decide_unpack _); by vm_compute.

Ltac in_list_not :=
  let H := fresh in
  intros H; apply (bool_decide_pack _) in H; by vm_compute in H.

Ltac decided :=
  repeat match goal with
         | H : bool_decide _ = true |- _ => apply bool_decide_eq_true in H
         | H : bool_decide _ = false |- _ => apply bool_decide_eq_false in H
         end;
  simplify_eq.

Lemma feature_step_nats st feature :
  (Ofac.feature_step st feature).1.2
  = st.1.2 ++ option_list (feature_value "10" feature).
Proof.
  destruct st as [[data nats] vf]. unfold Ofac.feature_step, feature_value.
  cbn [fst snd].
  repeat case_match; cbn [fst snd option_list]; decided;
    rewrite ?app_nil_r; done.
Qed.

Lemma feature_step_flag st feature :
  (Ofac.feature_step st feature).2 = default st.2 (feature_value "3" feature).
Proof.
  destruct st as [[data nats] vf]. unfold Ofac.feature_step, feature_value.
  cbn [fst snd].
  repeat case_match; cbn [fst snd default]; decided; done.
Qed.

Lemma set_birthdate_lookup value data k :
  k ∉ ["Date of Birth"; "DOB_DJ"; "DOB_YEAR"] →
  Ofac.set_birthdate value data !! k = data !! k.
Proof.
  intros Hk.
  assert (k ≠ "Date of Birth" ∧ k ≠ "DOB_DJ" ∧ k ≠ "DOB_YEAR")
    as (? & ? & ?) by (repeat split; intros ->; apply Hk; in_list).
  unfold Ofac.set_birthdate.
  repeat case_match; by rewrite !lookup_insert_ne.
Qed.

Lemma feature_step_other st feature k :
  k ∉ ["Date of Birth"; "DOB_DJ"; "DOB_YEAR"; "Place of Birth"; "Gender"] →
  (Ofac.feature_step st feature).1.1 !! k = st.1.1 !! k.
Proof.
  intros Hk.
  assert ((k ∉ ["Date of Birth"; "DOB_DJ"; "DOB_YEAR"])
          ∧ k ≠ "Place of Birth" ∧ k ≠ "Gender")
    as (? & ? & ?).
  { split; [intros Hin; apply Hk; revert Hin; rewrite !elem_of_cons; tauto|].
    split; intros ->; apply Hk; in_list. }
  destruct st as [[data nats] vf]. unfold Ofac.feature_step.
  cbn [fst snd].
  repeat case_match; cbn [fst snd]; try done;
    by rewrite ?set_birthdate_lookup, ?lookup_insert_ne.
Qed.

Lemma feature_fold_nats st features :
  (foldl Ofac.feature_step st features).1.2
  = st.1.2 ++ omap (feature_value "10") features.
Proof.
  revert st. induction features as [|f fs IH]; intros st.
  - by rewrite app_nil_r.
  - cbn [foldl omap list_omap]. rewrite IH, feature_step_nats, <- app_assoc.
    by destruct (feature_value "10" f).
Qed.

Lemma feature_fold_flag st features :
  (foldl Ofac.feature_step st features).2
  = default st.2 (last (omap (feature_value "3") features)).
Proof.
  revert st. induction features as [|f fs IH]; intros st; [done|].
  cbn [foldl omap list_omap]. rewrite IH, feature_step_flag.
  destruct (feature_value "3" f) as [v|]; [|reflexivity].
  destruct (omap (feature_value "3") fs) as [|w l] eqn:E; [reflexivity|].
  rewrite last_cons_cons.
  destruct (last (w :: l)) eqn:El; [done|by apply last_None in El].
Qed.

Lemma feature_fold_other st features k :
  k ∉ ["Date of Birth"; "DOB_DJ"; "DOB_YEAR"; "Place of Birth"; "Gender"] →
  (foldl Ofac.feature_step st features).1.1 !! k = st.1.1 !! k.
Proof.
  intros Hk. revert st. induction features as [|f fs IH]; intros st; [done|].
  cbn [foldl]. by rewrite IH, feature_step_other.
Qed.

Lemma id_docs_loop_lookup docs n data k :
  is_id_key k = false → Ofac.id_docs_loop docs n data !! k = data !! k.
Proof.
  intros Hk.
  assert (k ≠ "ID_1" ∧ k ≠ "ID_Type1" ∧ k ≠ "ID_2" ∧ k ≠ "ID_Type2")
    as (? & ? & ? & ?) by (repeat split; intros ->; by vm_compute in Hk).
  revert n data. induction docs as [|doc docs IH]; intros n data; [done|].
  cbn [Ofac.id_docs_loop].
  repeat case_match; try done; rewrite IH; by rewrite ?lookup_insert_ne.
Qed.

Lemma before_semicolon_app a r :
  Ofac.before_semicolon (a +:+ String ";" r) = Ofac.before_semicolon a.
Proof.
  induction a as [|c a IH]; [done|]. rewrite app_String.
  cbn [Ofac.before_semicolon]. by rewrite IH.
Qed.

Lemma before_semicolon_join n ns :
  Ofac.before_semicolon (Py.join "; " (n :: ns)) = Ofac.before_semicolon n.
Proof.
  destruct ns as [|m ns]; [done|].
  rewrite join_cons2. change ("; " +:+ ?x) with (String ";" (String " " x)).
  apply before_semicolon_app.
Qed.

Lemma feature_values_truthy id entity :
  Forall (λ v, Py.truthy v = true) (feature_values id entity).
Proof.
  unfold feature_values. apply Forall_forall. intros v.
  intros (feature & _ & Hv)%list_elem_of_omap. unfold feature_value in Hv.
  repeat case_match; try done. by eapply text_of_truthy.
Qed.

Lemma truthy_join_cons sep n ns :
  Py.truthy n = true → Py.truthy (Py.join sep (n :: ns)) = true.
Proof.
  intros Hn. destruct ns as [|m ns]; [done|].
  rewrite join_cons2. by destruct n.
Qed.

(** The end of [extract_entity_data], from the identity documents on,
    leaves the other cells alone. *)
Lemma extract_tail_lookup (C : gmap string string) sanctions_list docs
    other k :
  is_id_key k = false →
  k ∉ ["Watchlist"; "Date of listing"; "Other info"] →
  (<["Other info" := other]>
     (match sanctions_list with
      | Some sl =>
          match Xml.get sl "datePublished" with
          | Some date_published =>
              if Py.truthy date_published
              then
                <["Date of listing" :=
                    match Date.strptime date_published "%Y-%m-%d" with
                    | Some date_obj => Date.strftime_d_m_Y date_obj
                    | None => date_published
                    end]>
                  (<["Watchlist" :=
                       "OFAC - Specially Designated National List"]>
                     (Ofac.id_docs_loop docs 0 C))
              else <["Watchlist" :=
                       "OFAC - Specially Designated National List"]>
                     (Ofac.id_docs_loop docs 0 C)
          | None =>
              <["Watchlist" := "OFAC - Specially Designated National List"]>
                (Ofac.id_docs_loop docs 0 C)
          end
      | None => Ofac.id_docs_loop docs 0 C
      end)) !! k = C !! k.
Proof.
  intros Hid Hk.
  assert (k ≠ "Watchlist" ∧ k ≠ "Date of listing" ∧ k ≠ "Other info")
    as (? & ? & ?) by (repeat split; intros ->; apply Hk; in_list).
  rewrite lookup_insert_ne by done.
  repeat case_match; rewrite ?lookup_insert_ne by done;
    by apply id_docs_loop_lookup.
Qed.

(** The cells of the dictionary of an added entity that the name loop, the
    feature loop and the country rule decide. *)
Lemma extract_add_cells entity :
  Xml.get entity "action" = Some "add" →
  let data := Ofac.extract_entity_data entity in
  let fnames := formatted_names entity in
  let nats := feature_values "10" entity in
  let flag := default "" (last (feature_values "3" entity)) in
  data !! "Type" = Some (entity_type_label entity)
  ∧ data !! "Name"
    = Some (default "" (snd <$> head (filter (λ bt, bt.1 = true) fnames)))
  ∧ data !! "Aliases"
    = Some (join_or_blank "; " (snd <$> filter (λ bt, bt.1 = false) fnames))
  ∧ data !! "Nationality" = Some (join_or_blank "; " nats)
  ∧ data !! "COUNTRY"
    = Some (if String.eqb (entity_type_label entity) "Vessel"
               && Py.truthy flag
            then flag
            else match nats with
                 | n :: _ => Py.strip (Ofac.before_semicolon n)
                 | [] => default "" (head (address_countries entity))
                 end).
Proof.
  intros Hadd data fnames nats flag. subst data.
  unfold Ofac.extract_entity_data. rewrite Hadd.
  change (negb (String.eqb (default "" (Some "add")) "add")) with false.
  cbv zeta. cbn iota.
  set (data1 := match Xml.find_desc_child _ _ entity with
                | Some _ => _ | None => Ofac.blank_data end).
  assert (data1 !! "Type" = Some (entity_type_label entity)
          ∧ ∀ k, k ≠ "Type" → data1 !! k = Ofac.blank_data !! k) as [Ht H1].
  { unfold data1, entity_type_label.
    destruct (Xml.find_desc_child _ _ entity).
    - split; [apply lookup_insert_eq|]. intros k Hk. by rewrite lookup_insert_ne.
    - done. }
  assert (Ofac.field data1 "Name" = "") as ->.
  { unfold Ofac.field. by rewrite H1. }
  clearbody data1.
  rewrite name_loop_spec. fold (formatted_names entity). fold fnames.
  rewrite (name_fold_spec fnames) by apply formatted_names_truthy.
  cbn [Py.truthy app].
  match goal with
  | |- context [foldl Ofac.feature_step ?st ?fs] =>
      pose proof (feature_fold_nats st fs) as Hn;
      pose proof (feature_fold_flag st fs) as Hf;
      pose proof (λ k, feature_fold_other st fs k) as Ho;
      destruct (foldl Ofac.feature_step st fs) as [[data2 nats'] vf]
  end.
  cbn [fst snd app] in Hn, Hf, Ho.
  fold (feature_values "10" entity) in Hn. fold nats in Hn.
  fold (feature_values "3" entity) in Hf. fold flag in Hf. subst nats' vf.
  fold (address_countries entity).
  assert (data2 !! "Type" = Some (entity_type_label entity)) as Ht2
    by (rewrite Ho by in_list_not; by rewrite !lookup_insert_ne).
  set (B := <["Nationality" := join_or_blank "; " nats]> data2).
  assert (Ofac.field B "Type" = entity_type_label entity) as ->.
  { unfold Ofac.field, B. by rewrite lookup_insert_ne, Ht2. }
  assert (Ofac.field B "Nationality" = join_or_blank "; " nats) as ->.
  { unfold Ofac.field, B. by rewrite lookup_insert_eq. }
  set (C := if String.eqb (entity_type_label entity) "Vessel" && Py.truthy flag
            then _ else _).
  assert (∀ k, k ≠ "COUNTRY" → C !! k = B !! k) as HC.
  { intros k Hk. unfold C. repeat case_match; by rewrite ?lookup_insert_ne. }
  assert (C !! "COUNTRY"
          = Some (if String.eqb (entity_type_label entity) "Vessel"
                     && Py.truthy flag
                  then flag
                  else match nats with
                       | n :: _ => Py.strip (Ofac.before_semicolon n)
                       | [] => default "" (head (address_countries entity))
                       end)) as HCc.
  { unfold C. destruct (String.eqb _ _ && Py.truthy flag);
      [apply lookup_insert_eq|].
    pose proof (feature_values_truthy "10" entity) as Hall. fold nats in Hall.
    destruct nats as [|n ns].
    - cbn [join_or_blank Py.truthy].
      destruct (address_countries entity); cbn [head default];
        [|apply lookup_insert_eq].
      unfold B. rewrite lookup_insert_ne by done.
      rewrite Ho by in_list_not. rewrite !lookup_insert_ne by done.
      by rewrite H1.
    - apply Forall_cons in Hall as [Hn _].
      cbn [join_or_blank]. rewrite truthy_join_cons by done.
      rewrite before_semicolon_join. apply lookup_insert_eq. }
  clearbody C.
  rewrite !extract_tail_lookup by (done || in_list_not).
  split; [|split; [|split; [|split]]].
  - rewrite HC by done. unfold B. by rewrite lookup_insert_ne.
  - rewrite HC by done. unfold B. rewrite lookup_insert_ne by done.
    rewrite Ho by in_list_not. rewrite lookup_insert_ne by done.
    apply lookup_insert_eq.
  - rewrite HC by done. unfold B. rewrite lookup_insert_ne by done.
    rewrite Ho by in_list_not. apply lookup_insert_eq.
  - rewrite HC by done. apply lookup_insert_eq.
  - exact HCc.
Qed.

(** Property X10.  For an added entity, Name is the first formatted name
    that translates a primary name (empty when there is none), and Aliases
    lists, in document order and separated by semicolons, the formatted names
    that translate the other names; a further primary name is kept
    nowhere. *)
Theorem ofac_name_and_aliases entity :
  Xml.get entity "action" = Some "add" →
  let data := Ofac.extract_entity_data entity in
  Ofac.field data "Name"
  = default "" (snd <$> head (filter (λ bt, bt.1 = true)
                               (formatted_names entity)))
  ∧ Ofac.field data "Aliases"
    = join_or_blank "; "
        (snd <$> filter (λ bt, bt.1 = false) (formatted_names entity)).
Proof.
  intros Hadd data.
  destruct (extract_add_cells entity Hadd) as (_ & Hn & Ha & _).
  fold data in Hn, Ha.
  by rewrite (field_of_cell _ _ _ Hn), (field_of_cell _ _ _ Ha).
Qed.

Lemma ofac_name_and_aliases_witness :
  formatted_names (sample_entity "add" five_docs)
  = [(true, "DOE, John"); (false, "DOE, Johnny")]
  ∧ Ofac.field (Ofac.extract_entity_data (sample_entity "add" five_docs))
      "Name" = "DOE, John"
  ∧ Ofac.field (Ofac.extract_entity_data (sample_entity "add" five_docs))
      "Aliases" = "DOE, Johnny".
Proof.
  destruct (ofac_name_and_aliases (sample_entity "add" five_docs) eq_refl)
    as [Hn Ha].
  split; [reflexivity|]. split; [exact Hn|exact Ha].
Defined.

(** Property X11.  For an added entity, Nationality joins the values of the
    nationality features with semicolons, and COUNTRY is: for a vessel with a
    flag, the last flag value; otherwise, when there is a nationality, the
    first one up to its first semicolon, stripped; otherwise the country of
    the first address that has one, or nothing. *)
Theorem ofac_country_rule entity :
  Xml.get entity "action" = Some "add" →
  let data := Ofac.extract_entity_data entity in
  let nats := feature_values "10" entity in
  let flag := default "" (last (feature_values "3" entity)) in
  Ofac.field data "Type" = entity_type_label entity
  ∧ Ofac.field data "Nationality" = join_or_blank "; " nats
  ∧ Ofac.field data "COUNTRY"
    = if String.eqb (entity_type_label entity) "Vessel" && Py.truthy flag
      then flag
      else match nats with
           | n :: _ => Py.strip (Ofac.before_semicolon n)
           | [] => default "" (head (address_countries entity))
           end.
Proof.
  intros Hadd data nats flag.
  destruct (extract_add_cells entity Hadd) as (Ht & _ & _ & Hn & Hc).
  fold data nats flag in Ht, Hn, Hc.
  by rewrite (field_of_cell _ _ _ Ht), (field_of_cell _ _ _ Hn),
       (field_of_cell _ _ _ Hc).
Qed.

Lemma ofac_country_rule_witness :
  feature_values "10" (sample_entity "add" five_docs) = ["Liberia"]
  ∧ Ofac.field (Ofac.extract_entity_data (sample_entity "add" five_docs))
      "Type" = "Individual"
  ∧ Ofac.field (Ofac.extract_entity_data (sample_entity "add" five_docs))
      "COUNTRY" = "Liberia".
Proof.
  destruct (ofac_country_rule (sample_entity "add" five_docs) eq_refl)
    as (Ht & _ & Hc).
  split; [reflexivity|]. split; [exact Ht|exact Hc].
Defined.

(** ** The records the UN extractor exports *)













Lemma valid_date_minus_one_day d :
  valid_date d → d ≠ Date.mkDate 1 1 1 →
  ∃ p, Date.minus_one_day d = Some p
       ∧ Date.toordinal p = (Date.toordinal d - 1)%Z.
Proof.
  intros Hv Hne. pose proof (valid_date_bounds d Hv) as (Hy & Hm & Hd).
  destruct (minus_one_day_exists d) as [p Hp]; [lia..|done|].
  exists p. split; [done|]. apply minus_one_day_ordinal; [done|lia|done].
Qed.

(** Property X13.  When the document has no dateGenerated attribute, or an
    empty one, the window of the UN extractor is the current date and the
    day before it: the records exported are exactly, in document order,
    those of each section whose LISTED_ON reads as one of these two dates. *)
Theorem un_window_without_date_generated today root :
  valid_date today →
  today ≠ Date.mkDate 1 1 1 →
  (Xml.get root "dateGenerated" = None
   ∨ Xml.get root "dateGenerated" = Some "") →
  ∃ p,
    Date.minus_one_day today = Some p
    ∧ Date.toordinal p = (Date.toordinal today - 1)%Z
    ∧ Un.parse_un_sanctions_xml today root
      = Some (Un.extract_individual_data
                <$> filter (listed_in [today; p])
                      (section_records "INDIVIDUALS" "INDIVIDUAL" root),
              Un.extract_entity_data
                <$> filter (listed_in [today; p])
                      (section_records "ENTITIES" "ENTITY" root)).
Proof.
  intros Hv Hne Hattr.
  destruct (valid_date_minus_one_day today Hv Hne) as (p & Hp & Hord).
  exists p. split; [done|]. split; [done|].
  unfold Un.parse_un_sanctions_xml, section_records.
  assert (match Xml.get root "dateGenerated" with
          | Some date_generated_str =>
              if Py.truthy date_generated_str
              then Un.fromisoformat_date (Un.replace_Z date_generated_str)
              else Some today
          | None => Some today
          end = Some today) as ->
    by (by destruct Hattr as [-> | ->]).
  cbn [mbind option_bind]. rewrite Hp. cbn [mbind option_bind].
  f_equal. f_equal.
  - destruct (Xml.find_child "INDIVIDUALS" root);
      [apply listing_loop_filter|done].
  - destruct (Xml.find_child "ENTITIES" root);
      [apply listing_loop_filter|done].
Qed.

Lemma un_window_without_date_generated_witness :
  ∃ p,
    Date.minus_one_day (Date.mkDate 2025 3 1) = Some p
    ∧ p = Date.mkDate 2025 2 28
    ∧ Un.parse_un_sanctions_xml (Date.mkDate 2025 3 1)
        (Xml.Elem "CONSOLIDATED_LIST" [] None
           [ un_el "ENTITIES" "" [ un_entity "G" "2025-02-28" ] ])
      = Some ([],
              Un.extract_entity_data
                <$> filter (listed_in [Date.mkDate 2025 3 1; p])
                      [ un_entity "G" "2025-02-28" ]).
Proof.
  destruct (un_window_without_date_generated (Date.mkDate 2025 3 1)
              (Xml.Elem "CONSOLIDATED_LIST" [] None
                 [ un_el "ENTITIES" "" [ un_entity "G" "2025-02-28" ] ])
              eq_refl)
    as (p & Hp & _ & Hrun); [discriminate|by left|].
  exists p. split; [exact Hp|]. split; [|exact Hrun].
  cbv in Hp. by injection Hp as <-.
Defined.

(** Property X14.  The UN extractor is stopped by an exception, and exports
    nothing, exactly when the document has a non-empty dateGenerated
    attribute that does not read as an ISO date and time, or reads as the
    first day of the calendar; a missing or empty attribute never stops
    it. *)
Theorem un_parse_aborts today root :
  valid_date today →
  today ≠ Date.mkDate 1 1 1 →
  Un.parse_un_sanctions_xml today root = None
  ↔ ∃ s, Xml.get root "dateGenerated" = Some s
         ∧ Py.truthy s = true
         ∧ (Un.fromisoformat_date (Un.replace_Z s) = None
            ∨ Un.fromisoformat_date (Un.replace_Z s)
              = Some (Date.mkDate 1 1 1)).
Proof.
  intros Hv Hne.
  destruct (valid_date_minus_one_day today Hv Hne) as (p & Hp & _).
  unfold Un.parse_un_sanctions_xml.
  destruct (Xml.get root "dateGenerated") as [s|] eqn:Hattr.
  2:{ cbn [mbind option_bind]. rewrite Hp. cbn [mbind option_bind].
      split; [done|]. by intros (? & ? & _). }
  destruct (Py.truthy s) eqn:Ht.
  2:{ cbn [mbind option_bind]. rewrite Hp. cbn [mbind option_bind].
      split; [done|]. intros (? & [= <-] & Ht' & _). congruence. }
  destruct (Un.fromisoformat_date (Un.replace_Z s)) as [g|] eqn:Hg.
  2:{ cbn [mbind option_bind]. split; [|done]. intros _. exists s. eauto. }
  cbn [mbind option_bind].
  destruct (decide (g = Date.mkDate 1 1 1)) as [->|Hmin].
  { split; [|done]. intros _. exists s. rewrite Hg. eauto. }
  pose proof (fromisoformat_date_valid _ _ Hg) as (Hy & Hm & Hd).
  destruct (minus_one_day_exists g) as [q Hq]; [lia..|done|].
  rewrite Hq. cbn [mbind option_bind]. split; [done|].
  intros (s' & [= <-] & _ & [Hn|Hn]); rewrite Hg in Hn; congruence.
Qed.

Lemma un_parse_aborts_witness :
  Un.fromisoformat_date (Un.replace_Z "30/07/2025") = None
  ∧ Un.parse_un_sanctions_xml (Date.mkDate 2025 3 1)
      (Xml.Elem "CONSOLIDATED_LIST" [("dateGenerated", "30/07/2025")] None
         [ un_el "ENTITIES" "" [ un_entity "G" "2025-02-28" ] ])
    = None.
Proof.
  split; [reflexivity|].
  apply (un_parse_aborts (Date.mkDate 2025 3 1)
           (Xml.Elem "CONSOLIDATED_LIST" [("dateGenerated", "30/07/2025")]
              None [ un_el "ENTITIES" "" [ un_entity "G" "2025-02-28" ] ])
           eq_refl); [discriminate|].
  exists "30/07/2025". split; [reflexivity|]. split; [reflexivity|].
  left. reflexivity.
Defined.

(** ** Cleaning the collaborator's answer *)

Lemma space_not_backtick c : Py.is_space c = true → Ascii.eqb c "`" = false.
Proof. destruct c as [[] [] [] [] [] [] [] []]; vm_compute; congruence. Qed.

Lemma lstrip_blank ws t : blank ws → Py.lstrip (ws +:+ t) = Py.lstrip t.
Proof.
  unfold blank. induction ws as [|c ws IH]; [done|].
  cbn [Py.all_chars]. intros [Hc Hws]%andb_true_iff.
  rewrite app_String. cbn [Py.lstrip]. rewrite Hc. by apply IH.
Qed.

Lemma lstrip_blank_nil ws : blank ws → Py.lstrip ws = "".
Proof.
  intros H. rewrite <- (string_app_nil_r ws). by rewrite lstrip_blank.
Qed.

Lemma lstrip_before_fence a t :
  Py.lstrip (a +:+ String "`" t) = Py.lstrip a +:+ String "`" t.
Proof.
  induction a as [|c a IH]; [done|]. rewrite app_String. cbn [Py.lstrip].
  destruct (Py.is_space c); [apply IH|by rewrite app_String].
Qed.

Lemma no_backtick_lstrip a : no_backtick a → no_backtick (Py.lstrip a).
Proof.
  unfold no_backtick. induction a as [|c a IH]; [done|].
  cbn [Py.all_chars Py.lstrip]. intros [Hc Ha]%andb_true_iff.
  destruct (Py.is_space c); [by apply IH|].
  cbn [Py.all_chars]. by rewrite Hc, Ha.
Qed.

Lemma lstrip_idempotent a : Py.lstrip (Py.lstrip a) = Py.lstrip a.
Proof.
  induction a as [|c a IH]; [done|]. cbn [Py.lstrip].
  destruct (Py.is_space c) eqn:E; [done|]. cbn [Py.lstrip]. by rewrite E.
Qed.

(** No opening fence starts inside a text without backtick, nor at a fence
    that blanks follow. *)
Lemma remove_csv_fences_blank n ws :
  blank ws → Gemini.remove_csv_fences n ws = ws.
Proof.
  unfold blank. revert ws. induction n as [|n IH]; intros ws Hws; [done|].
  destruct ws as [|c ws]; [done|]. cbn [Py.all_chars] in Hws.
  apply andb_true_iff in Hws as [Hc Hws].
  cbn [Gemini.remove_csv_fences]. unfold Gemini.fence.
  rewrite !app_String, app_Empty. cbn [Py.startswith].
  rewrite Ascii.eqb_sym, (space_not_backtick c Hc). cbn [andb].
  by rewrite IH.
Qed.

Lemma startswith_opening_blank k ws :
  blank ws → k ≤ 3 →
  Py.startswith (Gemini.fence +:+ "csv")
    (Py.drop k Gemini.fence +:+ ws) = false.
Proof.
  intros Hws Hk. unfold Gemini.fence.
  destruct ws as [|c ws].
  { destruct k as [|[|[|[|k]]]]; [done..|lia]. }
  unfold blank in Hws. cbn [Py.all_chars] in Hws.
  apply andb_true_iff in Hws as [Hc _].
  assert (Ascii.eqb "c" c = false ∧ Ascii.eqb "`" c = false) as [Hc1 Hc2].
  { revert Hc. clear. destruct c as [[] [] [] [] [] [] [] []]; vm_compute;
      intros; (done || congruence). }
  destruct k as [|[|[|[|k]]]]; [| | | |lia];
    cbn [Py.drop]; rewrite ?app_String, ?app_Empty;
    cbn [Py.startswith]; rewrite ?Ascii.eqb_refl, ?Hc1, ?Hc2; done.
Qed.

Lemma remove_csv_fences_tail n k ws :
  blank ws → k ≤ 3 →
  Gemini.remove_csv_fences n (Py.drop k Gemini.fence +:+ ws)
  = Py.drop k Gemini.fence +:+ ws.
Proof.
  intros Hws. revert k. induction n as [|n IH]; intros k Hk; [done|].
  destruct (decide (k = 3)) as [->|Hne].
  { cbn [Py.drop Gemini.fence]. rewrite app_Empty.
    by apply remove_csv_fences_blank. }
  cbn [Gemini.remove_csv_fences].
  rewrite startswith_opening_blank by (done || lia).
  assert (∃ r, Py.drop k Gemini.fence = String "`" r
               ∧ r = Py.drop (S k) Gemini.fence) as (r & Hr & Hr').
  { destruct k as [|[|[|k]]]; [eexists; split; reflexivity..|lia]. }
  rewrite Hr, app_String. subst r. rewrite IH by lia. done.
Qed.

Lemma remove_csv_fences_plain n a ws :
  no_backtick a → blank ws →
  Gemini.remove_csv_fences n (a +:+ Gemini.fence +:+ ws)
  = a +:+ Gemini.fence +:+ ws.
Proof.
  intros Ha Hws. revert a Ha. induction n as [|n IH]; intros a Ha; [done|].
  destruct a as [|c a].
  { rewrite app_Empty. apply (remove_csv_fences_tail (S n) 0); [done|lia]. }
  unfold no_backtick in Ha. cbn [Py.all_chars] in Ha.
  apply andb_true_iff in Ha as [Hc Ha]. apply negb_true_iff in Hc.
  rewrite app_String. cbn [Gemini.remove_csv_fences].
  unfold Gemini.fence at 1. rewrite !app_String, app_Empty.
  cbn [Py.startswith]. rewrite Ascii.eqb_sym, Hc. cbn [andb].
  by rewrite IH.
Qed.

Lemma remove_csv_fences_no_backtick n a :
  no_backtick a → Gemini.remove_csv_fences n a = a.
Proof.
  revert a. induction n as [|n IH]; intros a Ha; [done|].
  destruct a as [|c a]; [done|].
  unfold no_backtick in Ha. cbn [Py.all_chars] in Ha.
  apply andb_true_iff in Ha as [Hc Ha]. apply negb_true_iff in Hc.
  cbn [Gemini.remove_csv_fences].
  unfold Gemini.fence at 1. rewrite !app_String, app_Empty.
  cbn [Py.startswith]. rewrite Ascii.eqb_sym, Hc. cbn [andb].
  by rewrite IH.
Qed.

Lemma remove_closing_fence_no_backtick a :
  no_backtick a → Gemini.remove_closing_fence a = a.
Proof.
  induction a as [|c a IH]; [done|].
  unfold no_backtick. cbn [Py.all_chars].
  intros [Hc Ha]%andb_true_iff. apply negb_true_iff in Hc.
  cbn [Gemini.remove_closing_fence]. unfold Gemini.fence at 1.
  cbn [Py.startswith]. rewrite Ascii.eqb_sym, Hc. cbn [andb].
  by rewrite IH.
Qed.

Lemma remove_closing_fence_plain a ws :
  no_backtick a → blank ws →
  Gemini.remove_closing_fence (a +:+ Gemini.fence +:+ ws) = a.
Proof.
  intros Ha Hws. induction a as [|c a IH].
  - rewrite app_Empty. unfold Gemini.fence. rewrite !app_String, app_Empty.
    cbn [Gemini.remove_closing_fence]. unfold Gemini.fence.
    cbn [Py.startswith Py.drop]. rewrite !Ascii.eqb_refl. cbn [andb].
    by rewrite (lstrip_blank_nil ws).
  - unfold no_backtick in Ha. cbn [Py.all_chars] in Ha.
    apply andb_true_iff in Ha as [Hc Ha]. apply negb_true_iff in Hc.
    rewrite app_String. cbn [Gemini.remove_closing_fence].
    unfold Gemini.fence at 1. cbn [Py.startswith].
    rewrite Ascii.eqb_sym, Hc. cbn [andb]. by rewrite IH.
Qed.

(** Property X15.  Cleaning the collaborator's answer: a text without
    backtick is only stripped; of an answer that is one fenced CSV block (the
    opening fence, blanks, a body without backtick, the closing fence,
    blanks) what remains is the body stripped; and in every case the result
    has no blank at either end. *)
Theorem clean_csv_response_fences :
  (∀ t, no_backtick t → Gemini.clean_csv_response t = Py.strip t)
  ∧ (∀ ws1 body ws2,
       blank ws1 → no_backtick body → blank ws2 →
       Gemini.clean_csv_response
         (Gemini.fence +:+ "csv" +:+ ws1 +:+ body +:+ Gemini.fence +:+ ws2)
       = Py.strip body)
  ∧ (∀ t, Py.strip (Gemini.clean_csv_response t)
          = Gemini.clean_csv_response t).
Proof.
  split; [|split].
  - intros t Ht. unfold Gemini.clean_csv_response. cbv zeta.
    by rewrite remove_csv_fences_no_backtick, remove_closing_fence_no_backtick.
  - intros ws1 body ws2 H1 Hb H2. unfold Gemini.clean_csv_response. cbv zeta.
    set (text := Gemini.fence +:+ "csv" +:+ ws1 +:+ body +:+ Gemini.fence
                 +:+ ws2).
    assert (Gemini.remove_csv_fences (S (String.length text)) text
            = Py.lstrip body +:+ Gemini.fence +:+ ws2) as ->.
    { generalize (String.length text). intros n. unfold text.
      assert (Gemini.fence +:+ "csv" +:+ ws1 +:+ body +:+ Gemini.fence +:+ ws2
              = String "`" (String "`" (String "`" (String "c" (String "s"
                  (String "v" (ws1 +:+ body +:+ Gemini.fence +:+ ws2)))))))
        as -> by reflexivity.
      cbn [Gemini.remove_csv_fences].
      assert (Py.startswith (Gemini.fence +:+ "csv")
                (String "`" (String "`" (String "`" (String "c" (String "s"
                   (String "v" (ws1 +:+ body +:+ Gemini.fence +:+ ws2)))))))
              = true) as -> by reflexivity.
      cbn [Py.drop]. rewrite lstrip_blank by done.
      assert (body +:+ Gemini.fence +:+ ws2
              = body +:+ String "`" (String "`" (String "`" ws2)))
        as -> by reflexivity.
      rewrite lstrip_before_fence.
      apply (remove_csv_fences_plain n (Py.lstrip body) ws2);
        [by apply no_backtick_lstrip|done]. }
    rewrite remove_closing_fence_plain by (done || by apply no_backtick_lstrip).
    unfold Py.strip. by rewrite lstrip_idempotent.
  - intros t. unfold Gemini.clean_csv_response. cbv zeta.
    apply strip_idempotent.
Qed.

Lemma clean_csv_response_fences_witness :
  three_column_answer
  = Gemini.fence +:+ "csv" +:+ line_feed
    +:+ ("Name,Type,Watchlist" +:+ line_feed +:+ "ACME,Entity,2025/1578"
         +:+ line_feed)
    +:+ Gemini.fence +:+ ""
  ∧ Gemini.clean_csv_response three_column_answer
    = Py.strip ("Name,Type,Watchlist" +:+ line_feed
                +:+ "ACME,Entity,2025/1578" +:+ line_feed).
Proof.
  destruct clean_csv_response_fences as (_ & Hfenced & _).
  split; [reflexivity|].
  apply (Hfenced line_feed
           ("Name,Type,Watchlist" +:+ line_feed +:+ "ACME,Entity,2025/1578"
            +:+ line_feed) ""); reflexivity.
Defined.
